(** * Raptor TypeScript SDK: the processing lifecycle of [src/index.ts]

    A shallow embedding of the client constructor, of [process],
    [processStream], [getChunks] and [transformVariant], and the properties
    the specification states about them.

    Conventions of the embedding.
    - A character of a string is one code unit below 256, so [string] stands
      for JavaScript strings over that range.
    - Counters, millisecond clocks, intervals, version numbers and HTTP
      status codes are integers ([Z]).
    - A number that a caller passes and the SDK compares with a bound (the
      two ceilings of the polling loop, the three bounds of the
      configuration, the page size and the offset of a listing) is an
      integer, [Infinity], [-Infinity] or [NaN] ([Num]); fractions are
      outside the model.  An integer is printed with all its digits up to
      2^53 in magnitude, and as the host prints it beyond.
    - Numbers of a payload are only copied, tested for truthiness and
      printed by the SDK; their type is left abstract ([NumberOps]).
    - [fetch], [Date.now], [fs], [path.basename] and [new URL] belong to the
      host; a [World] fixes their answers, and every effect that [process]
      performs is appended to a chronological trace. *)

From Stdlib Require Import String Ascii List ZArith Lia Bool DecimalString.
Import ListNotations.
Open Scope string_scope.
Open Scope list_scope.
Open Scope Z_scope.

Infix "+++" := String.append (right associativity, at level 60).

(* ================================================================== *)
(** * Part I: definitions *)
(* ================================================================== *)

(** ** Strings *)

(** The decimal digits of an integer, after a minus sign when it is
    negative. *)
Definition decimal (z : Z) : string := NilZero.string_of_int (Z.to_int z).

(** [Boolean.prototype.toString]. *)
Definition bool_toString (b : bool) : string := if b then "true" else "false".

(** [s.includes(needle)]. *)
Definition includes (needle s : string) : bool :=
  match index 0 needle s with Some _ => true | None => false end.

(** [s.startsWith(p)]. *)
Definition startsWith (p s : string) : bool := prefix p s.

(** A string is truthy when it is not empty. *)
Definition string_truthy (s : string) : bool :=
  match s with EmptyString => false | String _ _ => true end.

(** White space removed by [String.prototype.trim], below code unit 256:
    TAB, LF, VT, FF, CR, SPACE and NBSP. *)
Definition is_whitespace (c : ascii) : bool :=
  let n := nat_of_ascii c in
  (Nat.eqb n 9 || Nat.eqb n 10 || Nat.eqb n 11 || Nat.eqb n 12 ||
   Nat.eqb n 13 || Nat.eqb n 32 || Nat.eqb n 160)%bool.

(** [s.trim().length === 0]: nothing but white space. *)
Fixpoint trim_is_empty (s : string) : bool :=
  match s with
  | EmptyString => true
  | String c s' => (is_whitespace c && trim_is_empty s')%bool
  end.

(** [s.replace(/\/$/, '')]: drop one slash at the very end. *)
Fixpoint strip_trailing_slash (s : string) : string :=
  match s with
  | EmptyString => EmptyString
  | String c EmptyString => if Ascii.eqb c "/" then EmptyString else s
  | String c s' => String c (strip_trailing_slash s')
  end.

(** [c.toLowerCase()] for one code unit: A-Z, and the upper-case letters of
    the Latin-1 block (0xC0-0xDE without the multiplication sign 0xD7). *)
Definition lower_ascii (c : ascii) : ascii :=
  let n := nat_of_ascii c in
  if ((Nat.leb 65 n && Nat.leb n 90) ||
      (Nat.leb 192 n && Nat.leb n 222 && negb (Nat.eqb n 215)))%bool
  then ascii_of_nat (n + 32) else c.

Fixpoint toLowerCase (s : string) : string :=
  match s with
  | EmptyString => EmptyString
  | String c s' => String (lower_ascii c) (toLowerCase s')
  end.

(** [s.split('.').pop()]: what follows the last dot, the whole string when
    it has no dot.  [acc] is the segment read so far. *)
Fixpoint last_segment (acc s : string) : string :=
  match s with
  | EmptyString => acc
  | String c s' =>
      if Ascii.eqb c "." then last_segment EmptyString s'
      else last_segment (acc +++ String c EmptyString) s'
  end.

(** Look a key up in a table written as an object literal. *)
Fixpoint assoc {A : Type} (k : string) (l : list (string * A)) : option A :=
  match l with
  | [] => None
  | (k', v) :: l' => if String.eqb k k' then Some v else assoc k l'
  end.

(** ** JavaScript values *)

(** The host's numbers, as far as the SDK uses those of a payload. *)
Record NumberOps : Type := {
  number : Type;
  number_truthy : number -> bool;      (* false for 0, -0 and NaN *)
  number_toString : number -> string;  (* Number.prototype.toString *)
  number_zero : number;                (* the literal 0 *)
  integer_toString : Z -> string;      (* Number.prototype.toString on an
                                          integer beyond 2^53: the shortest
                                          digits that read back as the same
                                          number, in exponent form from
                                          1e21 on *)
}.

Section Values.

Variable N : NumberOps.

(** A decoded JSON body, or any value the SDK holds at run time.
    An object lists its own properties; a name bound twice reads as its
    first binding. *)
#[warnings="-register-all"]
Inductive value : Type :=
| VUndefined
| VNull
| VBool (b : bool)
| VNum (n : number N)
| VStr (s : string)
| VArr (items : list value)
| VObj (props : list (string * value)).

(** ToBoolean. *)
Definition truthy (v : value) : bool :=
  match v with
  | VUndefined | VNull => false
  | VBool b => b
  | VNum n => number_truthy N n
  | VStr s => string_truthy s
  | VArr _ | VObj _ => true
  end.

(** [a || b]. *)
Definition js_or (a b : value) : value := if truthy a then a else b.

Definition nullish (v : value) : bool :=
  match v with VUndefined | VNull => true | _ => false end.

(** [v.k] for a data property [k] of a payload, on a value that is neither
    [null] nor [undefined].  None of the names the SDK reads is defined on a
    built-in prototype, so only objects answer. *)
Definition prop (v : value) (k : string) : value :=
  match v with
  | VObj props => match assoc k props with Some x => x | None => VUndefined end
  | _ => VUndefined
  end.

(** ['k' in v] for an object or array [v]. *)
Definition has_prop (v : value) (k : string) : bool :=
  match v with
  | VObj props => match assoc k props with Some _ => true | None => false end
  | _ => false
  end.

(** [v === 'lit']. *)
Definition is_str (v : value) (lit : string) : bool :=
  match v with VStr s => String.eqb s lit | _ => false end.

(** ToString, as a template literal applies it. *)
Fixpoint toStringJS (v : value) : string :=
  match v with
  | VUndefined => "undefined"
  | VNull => "null"
  | VBool b => bool_toString b
  | VNum n => number_toString N n
  | VStr s => s
  | VArr items =>
      String.concat ","
        (map (fun x => if nullish x then EmptyString else toStringJS x) items)
  | VObj _ => "[object Object]"
  end.

End Values.

Arguments VUndefined {N}.
Arguments VNull {N}.
Arguments VBool {N} b.
Arguments VNum {N} n.
Arguments VStr {N} s.
Arguments VArr {N} items.
Arguments VObj {N} props.
Arguments truthy {N} v.
Arguments js_or {N} a b.
Arguments nullish {N} v.
Arguments prop {N} v k.
Arguments has_prop {N} v k.
Arguments is_str {N} v lit.
Arguments toStringJS {N} v.

(** ** Errors *)

(** What a host function throws or rejects with: an [Error] with its
    message and, for [fs], its [code]; or some other value (neither [null]
    nor [undefined]). *)
Inductive thrown : Type :=
| HostError (message : string) (code : option string)
| HostValue.

(** [error instanceof Error ? error.message : 'Unknown error']. *)
Definition thrown_message (t : thrown) : string :=
  match t with HostError m _ => m | HostValue => "Unknown error" end.

(** What the SDK's functions throw. *)
Inductive exn (N : NumberOps) : Type :=
| RaptorError (message : string)
| RaptorAPIError (message : string) (statusCode : Z) (response : value N)
| TypeError                 (* the engine: a property of null, a call of a non-function *)
| HostThrown (t : thrown).  (* a host rejection that no catch block wraps *)

Arguments RaptorError {N} message.
Arguments RaptorAPIError {N} message statusCode response.
Arguments TypeError {N}.
Arguments HostThrown {N} t.

(** [v.k] where [v] may be [null] or [undefined]. *)
Definition get {N} (v : value N) (k : string) : exn N + value N :=
  if nullish v then inl TypeError else inr (prop v k).

(** [n || d] on an optional integer: [undefined] and [0] give [d]. *)
Definition Z_or (o : option Z) (d : Z) : Z :=
  match o with
  | Some z => if z =? 0 then d else z
  | None => d
  end.

(** ** Numbers *)

(** [Number.prototype.toString] on an integer: all its digits up to 2^53 in
    magnitude, what the host prints beyond. *)
Definition Z_print (beyond : Z -> string) (z : Z) : string :=
  if Z.abs z <=? 2 ^ 53 then decimal z else beyond z.

Definition Z_toString (N : NumberOps) (z : Z) : string :=
  Z_print (integer_toString N) z.

(** A value of the type [number] where the SDK compares it with a bound:
    an integer, an infinity or [NaN]. *)
Inductive Num : Type :=
| Finite (z : Z)
| Infinity
| NegInfinity
| NaN.

(** ToBoolean: [0] and [NaN] are falsy. *)
Definition Num_truthy (n : Num) : bool :=
  match n with
  | Finite z => negb (z =? 0)
  | NaN => false
  | Infinity | NegInfinity => true
  end.

(** [n || d] on an optional number. *)
Definition Num_or (o : option Num) (d : Num) : Num :=
  match o with
  | Some n => if Num_truthy n then n else d
  | None => d
  end.

(** [a < b]: false as soon as one side is [NaN]. *)
Definition Num_ltb (a b : Num) : bool :=
  match a, b with
  | Finite x, Finite y => x <? y
  | Finite _, Infinity => true
  | NegInfinity, Finite _ => true
  | NegInfinity, Infinity => true
  | _, _ => false
  end.

(** [a > b]. *)
Definition Num_gtb (a b : Num) : bool := Num_ltb b a.

(** [Number.prototype.toString]. *)
Definition Num_toString (N : NumberOps) (n : Num) : string :=
  match n with
  | Finite z => Z_toString N z
  | Infinity => "Infinity"
  | NegInfinity => "-Infinity"
  | NaN => "NaN"
  end.

(** Truthiness of an optional boolean. *)
Definition flag (o : option bool) : bool :=
  match o with Some b => b | None => false end.

(** ** The client and its constructor *)

Record RaptorConfig : Type := {
  cfg_apiKey : string;
  cfg_baseUrl : option string;
  cfg_timeout : option Num;
  cfg_maxPollAttempts : option Num;
  cfg_pollTimeout : option Num;
  cfg_dangerouslyAllowLocalhost : option bool;
}.

Record Client : Type := {
  apiKey : string;
  baseUrl : string;
  timeout : Num;
  maxPollAttempts : Num;
  pollTimeout : Num;
}.

(** The two fields of a parsed [URL] the constructor reads. *)
Record URL : Type := { protocol : string; hostname : string }.

Definition digit_between (lo hi : nat) (c : ascii) : bool :=
  let n := nat_of_ascii c in
  (Nat.leb (48 + lo) n && Nat.leb n (48 + hi))%bool.

(** [h.match(/^172\.(1[6-9]|2[0-9]|3[0-1])\./)]. *)
Definition matches_172_private (h : string) : bool :=
  match h with
  | String "1" (String "7" (String "2" (String "."
      (String a (String b (String "." _)))))) =>
      ((Ascii.eqb a "1" && digit_between 6 9 b) ||
       (Ascii.eqb a "2" && digit_between 0 9 b) ||
       (Ascii.eqb a "3" && digit_between 0 1 b))%bool
  | _ => false
  end.

Definition isLocalhost (url : URL) : bool :=
  (String.eqb (hostname url) "localhost" ||
   String.eqb (hostname url) "127.0.0.1" ||
   startsWith "192.168." (hostname url) ||
   startsWith "10." (hostname url) ||
   matches_172_private (hostname url))%bool.

Definition default_baseUrl : string := "https://api.raptordata.dev".

(** [config.baseUrl?.replace(/\/$/, '') || 'https://api.raptordata.dev']. *)
Definition effective_baseUrl (config : RaptorConfig) : string :=
  match cfg_baseUrl config with
  | Some b =>
      let b' := strip_trailing_slash b in
      if string_truthy b' then b' else default_baseUrl
  | None => default_baseUrl
  end.

Section Constructor.

Variable N : NumberOps.

(** [new URL(s)]: the parsed URL, or the message of the [TypeError] it
    throws. *)
Variable URL_parse : string -> string + URL.

(** [constructor(config)], lines 985-1070.  The two [console.warn] calls
    change neither the client nor the error and are left out. *)
Definition constructor (config : RaptorConfig) : exn N + Client :=
  if (negb (string_truthy (cfg_apiKey config)) ||
      trim_is_empty (cfg_apiKey config))%bool
  then inl (RaptorError "API key is required")
  else
    let baseUrl := effective_baseUrl config in
    match URL_parse baseUrl with
    | inl msg => inl (RaptorError ("Invalid base URL: " +++ msg))
    | inr url =>
        if (isLocalhost url &&
            negb (flag (cfg_dangerouslyAllowLocalhost config)))%bool
        then inl (RaptorError
                    ("Base URL cannot point to localhost or private IP addresses. " +++
                     "For local development, set dangerouslyAllowLocalhost: true in config."))
        else if (negb (String.eqb (protocol url) "http:") &&
                 negb (String.eqb (protocol url) "https:"))%bool
        then inl (RaptorError "Base URL must use HTTP or HTTPS protocol")
        else
          let timeout := Num_or (cfg_timeout config) (Finite 300000) in
          if (Num_ltb timeout (Finite 1000) ||
              Num_gtb timeout (Finite 3600000))%bool
          then inl (RaptorError
                      "Timeout must be between 1000ms (1s) and 3600000ms (1h)")
          else
            let maxPollAttempts :=
              Num_or (cfg_maxPollAttempts config) (Finite 300) in
            if (Num_ltb maxPollAttempts (Finite 1) ||
                Num_gtb maxPollAttempts (Finite 3600))%bool
            then inl (RaptorError "Max poll attempts must be between 1 and 3600")
            else
              let pollTimeout :=
                Num_or (cfg_pollTimeout config) (Finite 300000) in
              if (Num_ltb pollTimeout (Finite 1000) ||
                  Num_gtb pollTimeout (Finite 3600000))%bool
              then inl (RaptorError
                          "Poll timeout must be between 1000ms (1s) and 3600000ms (1h)")
              else inr {| apiKey := cfg_apiKey config;
                          baseUrl := baseUrl;
                          timeout := timeout;
                          maxPollAttempts := maxPollAttempts;
                          pollTimeout := pollTimeout |}
    end.

End Constructor.

(** ** Requests, effects and the world *)

Record Blob : Type := { blob_data : string; blob_type : string }.

(** [source: string | File | Blob]. *)
Inductive Source : Type :=
| SrcPath (path : string)
| SrcBlob (b : Blob).

(** One entry of a [FormData]: a text value, or a blob with the file name
    given to [append], if any. *)
Inductive FormValue : Type :=
| FormText (s : string)
| FormFile (b : Blob) (filename : option string).

(** The arguments of one [fetch] call.  [req_query] is [None] when the URL
    has no question mark, [Some l] when it ends in [?] followed by the
    serialisation of the parameters [l]. *)
Record Request : Type := {
  req_method : string;
  req_url : string;
  req_query : option (list (string * string));
  req_auth : string;
  req_body : option (list (string * FormValue));
}.

Record Response (N : NumberOps) : Type := {
  ok : bool;
  status : Z;
  statusText : string;
  json : thrown + value N;   (* what [response.json()] settles with *)
}.

Arguments ok {N} r.
Arguments status {N} r.
Arguments statusText {N} r.
Arguments json {N} r.

(** What [processStream] yields. *)
Record ProgressEvent (N : NumberOps) : Type := {
  stage : string;
  percent : Z;
  message : string;
  variantId : option (value N);
}.

Arguments stage {N} p.
Arguments percent {N} p.
Arguments message {N} p.
Arguments variantId {N} p.

(** The three call sites of [fetch] in the lifecycle. *)
Inductive endpoint : Type := Upload | Status | Chunks.

Inductive event (N : NumberOps) : Type :=
| Fetch (to : endpoint) (r : Request)
| Sleep (ms : Z)
| Yield (p : ProgressEvent N).

Arguments Fetch {N} to r.
Arguments Sleep {N} ms.
Arguments Yield {N} p.

(** The answers of the host.  [status_reply k] answers the status request
    number [k] (from 0) and [now k] is what call number [k] of [Date.now]
    returns. *)
Record World (N : NumberOps) : Type := {
  window_defined : bool;                     (* typeof window !== 'undefined' *)
  statSync_isFile : string -> thrown + bool; (* fs.statSync(p).isFile() *)
  readFileSync : string -> thrown + string;
  basename : string -> string;               (* path.basename *)
  upload_reply : thrown + Response N;
  status_reply : nat -> thrown + Response N;
  chunks_reply : thrown + Response N;
  now : nat -> Z;
}.

Arguments window_defined {N} w.
Arguments statSync_isFile {N} w p.
Arguments readFileSync {N} w p.
Arguments basename {N} w p.
Arguments upload_reply {N} w.
Arguments status_reply {N} w k.
Arguments chunks_reply {N} w.
Arguments now {N} w k.

(** The effects performed so far: the trace in chronological order, the
    number of [Date.now] calls and the number of status requests. *)
Record effects (N : NumberOps) : Type := {
  trace : list (event N);
  ticks : nat;
  polls : nat;
}.

Arguments trace {N} e.
Arguments ticks {N} e.
Arguments polls {N} e.

Definition no_effects {N} : effects N :=
  {| trace := []; ticks := 0; polls := 0 |}.

(** ** A monad for effects, exceptions and loop fuel *)

Inductive outcome (N : NumberOps) (A : Type) : Type :=
| Returned (a : A)
| Thrown (e : exn N)
| OutOfFuel.

Arguments Returned {N A} a.
Arguments Thrown {N A} e.
Arguments OutOfFuel {N A}.

Definition M (N : NumberOps) (A : Type) : Type :=
  effects N -> outcome N A * effects N.

Definition ret {N A} (a : A) : M N A := fun s => (Returned a, s).

Definition throw {N A} (e : exn N) : M N A := fun s => (Thrown e, s).

Definition out_of_fuel {N A} : M N A := fun s => (OutOfFuel, s).

Definition bind {N A B} (m : M N A) (k : A -> M N B) : M N B :=
  fun s =>
    match m s with
    | (Returned a, s') => k a s'
    | (Thrown e, s') => (Thrown e, s')
    | (OutOfFuel, s') => (OutOfFuel, s')
    end.

Notation "x <- c1 ;; c2" := (bind c1 (fun x => c2))
  (at level 61, c1 at next level, right associativity).
Notation "c1 ;; c2" := (bind c1 (fun _ => c2))
  (at level 61, right associativity).

(** A pure step that may throw. *)
Definition lift {N A} (r : exn N + A) : M N A :=
  match r with inl e => throw e | inr a => ret a end.

Definition emit {N} (e : event N) : M N unit :=
  fun s => (Returned tt,
            {| trace := trace s ++ [e]; ticks := ticks s; polls := polls s |}).

(** [Date.now()]. *)
Definition date_now {N} (w : World N) : M N Z :=
  fun s => (Returned (now w (ticks s)),
            {| trace := trace s; ticks := S (ticks s); polls := polls s |}).

(** [await new Promise((resolve) => setTimeout(resolve, ms))]. *)
Definition sleep {N} (ms : Z) : M N unit := emit (Sleep ms).

(** [yield p]: the consumer pulls every event. *)
Definition yield {N} (p : ProgressEvent N) : M N unit := emit (Yield p).

(** [await fetch(...)] of the upload, of a status and of the chunks: the
    request is recorded and the world answers. *)
Definition fetch_upload {N} (w : World N) (r : Request)
  : M N (thrown + Response N) :=
  emit (Fetch Upload r) ;; ret (upload_reply w).

Definition fetch_status {N} (w : World N) (r : Request)
  : M N (thrown + Response N) :=
  fun s => (Returned (status_reply w (polls s)),
            {| trace := trace s ++ [Fetch Status r];
               ticks := ticks s; polls := S (polls s) |}).

Definition fetch_chunks {N} (w : World N) (r : Request)
  : M N (thrown + Response N) :=
  emit (Fetch Chunks r) ;; ret (chunks_reply w).

(** [try { x = await ... } catch (error) { throw new RaptorError(prefix + message) }]. *)
Definition or_raptor_error {N A} (msg : string) (r : thrown + A) : M N A :=
  match r with
  | inl t => throw (RaptorError (msg +++ thrown_message t))
  | inr a => ret a
  end.

(** No catch block: the rejection leaves the function as it is. *)
Definition or_rethrow {N A} (r : thrown + A) : M N A :=
  match r with
  | inl t => throw (HostThrown t)
  | inr a => ret a
  end.

(** [await response.json().catch(() => ({}))]. *)
Definition json_or_empty {N} (resp : Response N) : value N :=
  match json resp with inl _ => VObj [] | inr v => v end.

(** [hasDetail(error)]: an object, not [null], with a [detail] property. *)
Definition hasDetail {N} (error : value N) : bool := has_prop error "detail".

(** [hasDetail(error) ? error.detail : undefined]. *)
Definition errorDetail {N} (error : value N) : value N :=
  if hasDetail error then prop error "detail" else VUndefined.

(** The [RaptorAPIError] built from a response that is not ok. *)
Definition api_error {N} (msg : string) (resp : Response N) : exn N :=
  let error := json_or_empty resp in
  RaptorAPIError
    (msg +++ toStringJS (js_or (errorDetail error) (VStr (statusText resp))))
    (status resp) error.

(** ** Options of [process] and [processStream] *)

(** [strategy?: 'semantic' | 'recursive']. *)
Inductive Strategy : Type := semantic | recursive.

Definition strategy_string (s : Strategy) : string :=
  match s with semantic => "semantic" | recursive => "recursive" end.

(** [ProcessOptions], which extends [ProcessingConfig]; [undefined] is
    [None].  The two ceilings carry the prefix [o_] to tell them from the
    client's fields of the same name. *)
Record ProcessOptions (N : NumberOps) : Type := {
  wait : option bool;
  pollInterval : option Z;
  o_maxPollAttempts : option Num;
  o_pollTimeout : option Num;
  chunkSize : option (number N);
  chunkOverlap : option (number N);
  strategy : option Strategy;
  processImages : option bool;
  extractSectionNumbers : option bool;
  calculateQualityScores : option bool;
  minChunkQuality : option (number N);
  enableSmartContext : option bool;
  tableExtraction : option bool;
  tableContextGeneration : option bool;
  storeContent : option bool;
  parentDocumentId : option string;
  versionLabel : option string;
  autoLink : option bool;
  autoLinkThreshold : option (number N);
}.

Arguments wait {N} p.
Arguments pollInterval {N} p.
Arguments o_maxPollAttempts {N} p.
Arguments o_pollTimeout {N} p.
Arguments chunkSize {N} p.
Arguments chunkOverlap {N} p.
Arguments strategy {N} p.
Arguments processImages {N} p.
Arguments extractSectionNumbers {N} p.
Arguments calculateQualityScores {N} p.
Arguments minChunkQuality {N} p.
Arguments enableSmartContext {N} p.
Arguments tableExtraction {N} p.
Arguments tableContextGeneration {N} p.
Arguments storeContent {N} p.
Arguments parentDocumentId {N} p.
Arguments versionLabel {N} p.
Arguments autoLink {N} p.
Arguments autoLinkThreshold {N} p.

(** [if (x !== undefined) target.append(name, render(x))]. *)
Definition append_defined {A} (name : string) (render : A -> string)
  (x : option A) : list (string * string) :=
  match x with
  | Some a => [(name, render a)]
  | None => []
  end.

(** [if (strategy) formData.append('strategy', strategy)]. *)
Definition append_strategy (x : option Strategy) : list (string * string) :=
  match x with
  | Some s =>
      if string_truthy (strategy_string s)
      then [("strategy", strategy_string s)] else []
  | None => []
  end.

(** The text fields appended to the form, lines 1186-1219 (and 1525-1557),
    in the order of the calls. *)
Definition config_fields {N} (options : ProcessOptions N)
  : list (string * string) :=
  append_defined "chunk_size" (number_toString N) (chunkSize options) ++
  append_defined "chunk_overlap" (number_toString N) (chunkOverlap options) ++
  append_strategy (strategy options) ++
  append_defined "process_images" bool_toString (processImages options) ++
  append_defined "extract_section_numbers" bool_toString
    (extractSectionNumbers options) ++
  append_defined "calculate_quality_scores" bool_toString
    (calculateQualityScores options) ++
  append_defined "min_chunk_quality" (number_toString N)
    (minChunkQuality options) ++
  append_defined "enable_smart_context" bool_toString
    (enableSmartContext options) ++
  append_defined "table_extraction" bool_toString (tableExtraction options) ++
  append_defined "table_context_generation" bool_toString
    (tableContextGeneration options) ++
  append_defined "store_content" bool_toString (storeContent options).

(** The query parameters, lines 1222-1230. *)
Definition query_fields {N} (options : ProcessOptions N)
  : list (string * string) :=
  append_defined "parent_document_id" (fun s => s) (parentDocumentId options) ++
  append_defined "version_label" (fun s => s) (versionLabel options) ++
  append_defined "auto_link" bool_toString (autoLink options) ++
  append_defined "auto_link_threshold" (number_toString N)
    (autoLinkThreshold options).

Definition text_entry (kv : string * string) : string * FormValue :=
  (fst kv, FormText (snd kv)).

(** ** MIME types *)

Definition MIME_TYPES : list (string * string) :=
  [ ("pdf", "application/pdf");
    ("docx", "application/vnd.openxmlformats-officedocument.wordprocessingml.document");
    ("doc", "application/msword");
    ("xlsx", "application/vnd.openxmlformats-officedocument.spreadsheetml.sheet");
    ("xls", "application/vnd.ms-excel");
    ("pptx", "application/vnd.openxmlformats-officedocument.presentationml.presentation");
    ("ppt", "application/vnd.ms-powerpoint");
    ("txt", "text/plain");
    ("md", "text/markdown");
    ("csv", "text/csv");
    ("json", "application/json");
    ("xml", "application/xml");
    ("html", "text/html");
    ("htm", "text/html");
    ("png", "image/png");
    ("jpg", "image/jpeg");
    ("jpeg", "image/jpeg");
    ("gif", "image/gif");
    ("webp", "image/webp");
    ("svg", "image/svg+xml");
    ("bmp", "image/bmp");
    ("tiff", "image/tiff");
    ("tif", "image/tiff") ].

(** What [table[key]] answers, for a table written as an object literal
    with strings as values: an entry of its own, what the literal inherits
    from [Object.prototype] under that name, or [undefined]. *)
Inductive member : Type :=
| Own (s : string)
| Inherited (name : string)
| NoMember.

(** The names that [Object.prototype] defines. *)
Definition Object_prototype_names : list string :=
  [ "constructor"; "__defineGetter__"; "__defineSetter__"; "hasOwnProperty";
    "__lookupGetter__"; "__lookupSetter__"; "isPrototypeOf";
    "propertyIsEnumerable"; "toString"; "valueOf"; "__proto__";
    "toLocaleString" ].

Definition lookup (key : string) (table : list (string * string)) : member :=
  match assoc key table with
  | Some s => Own s
  | None =>
      if existsb (String.eqb key) Object_prototype_names
      then Inherited key else NoMember
  end.

(** [m || d]: the functions and the object that are inherited are truthy. *)
Definition member_or (m : member) (d : string) : member :=
  match m with
  | Own s => if string_truthy s then m else Own d
  | Inherited _ => m
  | NoMember => Own d
  end.

(** [Raptor.getMimeType], lines 971-976.  The declared result is a string;
    for a file name that ends in [.constructor] or [.__proto__] the lookup
    finds the inherited member. *)
Definition getMimeType (filename : string) : member :=
  let ext := toLowerCase (last_segment EmptyString filename) in
  if string_truthy ext
  then member_or (lookup ext MIME_TYPES) "application/octet-stream"
  else Own "application/octet-stream".

(** ToString of a member.  The accessor [__proto__] answers the prototype
    of the table, [Object.prototype], an object; the other inherited
    members are built-in functions, printed as V8 prints them. *)
Definition member_toString (m : member) : string :=
  match m with
  | Own s => s
  | Inherited name =>
      if String.eqb name "__proto__" then "[object Object]"
      else "function " +++
           (if String.eqb name "constructor" then "Object" else name) +++
           "() { [native code] }"
  | NoMember => "undefined"
  end.

Definition printable (c : ascii) : bool :=
  let n := nat_of_ascii c in (Nat.leb 32 n && Nat.leb n 126)%bool.

Fixpoint all_printable (s : string) : bool :=
  match s with
  | EmptyString => true
  | String c s' => (printable c && all_printable s')%bool
  end.

(** ASCII lower case. *)
Fixpoint ascii_lower (s : string) : string :=
  match s with
  | EmptyString => EmptyString
  | String c s' =>
      let n := nat_of_ascii c in
      String (if (Nat.leb 65 n && Nat.leb n 90)%bool
              then ascii_of_nat (n + 32) else c) (ascii_lower s')
  end.

(** The [type] of [new Blob(parts, { type: m })]: the string of [m] in
    lower case, or the empty string when that has a character outside
    U+0020-U+007E or when [m] is [undefined]. *)
Definition Blob_type (m : member) : string :=
  match m with
  | NoMember => EmptyString
  | _ =>
      let s := member_toString m in
      if all_printable s then ascii_lower s else EmptyString
  end.

(** ** UUIDs *)

Definition is_hex (c : ascii) : bool :=
  let n := nat_of_ascii c in
  ((Nat.leb 48 n && Nat.leb n 57) ||
   (Nat.leb 97 n && Nat.leb n 102) ||
   (Nat.leb 65 n && Nat.leb n 70))%bool.

(** Read [n] hexadecimal digits. *)
Fixpoint hex_run (n : nat) (s : string) : option string :=
  match n with
  | O => Some s
  | S n' =>
      match s with
      | String c s' => if is_hex c then hex_run n' s' else None
      | EmptyString => None
      end
  end.

Definition dash_then (n : nat) (s : option string) : option string :=
  match s with
  | Some (String "-" s') => hex_run n s'
  | _ => None
  end.

(** [UUID_PATTERN.test(id)], the pattern being
    [/^[0-9a-f]{8}-[0-9a-f]{4}-[0-9a-f]{4}-[0-9a-f]{4}-[0-9a-f]{12}$/i]. *)
Definition isValidUUID (id : string) : bool :=
  match dash_then 12 (dash_then 4 (dash_then 4 (dash_then 4 (hex_run 8 id)))) with
  | Some EmptyString => true
  | _ => false
  end.

(** ** [process] and [processStream] *)

Inductive loop_signal : Type := Break | Continue.

(** [arr.map(f)] where [f] reads properties of its argument: a
    [TypeError] when [arr] has no [map] method, or at the first element
    that is [null]. *)
Fixpoint map_elements {N A} (f : value N -> exn N + A) (items : list (value N))
  : exn N + list A :=
  match items with
  | [] => inr []
  | c :: items' =>
      match f c with
      | inl e => inl e
      | inr a =>
          match map_elements f items' with
          | inl e => inl e
          | inr l => inr (a :: l)
          end
      end
  end.

Definition js_map {N A} (f : value N -> exn N + A) (arr : value N)
  : exn N + list A :=
  match arr with
  | VArr items => map_elements f items
  | _ => inl TypeError
  end.

(** [(c) => c.text]. *)
Definition chunk_text {N} (c : value N) : exn N + value N := get c "text".

(** The object built for one chunk at lines 1425-1452. *)
Definition chunk_metadata {N} (c : value N) : exn N + value N :=
  if nullish c then inl TypeError
  else inr (VObj
    [ ("id", prop c "id");
      ("pageNumber", prop c "page_number");
      ("pageRange", js_or (prop c "page_range") (VArr []));
      ("section", js_or (prop c "section_hierarchy") (VArr []));
      ("tokens", prop c "tokens");
      ("chunkIndex", prop c "chunk_index");
      ("metadata", prop c "metadata");
      ("chunkType", prop c "chunk_type");
      ("containsTable", prop c "contains_table");
      ("tableMetadata", prop c "table_metadata");
      ("chunkingStrategy", prop c "chunking_strategy");
      ("sectionNumber", prop c "section_number");
      ("qualityScore", prop c "quality_score");
      ("syntheticContext", prop c "synthetic_context");
      ("parentChunkId", prop c "parent_chunk_id");
      ("boundingBox", prop c "bounding_box");
      ("dedupStrategy", prop c "dedup_strategy");
      ("dedupConfidence", prop c "dedup_confidence");
      ("isReused", prop c "is_reused");
      ("totalSentences", prop c "total_sentences");
      ("reusedSentencesCount", prop c "reused_sentences_count");
      ("newSentencesCount", prop c "new_sentences_count");
      ("contentReuseRatio", prop c "content_reuse_ratio");
      ("embeddingRecommendation", prop c "embedding_recommendation");
      ("recommendationConfidence", prop c "recommendation_confidence");
      ("dedupMetadata", prop c "dedup_metadata") ]).

(** The sixteen submission-time fields that close both object literals
    returned by [process] (lines 1284-1299 and 1453-1468). *)
Definition submission_fields {N} (uploadData : value N)
  : list (string * value N) :=
  [ ("versionId", prop uploadData "version_id");
    ("versionNumber", prop uploadData "version_number");
    ("isNewDocument", prop uploadData "is_new_document");
    ("isNewVersion", prop uploadData "is_new_version");
    ("isNewVariant", prop uploadData "is_new_variant");
    ("existingMatch", prop uploadData "existing_match");
    ("isDuplicate", prop uploadData "is_duplicate");
    ("canonicalDocumentId", prop uploadData "canonical_document_id");
    ("processingSkipped", prop uploadData "processing_skipped");
    ("costSaved", prop uploadData "cost_saved");
    ("deduplicationAvailable", prop uploadData "deduplication_available");
    ("autoLinked", prop uploadData "auto_linked");
    ("autoLinkConfidence", prop uploadData "auto_link_confidence");
    ("autoLinkExplanation", prop uploadData "auto_link_explanation");
    ("autoLinkMethod", prop uploadData "auto_link_method");
    ("parentDocumentId", prop uploadData "parent_document_id") ].

(** The [ProcessResult] literal; [uploadData] is not [null] where it is
    built, since [uploadData.variant_id] has been read before. *)
Definition process_result {N} (uploadData : value N)
  (chunks metadata : list (value N)) : value N :=
  VObj ([ ("documentId", prop uploadData "document_id");
          ("variantId", prop uploadData "variant_id");
          ("chunks", VArr chunks);
          ("metadata", VArr metadata) ] ++ submission_fields uploadData).

Section Lifecycle.

Variable N : NumberOps.
Variable w : World N.
Variable this : Client.

Definition authorization : string := "Bearer " +++ apiKey this.

(** The file entry built by [process], lines 1132-1184. *)
Definition file_part (source : Source) : exn N + FormValue :=
  match source with
  | SrcPath path =>
      if window_defined w
      then inl (RaptorError "String paths only supported in Node.js")
      else
        match statSync_isFile w path with
        | inl t =>
            match t with
            | HostError _ (Some "ENOENT") =>
                inl (RaptorError ("File not found: " +++ path))
            | _ =>
                inl (RaptorError ("Failed to access file: " +++ thrown_message t))
            end
        | inr false =>
            (* thrown inside the try block, and caught by its catch *)
            inl (RaptorError ("Failed to access file: " +++
                              "Path is not a file: " +++ path))
        | inr true =>
            match readFileSync w path with
            | inl t =>
                inl (RaptorError ("Failed to read file: " +++ thrown_message t))
            | inr fileBuffer =>
                let filename := basename w path in
                if (includes ".." filename || includes "/" filename ||
                    includes "\" filename)%bool
                then inl (RaptorError "Invalid filename detected in path")
                else
                  let mimeType := getMimeType filename in
                  inr (FormFile {| blob_data := fileBuffer;
                                   blob_type := Blob_type mimeType |}
                         (Some filename))
            end
        end
  | SrcBlob b => inr (FormFile b None)
  end.

(** The upload request of [process], lines 1232-1245: the URL carries a
    query string exactly when a parameter was appended. *)
Definition upload_request (file : FormValue) (options : ProcessOptions N)
  : Request :=
  {| req_method := "POST";
     req_url := baseUrl this +++ "/api/documents";
     req_query := match query_fields options with
                  | [] => None
                  | q => Some q
                  end;
     req_auth := authorization;
     req_body := Some (("file", file) :: map text_entry (config_fields options)) |}.

Definition status_request (variantId : value N) : Request :=
  {| req_method := "GET";
     req_url := baseUrl this +++ "/api/documents/variants/" +++ toStringJS variantId;
     req_query := None;
     req_auth := authorization;
     req_body := None |}.

Definition chunks_request (variantId : value N) : Request :=
  {| req_method := "GET";
     req_url := baseUrl this +++ "/api/documents/variants/" +++
                toStringJS variantId +++ "/chunks";
     req_query := None;
     req_auth := authorization;
     req_body := None |}.

Definition attempts_exceeded (maxAttempts : Num) : exn N :=
  RaptorError ("Processing timeout: exceeded " +++ Num_toString N maxAttempts +++
               " polling attempts").

Definition time_exceeded (pollTimeoutMs : Num) : exn N :=
  RaptorError ("Processing timeout: exceeded " +++ Num_toString N pollTimeoutMs +++
               "ms").

Definition processing_failed (variant : value N) : exn N :=
  RaptorError ("Processing failed: " +++
               toStringJS (js_or (prop variant "error") (VStr "Unknown error"))).

(** One pass through the body of the [while (true)] of [process], lines
    1310-1372, [attempts] being the counter after [attempts++]. *)
Definition poll_iteration (variantId : value N)
  (maxAttempts pollTimeoutMs : Num) (startTime pollInterval attempts : Z)
  : M N loop_signal :=
  if Num_gtb (Finite attempts) maxAttempts
  then throw (attempts_exceeded maxAttempts)
  else
    t <- date_now w ;;
    if Num_gtb (Finite (t - startTime)) pollTimeoutMs
    then throw (time_exceeded pollTimeoutMs)
    else
      r <- fetch_status w (status_request variantId) ;;
      statusResponse <- or_raptor_error "Network error during status check: " r ;;
      if negb (ok statusResponse)
      then throw (api_error "Status check failed: " statusResponse)
      else
        variant <- or_raptor_error "Failed to parse status response: "
                     (json statusResponse) ;;
        status <- lift (get variant "status") ;;
        if is_str status "completed" then ret Break
        else if is_str status "failed" then throw (processing_failed variant)
        else sleep pollInterval ;; ret Continue.

(** The loop itself; [fuel] bounds the number of passes. *)
Fixpoint poll_loop (fuel : nat) (variantId : value N)
  (maxAttempts pollTimeoutMs : Num) (startTime pollInterval attempts : Z)
  : M N unit :=
  match fuel with
  | O => out_of_fuel
  | S fuel' =>
      let attempts := attempts + 1 in
      signal <- poll_iteration variantId maxAttempts pollTimeoutMs startTime
                  pollInterval attempts ;;
      match signal with
      | Break => ret tt
      | Continue =>
          poll_loop fuel' variantId maxAttempts pollTimeoutMs startTime
            pollInterval attempts
      end
  end.

(** Steps 3 and 4 of [process], lines 1375-1469: get the chunks of the
    variant and format the output. *)
Definition collect_chunks (uploadData variantId : value N) : M N (value N) :=
  r <- fetch_chunks w (chunks_request variantId) ;;
  chunksResponse <- or_raptor_error "Network error while fetching chunks: " r ;;
  if negb (ok chunksResponse)
  then throw (api_error "Failed to get chunks: " chunksResponse)
  else
    chunksData <- or_raptor_error "Failed to parse chunks response: "
                    (json chunksResponse) ;;
    chunks0 <- lift (get chunksData "chunks") ;;
    let chunks := js_or chunks0 (VArr []) in
    texts <- lift (js_map chunk_text chunks) ;;
    metadata <- lift (js_map chunk_metadata chunks) ;;
    ret (process_result uploadData texts metadata).

(** [process(source, options)], lines 1105-1470. *)
Definition process (fuel : nat) (source : Source) (options : ProcessOptions N)
  : M N (value N) :=
  let wait := match wait options with Some b => b | None => true end in
  let pollInterval :=
    match pollInterval options with Some i => i | None => 1000 end in
  (* 1. Upload document *)
  file <- lift (file_part source) ;;
  r <- fetch_upload w (upload_request file options) ;;
  uploadResponse <- or_raptor_error "Network error during upload: " r ;;
  if negb (ok uploadResponse)
  then throw (api_error "Upload failed: " uploadResponse)
  else
    uploadData <- or_raptor_error "Failed to parse upload response: "
                    (json uploadResponse) ;;
    variantId <- lift (get uploadData "variant_id") ;;
    if negb (truthy variantId)
    then throw (RaptorError "Upload response missing variant ID")
    else if negb wait
    then ret (process_result uploadData [] [])
    else
      (* 2. Poll variant for completion with timeout protection *)
      let maxAttempts :=
        Num_or (o_maxPollAttempts options) (maxPollAttempts this) in
      let pollTimeoutMs := Num_or (o_pollTimeout options) (pollTimeout this) in
      startTime <- date_now w ;;
      poll_loop fuel variantId maxAttempts pollTimeoutMs startTime pollInterval 0 ;;
      collect_chunks uploadData variantId.

(** The file entry built by [processStream], lines 1495-1509: the file is
    read without any check. *)
Definition stream_file_part (source : Source) : exn N + FormValue :=
  match source with
  | SrcPath path =>
      if window_defined w
      then inl (RaptorError "String paths only supported in Node.js")
      else
        match readFileSync w path with
        | inl t => inl (HostThrown t)
        | inr fileBuffer =>
            let filename := basename w path in
            let mimeType := getMimeType filename in
            inr (FormFile {| blob_data := fileBuffer;
                             blob_type := Blob_type mimeType |} (Some filename))
        end
  | SrcBlob b => inr (FormFile b None)
  end.

Definition stream_upload_request (file : FormValue) (options : ProcessOptions N)
  : Request :=
  {| req_method := "POST";
     req_url := baseUrl this +++ "/api/documents";
     req_query := None;
     req_auth := authorization;
     req_body := Some (("file", file) :: map text_entry (config_fields options)) |}.

Definition upload_started : ProgressEvent N :=
  {| stage := "upload"; percent := 0;
     message := "Uploading document..."; variantId := None |}.

Definition upload_complete (variantId : value N) : ProgressEvent N :=
  {| stage := "upload"; percent := 100;
     message := "Upload complete"; variantId := Some variantId |}.

Definition processing_complete (variantId : value N) : ProgressEvent N :=
  {| stage := "complete"; percent := 100;
     message := "Processing complete"; variantId := Some variantId |}.

(** The event of a poll that is neither [completed] nor [failed], lines
    1626-1635. *)
Definition progress_event (variantId status : value N) : ProgressEvent N :=
  let stage := if is_str status "processing" then "processing" else "queued" in
  let percent := if String.eqb stage "processing" then 50 else 25 in
  {| stage := stage; percent := percent;
     message := "Document " +++ stage +++ "..."; variantId := Some variantId |}.

(** One pass through the body of the loop of [processStream], lines
    1590-1639. *)
Definition stream_iteration (variantId : value N)
  (maxAttempts pollTimeoutMs : Num) (startTime pollInterval attempts : Z)
  : M N loop_signal :=
  if Num_gtb (Finite attempts) maxAttempts
  then throw (attempts_exceeded maxAttempts)
  else
    t <- date_now w ;;
    if Num_gtb (Finite (t - startTime)) pollTimeoutMs
    then throw (time_exceeded pollTimeoutMs)
    else
      r <- fetch_status w (status_request variantId) ;;
      statusResponse <- or_rethrow r ;;
      variant <- or_rethrow (json statusResponse) ;;
      status <- lift (get variant "status") ;;
      if is_str status "completed"
      then yield (processing_complete variantId) ;; ret Break
      else if is_str status "failed" then throw (processing_failed variant)
      else
        yield (progress_event variantId status) ;;
        sleep pollInterval ;;
        ret Continue.

Fixpoint stream_loop (fuel : nat) (variantId : value N)
  (maxAttempts pollTimeoutMs : Num) (startTime pollInterval attempts : Z)
  : M N unit :=
  match fuel with
  | O => out_of_fuel
  | S fuel' =>
      let attempts := attempts + 1 in
      signal <- stream_iteration variantId maxAttempts pollTimeoutMs startTime
                  pollInterval attempts ;;
      match signal with
      | Break => ret tt
      | Continue =>
          stream_loop fuel' variantId maxAttempts pollTimeoutMs startTime
            pollInterval attempts
      end
  end.

(** [processStream(source, options)], lines 1482-1641, run by a consumer
    that pulls until the generator is done or throws. *)
Definition processStream (fuel : nat) (source : Source)
  (options : ProcessOptions N) : M N unit :=
  yield upload_started ;;
  file <- lift (stream_file_part source) ;;
  r <- fetch_upload w (stream_upload_request file options) ;;
  uploadResponse <- or_rethrow r ;;
  if negb (ok uploadResponse)
  then throw (RaptorAPIError "Upload failed" (status uploadResponse)
                (json_or_empty uploadResponse))
  else
    uploadData <- or_rethrow (json uploadResponse) ;;
    variantId <- lift (get uploadData "variant_id") ;;
    yield (upload_complete variantId) ;;
    let maxAttempts :=
      Num_or (o_maxPollAttempts options) (maxPollAttempts this) in
    let pollTimeoutMs := Num_or (o_pollTimeout options) (pollTimeout this) in
    startTime <- date_now w ;;
    stream_loop fuel variantId maxAttempts pollTimeoutMs startTime
      (Z_or (pollInterval options) 1000) 0.

(** ** [getChunks] *)

Record GetChunksOptions : Type := {
  limit : option (number N);
  offset : option (number N);
  includeFullMetadata : option bool;
}.

(** The [Chunk] built for one element at lines 1977-2006. *)
Definition chunk_object (c : value N) : exn N + value N :=
  if nullish c then inl TypeError
  else inr (VObj
    [ ("id", prop c "id");
      ("text", prop c "text");
      ("pageNumber", prop c "page_number");
      ("pageRange", js_or (prop c "page_range") (VArr []));
      ("sectionHierarchy", js_or (prop c "section_hierarchy") (VArr []));
      ("tokens", prop c "tokens");
      ("chunkIndex", prop c "chunk_index");
      ("metadata", prop c "metadata");
      ("chunkType", prop c "chunk_type");
      ("containsTable", prop c "contains_table");
      ("tableMetadata", prop c "table_metadata");
      ("chunkingStrategy", prop c "chunking_strategy");
      ("sectionNumber", prop c "section_number");
      ("qualityScore", prop c "quality_score");
      ("syntheticContext", prop c "synthetic_context");
      ("parentChunkId", prop c "parent_chunk_id");
      ("boundingBox", prop c "bounding_box");
      ("dedupStrategy", prop c "dedup_strategy");
      ("dedupConfidence", prop c "dedup_confidence");
      ("isReused", prop c "is_reused");
      ("dedupSourceChunkId", prop c "dedup_source_chunk_id");
      ("totalSentences", prop c "total_sentences");
      ("reusedSentencesCount", prop c "reused_sentences_count");
      ("newSentencesCount", prop c "new_sentences_count");
      ("contentReuseRatio", prop c "content_reuse_ratio");
      ("embeddingRecommendation", prop c "embedding_recommendation");
      ("recommendationConfidence", prop c "recommendation_confidence");
      ("dedupMetadata", prop c "dedup_metadata") ]).

(** [if (options?.x) params.append(name, ...)]. *)
Definition append_truthy (name : string) (x : option (number N))
  : list (string * string) :=
  match x with
  | Some n => if number_truthy N n then [(name, number_toString N n)] else []
  | None => []
  end.

Definition chunks_params (options : option GetChunksOptions)
  : list (string * string) :=
  match options with
  | None => []
  | Some o =>
      append_truthy "limit" (limit o) ++
      append_truthy "offset" (offset o) ++
      (if flag (includeFullMetadata o)
       then [("include_full_metadata", "true")] else [])
  end.

(** [getChunks(variantId, options)], lines 1942-2010. *)
Definition getChunks (variantId : string) (options : option GetChunksOptions)
  : M N (value N) :=
  if (negb (string_truthy variantId) || negb (isValidUUID variantId))%bool
  then throw (RaptorError ("Invalid variant ID: " +++ variantId))
  else
    r <- fetch_chunks w
           {| req_method := "GET";
              req_url := baseUrl this +++ "/api/documents/variants/" +++
                         variantId +++ "/chunks";
              req_query := Some (chunks_params options);
              req_auth := authorization;
              req_body := None |} ;;
    response <- or_rethrow r ;;
    if negb (ok response)
    then throw (api_error "Failed to get chunks: " response)
    else
      data <- or_rethrow (json response) ;;
      chunks0 <- lift (get data "chunks") ;;
      chunks <- match chunks0 with
                | VArr items => lift (map_elements chunk_object items)
                | _ => ret []
                end ;;
      ret (VObj [ ("chunks", VArr chunks);
                  ("total", match prop data "total" with
                            | VNum n => VNum n
                            | _ => VNum (number_zero N)
                            end) ]).

End Lifecycle.

Arguments file_part {N} w source.
Arguments upload_request {N} this file options.
Arguments status_request {N} this variantId.
Arguments chunks_request {N} this variantId.
Arguments attempts_exceeded {N} maxAttempts.
Arguments time_exceeded {N} pollTimeoutMs.
Arguments processing_failed {N} variant.
Arguments poll_iteration {N} w this variantId maxAttempts pollTimeoutMs startTime pollInterval attempts.
Arguments poll_loop {N} w this fuel variantId maxAttempts pollTimeoutMs startTime pollInterval attempts.
Arguments collect_chunks {N} w this uploadData variantId.
Arguments process {N} w this fuel source options.
Arguments stream_file_part {N} w source.
Arguments stream_upload_request {N} this file options.
Arguments upload_started {N}.
Arguments upload_complete {N} variantId.
Arguments processing_complete {N} variantId.
Arguments progress_event {N} variantId status.
Arguments stream_iteration {N} w this variantId maxAttempts pollTimeoutMs startTime pollInterval attempts.
Arguments stream_loop {N} w this fuel variantId maxAttempts pollTimeoutMs startTime pollInterval attempts.
Arguments processStream {N} w this fuel source options.
Arguments limit {N} g.
Arguments offset {N} g.
Arguments includeFullMetadata {N} g.
Arguments chunk_object {N} c.
Arguments chunks_params {N} options.
Arguments getChunks {N} w this variantId options.

(** ** The schema mapper: [transformVariant] *)

Set Implicit Arguments.

(** The wire format: [BackendProcessingVariant] and the types it nests.  An
    optional field ([?:]) is an [option]. *)
Module Backend.

Record ProcessingConfig (N : NumberOps) : Type := {
  chunk_size : option (number N);
  chunk_overlap : option (number N);
  strategy : option string;
  process_images : option bool;
  extract_section_numbers : option bool;
  calculate_quality_scores : option bool;
  min_chunk_quality : option (number N);
  enable_smart_context : option bool;
  table_extraction : option bool;
  table_context_generation : option bool;
  store_content : option bool;
}.

Record EmbeddingRecommendations (N : NumberOps) : Type := {
  reuse : option (number N);
  consider_reuse : option (number N);
  regenerate : option (number N);
}.

Record DedupStats (N : NumberOps) : Type := {
  chunks_created : number N;
  chunks_reused : number N;
  total_chunks : number N;
  savings_percent : number N;
  chunks_high_reuse : option (number N);
  chunks_partial_reuse : option (number N);
  chunks_fuzzy_matched : option (number N);
  total_sentences : option (number N);
  reused_sentences : option (number N);
  new_sentences : option (number N);
  sentence_reuse_ratio : option (number N);
  embedding_recommendations : option (EmbeddingRecommendations N);
}.

Record ProcessingVariant (N : NumberOps) : Type := {
  id : string;
  version_id : string;
  config_hash : string;
  config : ProcessingConfig N;
  status : string;
  error : option string;
  chunks_count : number N;
  total_tokens : number N;
  page_count : option (number N);
  credits_charged : option (number N);
  is_primary : bool;
  dedup_stats : option (DedupStats N);
  retry_count : option (number N);
  max_retries : option (number N);
  is_retrying : option bool;
  in_dlq : option bool;
  created_at : string;
  processed_at : option string;
}.

End Backend.

(** The client format: [ProcessingVariant] and the types it nests.
    [status] is the string of the wire: the source narrows its type with a
    cast, which does nothing at run time. *)
Module Frontend.

Record ProcessingConfig (N : NumberOps) : Type := {
  chunkSize : option (number N);
  chunkOverlap : option (number N);
  strategy : option Strategy;
  processImages : option bool;
  extractSectionNumbers : option bool;
  calculateQualityScores : option bool;
  minChunkQuality : option (number N);
  enableSmartContext : option bool;
  tableExtraction : option bool;
  tableContextGeneration : option bool;
  storeContent : option bool;
}.

Record EmbeddingRecommendations (N : NumberOps) : Type := {
  reuse : option (number N);
  considerReuse : option (number N);
  regenerate : option (number N);
}.

Record DedupStats (N : NumberOps) : Type := {
  chunksCreated : number N;
  chunksReused : number N;
  totalChunks : number N;
  savingsPercent : number N;
  chunksHighReuse : option (number N);
  chunksPartialReuse : option (number N);
  chunksFuzzyMatched : option (number N);
  totalSentences : option (number N);
  reusedSentences : option (number N);
  newSentences : option (number N);
  sentenceReuseRatio : option (number N);
  embeddingRecommendations : option (EmbeddingRecommendations N);
}.

Record ProcessingVariant (N : NumberOps) : Type := {
  id : string;
  versionId : string;
  configHash : string;
  config : ProcessingConfig N;
  status : string;
  error : option string;
  chunksCount : number N;
  totalTokens : number N;
  pageCount : option (number N);
  creditsCharged : option (number N);
  isPrimary : bool;
  dedupStats : option (DedupStats N);
  retryCount : option (number N);
  maxRetries : option (number N);
  isRetrying : option bool;
  inDlq : option bool;
  createdAt : string;
  processedAt : option string;
}.

End Frontend.

Unset Implicit Arguments.

(** [s === 'semantic' || s === 'recursive' ? s : undefined]. *)
Definition narrow_strategy (s : option string) : option Strategy :=
  match s with
  | Some s' =>
      if String.eqb s' "semantic" then Some semantic
      else if String.eqb s' "recursive" then Some recursive
      else None
  | None => None
  end.

(** [transformVariant(data)], lines 2269-2333.  An object is truthy, so the
    two conditionals on nested objects map over the option. *)
Definition transformVariant {N} (data : Backend.ProcessingVariant N)
  : Frontend.ProcessingVariant N :=
  {| Frontend.id := Backend.id data;
     Frontend.versionId := Backend.version_id data;
     Frontend.configHash := Backend.config_hash data;
     Frontend.config :=
       {| Frontend.chunkSize := Backend.chunk_size (Backend.config data);
          Frontend.chunkOverlap := Backend.chunk_overlap (Backend.config data);
          Frontend.strategy := narrow_strategy (Backend.strategy (Backend.config data));
          Frontend.processImages := Backend.process_images (Backend.config data);
          Frontend.extractSectionNumbers :=
            Backend.extract_section_numbers (Backend.config data);
          Frontend.calculateQualityScores :=
            Backend.calculate_quality_scores (Backend.config data);
          Frontend.minChunkQuality := Backend.min_chunk_quality (Backend.config data);
          Frontend.enableSmartContext :=
            Backend.enable_smart_context (Backend.config data);
          Frontend.tableExtraction := Backend.table_extraction (Backend.config data);
          Frontend.tableContextGeneration :=
            Backend.table_context_generation (Backend.config data);
          Frontend.storeContent := Backend.store_content (Backend.config data) |};
     Frontend.status := Backend.status data;
     Frontend.error := Backend.error data;
     Frontend.chunksCount := Backend.chunks_count data;
     Frontend.totalTokens := Backend.total_tokens data;
     Frontend.pageCount := Backend.page_count data;
     Frontend.creditsCharged := Backend.credits_charged data;
     Frontend.isPrimary := Backend.is_primary data;
     Frontend.dedupStats :=
       match Backend.dedup_stats data with
       | Some stats =>
           Some {| Frontend.chunksCreated := Backend.chunks_created stats;
                   Frontend.chunksReused := Backend.chunks_reused stats;
                   Frontend.totalChunks := Backend.total_chunks stats;
                   Frontend.savingsPercent := Backend.savings_percent stats;
                   Frontend.chunksHighReuse := Backend.chunks_high_reuse stats;
                   Frontend.chunksPartialReuse := Backend.chunks_partial_reuse stats;
                   Frontend.chunksFuzzyMatched := Backend.chunks_fuzzy_matched stats;
                   Frontend.totalSentences := Backend.total_sentences stats;
                   Frontend.reusedSentences := Backend.reused_sentences stats;
                   Frontend.newSentences := Backend.new_sentences stats;
                   Frontend.sentenceReuseRatio := Backend.sentence_reuse_ratio stats;
                   Frontend.embeddingRecommendations :=
                     match Backend.embedding_recommendations stats with
                     | Some rec =>
                         Some {| Frontend.reuse := Backend.reuse rec;
                                 Frontend.considerReuse := Backend.consider_reuse rec;
                                 Frontend.regenerate := Backend.regenerate rec |}
                     | None => None
                     end |}
       | None => None
       end;
     Frontend.retryCount := Backend.retry_count data;
     Frontend.maxRetries := Backend.max_retries data;
     Frontend.isRetrying := Backend.is_retrying data;
     Frontend.inDlq := Backend.in_dlq data;
     Frontend.createdAt := Backend.created_at data;
     Frontend.processedAt := Backend.processed_at data |}.

(** Modelled from the spec: the client-to-wire direction of the Schema
    Mapper ("bidirectional conversion between the wire representation
    (snake_case field names, flat nesting) and the client representation"),
    which [src/index.ts] does not contain for a processing variant.  Every
    field goes back under its wire name with the value it has. *)
Definition untransformVariant {N} (v : Frontend.ProcessingVariant N)
  : Backend.ProcessingVariant N :=
  {| Backend.id := Frontend.id v;
     Backend.version_id := Frontend.versionId v;
     Backend.config_hash := Frontend.configHash v;
     Backend.config :=
       {| Backend.chunk_size := Frontend.chunkSize (Frontend.config v);
          Backend.chunk_overlap := Frontend.chunkOverlap (Frontend.config v);
          Backend.strategy :=
            option_map strategy_string (Frontend.strategy (Frontend.config v));
          Backend.process_images := Frontend.processImages (Frontend.config v);
          Backend.extract_section_numbers :=
            Frontend.extractSectionNumbers (Frontend.config v);
          Backend.calculate_quality_scores :=
            Frontend.calculateQualityScores (Frontend.config v);
          Backend.min_chunk_quality := Frontend.minChunkQuality (Frontend.config v);
          Backend.enable_smart_context :=
            Frontend.enableSmartContext (Frontend.config v);
          Backend.table_extraction := Frontend.tableExtraction (Frontend.config v);
          Backend.table_context_generation :=
            Frontend.tableContextGeneration (Frontend.config v);
          Backend.store_content := Frontend.storeContent (Frontend.config v) |};
     Backend.status := Frontend.status v;
     Backend.error := Frontend.error v;
     Backend.chunks_count := Frontend.chunksCount v;
     Backend.total_tokens := Frontend.totalTokens v;
     Backend.page_count := Frontend.pageCount v;
     Backend.credits_charged := Frontend.creditsCharged v;
     Backend.is_primary := Frontend.isPrimary v;
     Backend.dedup_stats :=
       match Frontend.dedupStats v with
       | Some stats =>
           Some {| Backend.chunks_created := Frontend.chunksCreated stats;
                   Backend.chunks_reused := Frontend.chunksReused stats;
                   Backend.total_chunks := Frontend.totalChunks stats;
                   Backend.savings_percent := Frontend.savingsPercent stats;
                   Backend.chunks_high_reuse := Frontend.chunksHighReuse stats;
                   Backend.chunks_partial_reuse := Frontend.chunksPartialReuse stats;
                   Backend.chunks_fuzzy_matched := Frontend.chunksFuzzyMatched stats;
                   Backend.total_sentences := Frontend.totalSentences stats;
                   Backend.reused_sentences := Frontend.reusedSentences stats;
                   Backend.new_sentences := Frontend.newSentences stats;
                   Backend.sentence_reuse_ratio := Frontend.sentenceReuseRatio stats;
                   Backend.embedding_recommendations :=
                     match Frontend.embeddingRecommendations stats with
                     | Some rec =>
                         Some {| Backend.reuse := Frontend.reuse rec;
                                 Backend.consider_reuse := Frontend.considerReuse rec;
                                 Backend.regenerate := Frontend.regenerate rec |}
                     | None => None
                     end |}
       | None => None
       end;
     Backend.retry_count := Frontend.retryCount v;
     Backend.max_retries := Frontend.maxRetries v;
     Backend.is_retrying := Frontend.isRetrying v;
     Backend.in_dlq := Frontend.inDlq v;
     Backend.created_at := Frontend.createdAt v;
     Backend.processed_at := Frontend.processedAt v |}.

(** The strategies the client format can hold. *)
Definition strategy_representable (s : option string) : bool :=
  match s with
  | Some s' => (String.eqb s' "semantic" || String.eqb s' "recursive")%bool
  | None => true
  end.

(** ** Vocabulary of the properties *)

(** The decoded body of a reply that resolved with a 2xx response. *)
Definition reply_body {N} (r : thrown + Response N) : option (value N) :=
  match r with
  | inr resp =>
      if ok resp
      then match json resp with inr body => Some body | inl _ => None end
      else None
  | inl _ => None
  end.

(** The reply is a decoded 2xx response whose [status] is [lit]. *)
Definition reply_status_is {N} (lit : string) (r : thrown + Response N) : bool :=
  match reply_body r with
  | Some body => is_str (prop body "status") lit
  | None => false
  end.

(** The poll reports [pending] or [processing]. *)
Definition nonterminal_reply {N} (r : thrown + Response N) : bool :=
  (reply_status_is "pending" r || reply_status_is "processing" r)%bool.

Definition endpoint_eqb (a b : endpoint) : bool :=
  match a, b with
  | Upload, Upload | Status, Status | Chunks, Chunks => true
  | _, _ => false
  end.

(** How many requests of a trace went to an endpoint. *)
Fixpoint count_fetch {N} (to : endpoint) (tr : list (event N)) : nat :=
  match tr with
  | [] => O
  | Fetch to' _ :: tr' =>
      if endpoint_eqb to to' then S (count_fetch to tr') else count_fetch to tr'
  | _ :: tr' => count_fetch to tr'
  end.

(** The progress events of a trace, in order. *)
Fixpoint yields {N} (tr : list (event N)) : list (ProgressEvent N) :=
  match tr with
  | [] => []
  | Yield p :: tr' => p :: yields tr'
  | _ :: tr' => yields tr'
  end.

(** The ceilings and the interval a call of [process] works with. *)
Definition maxAttempts_of {N} (this : Client) (options : ProcessOptions N)
  : Num :=
  Num_or (o_maxPollAttempts options) (maxPollAttempts this).

Definition pollTimeoutMs_of {N} (this : Client) (options : ProcessOptions N)
  : Num :=
  Num_or (o_pollTimeout options) (pollTimeout this).

Definition pollInterval_of {N} (options : ProcessOptions N) : Z :=
  match pollInterval options with Some i => i | None => 1000 end.

(** A check against a ceiling passes at [k]: [k > ceiling] is false.  For
    a finite ceiling this is [k <= ceiling]. *)
Definition under (ceiling : Num) (k : Z) : bool :=
  negb (Num_gtb (Finite k) ceiling).

(** The elapsed-time check passes at call [k] of [Date.now], call 0 being
    the one that sets [startTime]. *)
Definition within_time {N} (w : World N) (pollTimeoutMs : Num) (k : nat) : bool :=
  under pollTimeoutMs (now w k - now w 0).



(** One poll and the pause after it, as they appear in a trace. *)
Definition poll_and_sleep {N} (this : Client) (variantId : value N)
  (pollInterval : Z) : list (event N) :=
  [Fetch Status (status_request this variantId); Sleep pollInterval].

Fixpoint repeat_events {N} (k : nat) (evs : list (event N)) : list (event N) :=
  match k with
  | O => []
  | S k' => evs ++ repeat_events k' evs
  end.

(** The effects after one more [Date.now] call. *)
Definition after_tick {N} (s : effects N) : effects N :=
  {| trace := trace s; ticks := S (ticks s); polls := polls s |}.

(** The effects after one more status request. *)
Definition after_request {N} (this : Client) (variantId : value N)
  (s : effects N) : effects N :=
  {| trace := trace s ++ [Fetch Status (status_request this variantId)];
     ticks := S (ticks s);
     polls := S (polls s) |}.

(** The effects after [k] more polls, each followed by its pause. *)
Definition after_polls {N} (this : Client) (k : nat) (variantId : value N)
  (pollInterval : Z) (s : effects N) : effects N :=
  {| trace := trace s ++ repeat_events k (poll_and_sleep this variantId pollInterval);
     ticks := (ticks s + k)%nat;
     polls := (polls s + k)%nat |}.

(** The effects once the upload of [process] has been answered. *)
Definition submitted {N} (this : Client) (file : FormValue)
  (options : ProcessOptions N) : effects N :=
  {| trace := [Fetch Upload (upload_request this file options)];
     ticks := 0;
     polls := 0 |}.

(** The effects after the request for the chunks. *)
Definition after_chunks_request {N} (this : Client) (variantId : value N)
  (s : effects N) : effects N :=
  {| trace := trace s ++ [Fetch Chunks (chunks_request this variantId)];
     ticks := ticks s;
     polls := polls s |}.

(** The status a poll of [processStream] reads: the body is decoded
    whatever the HTTP status is. *)
Definition stream_status {N} (r : thrown + Response N) : value N :=
  match r with
  | inr resp => match json resp with inr b => prop b "status" | inl _ => VUndefined end
  | inl _ => VUndefined
  end.

(** [processStream] can read the poll: the request resolves, the body
    decodes and is not [null]. *)
Definition stream_readable {N} (r : thrown + Response N) : bool :=
  match r with
  | inr resp =>
      match json resp with inr b => negb (nullish b) | inl _ => false end
  | inl _ => false
  end.

(** What the stream yields last: the [complete] event when the generator
    returns, nothing when it throws. *)
Definition ending {N} (variantId : value N) (out : outcome N unit)
  : list (ProgressEvent N) :=
  match out with
  | Returned _ => [processing_complete variantId]
  | _ => []
  end.

(** The last two characters of a string. *)
Fixpoint last_two (s : string) : option (ascii * ascii) :=
  match s with
  | String a (String b EmptyString) => Some (a, b)
  | String _ s' => last_two s'
  | EmptyString => None
  end.

(** The fields of a configuration object that [process] sends. *)
Inductive ConfigField : Type :=
| F_chunkSize | F_chunkOverlap | F_strategy | F_processImages
| F_extractSectionNumbers | F_calculateQualityScores | F_minChunkQuality
| F_enableSmartContext | F_tableExtraction | F_tableContextGeneration
| F_storeContent
| F_parentDocumentId | F_versionLabel | F_autoLink | F_autoLinkThreshold.

Definition wire_name (f : ConfigField) : string :=
  match f with
  | F_chunkSize => "chunk_size"
  | F_chunkOverlap => "chunk_overlap"
  | F_strategy => "strategy"
  | F_processImages => "process_images"
  | F_extractSectionNumbers => "extract_section_numbers"
  | F_calculateQualityScores => "calculate_quality_scores"
  | F_minChunkQuality => "min_chunk_quality"
  | F_enableSmartContext => "enable_smart_context"
  | F_tableExtraction => "table_extraction"
  | F_tableContextGeneration => "table_context_generation"
  | F_storeContent => "store_content"
  | F_parentDocumentId => "parent_document_id"
  | F_versionLabel => "version_label"
  | F_autoLink => "auto_link"
  | F_autoLinkThreshold => "auto_link_threshold"
  end.

(** The last four travel in the query string, the others in the form. *)
Definition in_query (f : ConfigField) : bool :=
  match f with
  | F_parentDocumentId | F_versionLabel | F_autoLink | F_autoLinkThreshold => true
  | _ => false
  end.

(** The text of a field the caller provided, [None] when it is
    [undefined]. *)
Definition provided {N} (options : ProcessOptions N) (f : ConfigField)
  : option string :=
  match f with
  | F_chunkSize => option_map (number_toString N) (chunkSize options)
  | F_chunkOverlap => option_map (number_toString N) (chunkOverlap options)
  | F_strategy => option_map strategy_string (strategy options)
  | F_processImages => option_map bool_toString (processImages options)
  | F_extractSectionNumbers =>
      option_map bool_toString (extractSectionNumbers options)
  | F_calculateQualityScores =>
      option_map bool_toString (calculateQualityScores options)
  | F_minChunkQuality => option_map (number_toString N) (minChunkQuality options)
  | F_enableSmartContext => option_map bool_toString (enableSmartContext options)
  | F_tableExtraction => option_map bool_toString (tableExtraction options)
  | F_tableContextGeneration =>
      option_map bool_toString (tableContextGeneration options)
  | F_storeContent => option_map bool_toString (storeContent options)
  | F_parentDocumentId => parentDocumentId options
  | F_versionLabel => versionLabel options
  | F_autoLink => option_map bool_toString (autoLink options)
  | F_autoLinkThreshold =>
      option_map (number_toString N) (autoLinkThreshold options)
  end.

(** The text a request carries for a field, [None] when it has none. *)
Definition transmitted (r : Request) (f : ConfigField) : option string :=
  if in_query f
  then match req_query r with
       | Some q => assoc (wire_name f) q
       | None => None
       end
  else match req_body r with
       | Some form =>
           match assoc (wire_name f) form with
           | Some (FormText s) => Some s
           | _ => None
           end
       | None => None
       end.

(** A number is an integer of the range. *)
Definition in_range (lo hi : Z) (n : Num) : Prop :=
  match n with
  | Finite z => lo <= z <= hi
  | Infinity | NegInfinity | NaN => False
  end.

(** ** Instances used in the examples *)

(** Drop the zeros that end a string of digits. *)
Fixpoint strip_zeros (s : string) : string :=
  match s with
  | EmptyString => EmptyString
  | String c s' =>
      match strip_zeros s' with
      | EmptyString => if Ascii.eqb c "0" then EmptyString else String c EmptyString
      | t => String c t
      end
  end.

(** An integer printed as a host prints it when it has at most 15
    significant digits: in exponent form from 1e21 on.  (With more digits a
    host prints the 17 or fewer that identify the number; this instance
    prints them all.) *)
Definition exponent_form (z : Z) : string :=
  let digits := decimal (Z.abs z) in
  let sign := if z <? 0 then "-" else EmptyString in
  if Z.abs z <? 10 ^ 21 then decimal z
  else
    let exponent := decimal (Z.of_nat (String.length digits) - 1) in
    match strip_zeros digits with
    | String d EmptyString => sign +++ String d "e+" +++ exponent
    | String d rest => sign +++ String d ("." +++ rest) +++ "e+" +++ exponent
    | EmptyString => decimal z
    end.

(** Integers as numbers. *)
Definition ZNum : NumberOps :=
  {| number := Z;
     number_truthy := fun z => negb (z =? 0);
     number_toString := Z_print exponent_form;
     number_zero := 0;
     integer_toString := exponent_form |}.

Definition zn (z : Z) : number ZNum := z.

(** A URL parser that knows two addresses. *)
Definition example_URL_parse (s : string) : string + URL :=
  if String.eqb s "https://api.raptordata.dev"
  then inr {| protocol := "https:"; hostname := "api.raptordata.dev" |}
  else if String.eqb s "http://localhost:8000"
  then inr {| protocol := "http:"; hostname := "localhost" |}
  else inl "Invalid URL".

(** A URL parser that knows two loopback addresses the constructor does
    not test for. *)
Definition loopback_URL_parse (s : string) : string + URL :=
  if String.eqb s "http://127.0.0.2:8000"
  then inr {| protocol := "http:"; hostname := "127.0.0.2" |}
  else if String.eqb s "http://[::1]:8000"
  then inr {| protocol := "http:"; hostname := "[::1]" |}
  else inl "Invalid URL".

Definition example_config : RaptorConfig :=
  {| cfg_apiKey := "rd_live_xxx";
     cfg_baseUrl := None;
     cfg_timeout := None;
     cfg_maxPollAttempts := None;
     cfg_pollTimeout := None;
     cfg_dangerouslyAllowLocalhost := None |}.

(** A configuration whose three bounds are zero. *)
Definition zero_bounds_config : RaptorConfig :=
  {| cfg_apiKey := "rd_live_xxx";
     cfg_baseUrl := None;
     cfg_timeout := Some (Finite 0);
     cfg_maxPollAttempts := Some (Finite 0);
     cfg_pollTimeout := Some (Finite 0);
     cfg_dangerouslyAllowLocalhost := None |}.

(** A configuration whose three bounds are [NaN]. *)
Definition nan_bounds_config : RaptorConfig :=
  {| cfg_apiKey := "rd_live_xxx";
     cfg_baseUrl := None;
     cfg_timeout := Some NaN;
     cfg_maxPollAttempts := Some NaN;
     cfg_pollTimeout := Some NaN;
     cfg_dangerouslyAllowLocalhost := None |}.

Definition example_client : Client :=
  {| apiKey := "rd_live_xxx";
     baseUrl := "https://api.raptordata.dev";
     timeout := Finite 300000;
     maxPollAttempts := Finite 300;
     pollTimeout := Finite 300000 |}.

Definition no_options : ProcessOptions ZNum :=
  {| wait := None; pollInterval := None;
     o_maxPollAttempts := None; o_pollTimeout := None;
     chunkSize := None; chunkOverlap := None; strategy := None;
     processImages := None; extractSectionNumbers := None;
     calculateQualityScores := None; minChunkQuality := None;
     enableSmartContext := None; tableExtraction := None;
     tableContextGeneration := None; storeContent := None;
     parentDocumentId := None; versionLabel := None;
     autoLink := None; autoLinkThreshold := None |}.

Definition set_wait (b : bool) (o : ProcessOptions ZNum) : ProcessOptions ZNum :=
  {| wait := Some b; pollInterval := pollInterval o;
     o_maxPollAttempts := o_maxPollAttempts o; o_pollTimeout := o_pollTimeout o;
     chunkSize := chunkSize o; chunkOverlap := chunkOverlap o;
     strategy := strategy o; processImages := processImages o;
     extractSectionNumbers := extractSectionNumbers o;
     calculateQualityScores := calculateQualityScores o;
     minChunkQuality := minChunkQuality o;
     enableSmartContext := enableSmartContext o;
     tableExtraction := tableExtraction o;
     tableContextGeneration := tableContextGeneration o;
     storeContent := storeContent o;
     parentDocumentId := parentDocumentId o; versionLabel := versionLabel o;
     autoLink := autoLink o; autoLinkThreshold := autoLinkThreshold o |}.

Definition set_ceilings (interval attempts : Z) (o : ProcessOptions ZNum)
  : ProcessOptions ZNum :=
  {| wait := wait o; pollInterval := Some interval;
     o_maxPollAttempts := Some (Finite attempts); o_pollTimeout := o_pollTimeout o;
     chunkSize := chunkSize o; chunkOverlap := chunkOverlap o;
     strategy := strategy o; processImages := processImages o;
     extractSectionNumbers := extractSectionNumbers o;
     calculateQualityScores := calculateQualityScores o;
     minChunkQuality := minChunkQuality o;
     enableSmartContext := enableSmartContext o;
     tableExtraction := tableExtraction o;
     tableContextGeneration := tableContextGeneration o;
     storeContent := storeContent o;
     parentDocumentId := parentDocumentId o; versionLabel := versionLabel o;
     autoLink := autoLink o; autoLinkThreshold := autoLinkThreshold o |}.


(** No ceiling on the attempts, a time ceiling of a second and a half, a
    poll every second. *)
Definition clock_bound_options : ProcessOptions ZNum :=
  {| wait := None; pollInterval := Some 1000;
     o_maxPollAttempts := Some Infinity; o_pollTimeout := Some (Finite 1500);
     chunkSize := None; chunkOverlap := None; strategy := None;
     processImages := None; extractSectionNumbers := None;
     calculateQualityScores := None; minChunkQuality := None;
     enableSmartContext := None; tableExtraction := None;
     tableContextGeneration := None; storeContent := None;
     parentDocumentId := None; versionLabel := None;
     autoLink := None; autoLinkThreshold := None |}.

(** Options whose provided values are all falsy. *)
Definition falsy_options : ProcessOptions ZNum :=
  {| wait := None; pollInterval := None;
     o_maxPollAttempts := None; o_pollTimeout := None;
     chunkSize := Some (zn 0); chunkOverlap := Some (zn 0); strategy := None;
     processImages := Some false; extractSectionNumbers := Some false;
     calculateQualityScores := Some false; minChunkQuality := Some (zn 0);
     enableSmartContext := Some false; tableExtraction := Some false;
     tableContextGeneration := Some false; storeContent := Some false;
     parentDocumentId := Some EmptyString; versionLabel := Some EmptyString;
     autoLink := Some false; autoLinkThreshold := Some (zn 0) |}.

Definition example_blob : Blob :=
  {| blob_data := "content"; blob_type := "application/pdf" |}.

Definition ok_response (body : value ZNum) : thrown + Response ZNum :=
  inr {| ok := true; status := 200; statusText := "OK"; json := inr body |}.

Definition example_upload : value ZNum :=
  VObj [ ("variant_id", VStr "variant-1");
         ("document_id", VStr "document-1");
         ("version_id", VStr "version-1");
         ("version_number", VNum (zn 1));
         ("is_new_document", VBool true);
         ("is_duplicate", VBool false) ].

(** The response that answers the upload in the examples. *)
Definition ok_upload : Response ZNum :=
  {| ok := true; status := 200; statusText := "OK"; json := inr example_upload |}.

Definition example_chunks : value ZNum :=
  VObj [ ("chunks",
          VArr [ VObj [("id", VStr "c0"); ("text", VStr "first"); ("tokens", VNum (zn 1))];
                 VObj [("id", VStr "c1"); ("text", VStr "second"); ("tokens", VNum (zn 1))] ]);
         ("total", VNum (zn 2)) ].

(** A world that answers the status requests with the statuses of a list,
    and with [rest] once the list is used up.  A poll takes one second. *)
Definition mock_world (statuses : list string) (rest : string)
  (chunks : thrown + Response ZNum) : World ZNum :=
  {| window_defined := false;
     statSync_isFile := fun _ => inr true;
     readFileSync := fun _ => inr "content";
     basename := fun p => p;
     upload_reply := ok_response example_upload;
     status_reply := fun k =>
       ok_response (VObj [ ("status", VStr (nth k statuses rest));
                           ("error", VStr "out of memory") ]);
     chunks_reply := chunks;
     now := fun k => 1000 * Z.of_nat k |}.

(** A body of the chunks endpoint that has no [chunks] array. *)
Definition chunks_without_array : value ZNum := VObj [("total", VNum (zn 0))].

(** A wire variant with a given chunking strategy. *)
Definition variant_with_strategy (s : option string) : Backend.ProcessingVariant ZNum :=
  {| Backend.id := "variant-1";
     Backend.version_id := "version-1";
     Backend.config_hash := "abc123";
     Backend.config :=
       {| Backend.chunk_size := Some (zn 512);
          Backend.chunk_overlap := Some (zn 50);
          Backend.strategy := s;
          Backend.process_images := Some false;
          Backend.extract_section_numbers := None;
          Backend.calculate_quality_scores := None;
          Backend.min_chunk_quality := None;
          Backend.enable_smart_context := None;
          Backend.table_extraction := Some true;
          Backend.table_context_generation := None;
          Backend.store_content := None |};
     Backend.status := "completed";
     Backend.error := None;
     Backend.chunks_count := zn 2;
     Backend.total_tokens := zn 10;
     Backend.page_count := Some (zn 1);
     Backend.credits_charged := None;
     Backend.is_primary := true;
     Backend.dedup_stats := None;
     Backend.retry_count := None;
     Backend.max_retries := None;
     Backend.is_retrying := None;
     Backend.in_dlq := None;
     Backend.created_at := "2025-01-01T00:00:00Z";
     Backend.processed_at := None |}.

(** ** More of the client: the methods around the lifecycle *)

(** [s.trimStart()] and [s.trimEnd()], with the white space of
    [is_whitespace]. *)
Fixpoint trimStart (s : string) : string :=
  match s with
  | EmptyString => EmptyString
  | String c s' => if is_whitespace c then trimStart s' else s
  end.

Fixpoint trimEnd (s : string) : string :=
  match s with
  | EmptyString => EmptyString
  | String c s' =>
      match trimEnd s' with
      | EmptyString => if is_whitespace c then EmptyString else String c EmptyString
      | r => String c r
      end
  end.

(** [s.trim()]. *)
Definition trim (s : string) : string := trimEnd (trimStart s).

(** What follows the last dot of a file name, in lower case: the key
    [getMimeType] looks up. *)
Definition extension (filename : string) : string :=
  toLowerCase (last_segment EmptyString filename).

(** An upper-case ASCII letter, and a string that has one. *)
Definition is_upper (c : ascii) : bool :=
  let n := nat_of_ascii c in (Nat.leb 65 n && Nat.leb n 90)%bool.

Fixpoint has_upper (s : string) : bool :=
  match s with
  | EmptyString => false
  | String c s' => (is_upper c || has_upper s')%bool
  end.

(** The characters of a string. *)
Fixpoint chars (s : string) : list ascii :=
  match s with
  | EmptyString => []
  | String c s' => c :: chars s'
  end.

(** The shape of a UUID: 36 characters, dashes at the offsets 8, 13, 18
    and 23, hexadecimal digits elsewhere. *)
Definition uuid_char_ok (i : nat) (c : ascii) : bool :=
  if (Nat.eqb i 8 || Nat.eqb i 13 || Nat.eqb i 18 || Nat.eqb i 23)%bool
  then Ascii.eqb c "-" else is_hex c.

Fixpoint uuid_chars_from (i : nat) (l : list ascii) : bool :=
  match l with
  | [] => true
  | c :: l' => (uuid_char_ok i c && uuid_chars_from (S i) l')%bool
  end.

Definition uuid_shaped (s : string) : bool :=
  (Nat.eqb (String.length s) 36 && uuid_chars_from 0 (chars s))%bool.

(** [!id || !Raptor.isValidUUID(id)], the guard that opens most methods. *)
Definition invalid_id (id : string) : bool :=
  (negb (string_truthy id) || negb (isValidUUID id))%bool.

(** The upload of a world gives a variant id: a 2xx response whose body
    decodes and has a truthy [variant_id]. *)
Definition upload_accepted {N} (w : World N) : bool :=
  match reply_body (upload_reply w) with
  | Some body => truthy (prop body "variant_id")
  | None => false
  end.

(** How many pauses a trace holds. *)
Fixpoint count_sleep {N} (tr : list (event N)) : nat :=
  match tr with
  | [] => O
  | Sleep _ :: tr' => S (count_sleep tr')
  | _ :: tr' => count_sleep tr'
  end.

(** [transformVariant] on a decoded body, as [getVariant], [getDocument]
    and the version methods apply it to what [response.json()] gives.  The
    three nested object literals come first. *)

(** The literal of [config], lines 2276-2292. *)
Definition config_literal {N} (config : value N) : value N :=
  VObj
    [ ("chunkSize", prop config "chunk_size");
      ("chunkOverlap", prop config "chunk_overlap");
      ("strategy",
       if (is_str (prop config "strategy") "semantic" ||
           is_str (prop config "strategy") "recursive")%bool
       then prop config "strategy" else VUndefined);
      ("processImages", prop config "process_images");
      ("extractSectionNumbers", prop config "extract_section_numbers");
      ("calculateQualityScores", prop config "calculate_quality_scores");
      ("minChunkQuality", prop config "min_chunk_quality");
      ("enableSmartContext", prop config "enable_smart_context");
      ("tableExtraction", prop config "table_extraction");
      ("tableContextGeneration", prop config "table_context_generation");
      ("storeContent", prop config "store_content") ].

(** The literal of [embeddingRecommendations], lines 2318-2322. *)
Definition recommendations_literal {N} (recs : value N) : value N :=
  VObj
    [ ("reuse", prop recs "reuse");
      ("considerReuse", prop recs "consider_reuse");
      ("regenerate", prop recs "regenerate") ].

(** The literal of [dedupStats], lines 2305-2324. *)
Definition stats_literal {N} (stats : value N) : value N :=
  VObj
    [ ("chunksCreated", prop stats "chunks_created");
      ("chunksReused", prop stats "chunks_reused");
      ("totalChunks", prop stats "total_chunks");
      ("savingsPercent", prop stats "savings_percent");
      ("chunksHighReuse", prop stats "chunks_high_reuse");
      ("chunksPartialReuse", prop stats "chunks_partial_reuse");
      ("chunksFuzzyMatched", prop stats "chunks_fuzzy_matched");
      ("totalSentences", prop stats "total_sentences");
      ("reusedSentences", prop stats "reused_sentences");
      ("newSentences", prop stats "new_sentences");
      ("sentenceReuseRatio", prop stats "sentence_reuse_ratio");
      ("embeddingRecommendations",
       let recs := prop stats "embedding_recommendations" in
       if truthy recs then recommendations_literal recs else VUndefined) ].

(** [transformVariant(data)], lines 2269-2333: reading [data.id] throws
    when [data] is [null], reading [data.config.chunk_size] when
    [data.config] is missing. *)
Definition transformVariantJ {N} (data : value N) : exn N + value N :=
  if nullish data then inl TypeError
  else
    let config := prop data "config" in
    if nullish config then inl TypeError
    else inr (VObj
      [ ("id", prop data "id");
        ("versionId", prop data "version_id");
        ("configHash", prop data "config_hash");
        ("config", config_literal config);
        ("status", prop data "status");
        ("error", prop data "error");
        ("chunksCount", prop data "chunks_count");
        ("totalTokens", prop data "total_tokens");
        ("pageCount", prop data "page_count");
        ("creditsCharged", prop data "credits_charged");
        ("isPrimary", prop data "is_primary");
        ("dedupStats",
         let stats := prop data "dedup_stats" in
         if truthy stats then stats_literal stats else VUndefined);
        ("retryCount", prop data "retry_count");
        ("maxRetries", prop data "max_retries");
        ("isRetrying", prop data "is_retrying");
        ("inDlq", prop data "in_dlq");
        ("createdAt", prop data "created_at");
        ("processedAt", prop data "processed_at") ]).

(** [transformDeletionResponse(data)], lines 2338-2364, on a decoded
    body: a falsy [promoted] or [cascaded] is passed on as it is. *)
Definition transformDeletionResponse {N} (data : value N) : exn N + value N :=
  if nullish data then inl TypeError
  else inr (VObj
    [ ("id", prop data "id");
      ("type", prop data "type");
      ("status", prop data "status");
      ("promoted",
       let promoted := prop data "promoted" in
       if truthy promoted
       then VObj
         [ ("type", prop promoted "type");
           ("id", prop promoted "id");
           ("versionNumber", prop promoted "version_number");
           ("isNowDefault", prop promoted "is_now_default") ]
       else promoted);
      ("cascaded",
       let cascaded := prop data "cascaded" in
       if truthy cascaded
       then VObj
         [ ("type", prop cascaded "type");
           ("id", prop cascaded "id");
           ("variantsDeleted", prop cascaded "variants_deleted");
           ("versionsDeleted", prop cascaded "versions_deleted");
           ("chunksDeleted", prop cascaded "chunks_deleted") ]
       else cascaded);
      ("deletedAt", prop data "deleted_at") ]).

(** The object built for one [BackendDocumentVersion] by [getVersion],
    [listVersions] and [listDocumentVersions]: [v.variants.map] throws when
    [variants] is not an array. *)
Definition version_object {N} (v : value N) : exn N + value N :=
  if nullish v then inl TypeError
  else
    match js_map transformVariantJ (prop v "variants") with
    | inl e => inl e
    | inr variants =>
        inr (VObj
          [ ("id", prop v "id");
            ("documentId", prop v "document_id");
            ("versionNumber", prop v "version_number");
            ("parentVersionId", prop v "parent_version_id");
            ("filename", prop v "filename");
            ("mimeType", prop v "mime_type");
            ("fileSizeBytes", prop v "file_size_bytes");
            ("contentHash", prop v "content_hash");
            ("createdAt", prop v "created_at");
            ("variants", VArr variants) ])
    end.

(** The object built for one document by [listDocuments]. *)
Definition document_info {N} (doc : value N) : exn N + value N :=
  if nullish doc then inl TypeError
  else inr (VObj
    [ ("id", prop doc "id");
      ("filename", prop doc "filename");
      ("mimeType", prop doc "mime_type");
      ("fileSizeBytes", prop doc "file_size_bytes");
      ("status", prop doc "status");
      ("chunksCount", prop doc "chunks_count");
      ("totalTokens", prop doc "total_tokens");
      ("createdAt", prop doc "created_at");
      ("storeContent", prop doc "store_content");
      ("deletedAt", prop doc "deleted_at");
      ("extractorVersion", prop doc "extractor_version") ]).

(** The part that the methods with one request share, from the answer of
    [fetch] on: a rejection is wrapped in a [RaptorError] where the source
    has a [try] around [fetch] ([network] is the message) and leaves the
    method as it is otherwise; a response that is not ok gives a
    [RaptorAPIError]; [response.json()] is wrapped where the source has a
    [try] around it ([parse]); [k] builds the result. *)
Definition respond {N A} (network : option string) (failed : string)
  (parse : option string) (reply : thrown + Response N)
  (k : value N -> exn N + A) : exn N + A :=
  match reply with
  | inl t =>
      inl (match network with
           | Some msg => RaptorError (msg +++ thrown_message t)
           | None => HostThrown t
           end)
  | inr response =>
      if negb (ok response) then inl (api_error failed response)
      else
        match json response with
        | inl t =>
            inl (match parse with
                 | Some msg => RaptorError (msg +++ thrown_message t)
                 | None => HostThrown t
                 end)
        | inr data => k data
        end
  end.

(** [options] of [getDocument]. *)
Record GetDocumentOptions (N : NumberOps) : Type := {
  gd_version : option (number N);
  gd_variantId : option string;
}.

Arguments gd_version {N} g.
Arguments gd_variantId {N} g.

(** [ListDocumentsOptions]. *)
Record ListDocumentsOptions : Type := {
  ld_limit : option Num;
  ld_offset : option Num;
}.

Section Methods.

Variable N : NumberOps.
Variable this : Client.

(** The literal [1]. *)
Variable number_one : number N.

(** A method with one request, as a function of the answer of [fetch]:
    the requests it issues and how it ends. *)
Definition get_request (url : string) (query : option (list (string * string)))
  : Request :=
  {| req_method := "GET"; req_url := url; req_query := query;
     req_auth := authorization this; req_body := None |}.

Definition bare_request (method url : string) : Request :=
  {| req_method := method; req_url := url; req_query := None;
     req_auth := authorization this; req_body := None |}.

Definition document_params (options : option (GetDocumentOptions N))
  : list (string * string) :=
  match options with
  | None => []
  | Some o =>
      append_defined "version" (number_toString N) (gd_version o) ++
      match gd_variantId o with
      | Some v => if string_truthy v then [("variant_id", v)] else []
      | None => []
      end
  end.

(** The [DocumentVersion] that [getDocument] builds, lines 1707-1720. *)
Definition document_object (data : value N) : exn N + value N :=
  match get data "variants" with
  | inl e => inl e
  | inr variants0 =>
      let variants := js_or variants0 (VArr []) in
      match js_map transformVariantJ variants with
      | inl e => inl e
      | inr transformed =>
          inr (VObj
            [ ("id", prop data "id");
              ("documentId", js_or (prop data "document_id") (prop data "id"));
              ("versionNumber", js_or (prop data "version_number") (VNum number_one));
              ("parentVersionId", prop data "parent_version_id");
              ("filename", prop data "filename");
              ("mimeType", prop data "mime_type");
              ("fileSizeBytes", prop data "file_size_bytes");
              ("contentHash", js_or (prop data "content_hash") (VStr EmptyString));
              ("createdAt", prop data "created_at");
              ("variants", VArr transformed) ])
      end
  end.

(** [getDocument(documentId, options)], lines 1658-1721. *)
Definition getDocument (documentId : string)
  (options : option (GetDocumentOptions N)) (reply : thrown + Response N)
  : list Request * (exn N + value N) :=
  if invalid_id documentId
  then ([], inl (RaptorError ("Invalid document ID: " +++ documentId)))
  else
    ([get_request (baseUrl this +++ "/api/documents/" +++ documentId)
        (Some (document_params options))],
     respond None "Failed to get document: " None reply document_object).

(** [listVersions(documentId)], lines 1732-1770. *)
Definition listVersions (documentId : string) (reply : thrown + Response N)
  : list Request * (exn N + value N) :=
  if invalid_id documentId
  then ([], inl (RaptorError ("Invalid document ID: " +++ documentId)))
  else
    ([get_request (baseUrl this +++ "/api/documents/" +++ documentId +++ "/versions")
        None],
     respond None "Failed to list versions: " None reply
       (fun data =>
          match get data "versions" with
          | inl e => inl e
          | inr versions =>
              match js_map version_object versions with
              | inl e => inl e
              | inr l => inr (VArr l)
              end
          end)).

(** [getVersion(documentId, versionNumber)], lines 1781-1818. *)
Definition getVersion (documentId : string) (versionNumber : Z)
  (reply : thrown + Response N) : list Request * (exn N + value N) :=
  if invalid_id documentId
  then ([], inl (RaptorError ("Invalid document ID: " +++ documentId)))
  else
    ([get_request (baseUrl this +++ "/api/documents/" +++ documentId +++
                   "/versions/" +++ Z_toString N versionNumber) None],
     respond None "Failed to get version: " None reply version_object).

(** [deleteVariant(variantId)], lines 2193-2218. *)
Definition deleteVariant (variantId : string) (reply : thrown + Response N)
  : list Request * (exn N + value N) :=
  if invalid_id variantId
  then ([], inl (RaptorError ("Invalid variant ID: " +++ variantId)))
  else
    ([bare_request "DELETE"
        (baseUrl this +++ "/api/documents/variants/" +++ variantId)],
     respond None "Failed to delete variant: " None reply transformDeletionResponse).

(** [cancelProcessing(variantId)], lines 2147-2169: the body of a
    response that is ok is not read. *)
Definition cancelProcessing (variantId : string) (reply : thrown + Response N)
  : list Request * (exn N + unit) :=
  if invalid_id variantId
  then ([], inl (RaptorError ("Invalid variant ID: " +++ variantId)))
  else
    ([bare_request "DELETE"
        (baseUrl this +++ "/api/documents/variants/" +++ variantId +++ "/cancel")],
     match reply with
     | inl t => inl (HostThrown t)
     | inr response =>
         if negb (ok response) then inl (api_error "Failed to cancel: " response)
         else inr tt
     end).

(** [deleteVersion(documentId, versionNumber)], lines 2974-3006. *)
Definition deleteVersion (documentId : string) (versionNumber : Z)
  (reply : thrown + Response N) : list Request * (exn N + value N) :=
  if invalid_id documentId
  then ([], inl (RaptorError ("Invalid document ID: " +++ documentId)))
  else if versionNumber <? 1
  then ([], inl (RaptorError "Version number must be >= 1"))
  else
    ([bare_request "DELETE"
        (baseUrl this +++ "/api/documents/" +++ documentId +++
         "/versions/" +++ Z_toString N versionNumber)],
     respond None "Failed to delete version: " None reply transformDeletionResponse).

(** [revertToVersion(documentId, versionNumber)], lines 3023-3054: the
    body is returned as it is. *)
Definition revertToVersion (documentId : string) (versionNumber : Z)
  (reply : thrown + Response N) : list Request * (exn N + value N) :=
  if invalid_id documentId
  then ([], inl (RaptorError ("Invalid document ID: " +++ documentId)))
  else if versionNumber <? 1
  then ([], inl (RaptorError "Version number must be >= 1"))
  else
    ([bare_request "POST"
        (baseUrl this +++ "/api/documents/" +++ documentId +++
         "/revert/" +++ Z_toString N versionNumber)],
     respond None "Failed to revert to version: " None reply (fun data => inr data)).

(** [deleteDocument(documentId)], lines 3448-3488: the id is trimmed. *)
Definition deleteDocument (documentId : string) (reply : thrown + Response N)
  : list Request * (exn N + value N) :=
  if (negb (string_truthy documentId) ||
      Nat.eqb (String.length (trim documentId)) 0)%bool
  then ([], inl (RaptorError "Document ID is required"))
  else if negb (isValidUUID (trim documentId))
  then ([], inl (RaptorError ("Invalid document ID format: " +++ documentId +++
                              ". Expected UUID format.")))
  else
    ([bare_request "DELETE" (baseUrl this +++ "/api/documents/" +++ trim documentId)],
     respond (Some "Network error while deleting document: ")
       "Failed to delete document: " None reply transformDeletionResponse).

(** [listDocuments(options)], lines 3225-3287. *)
Definition listDocuments (options : ListDocumentsOptions)
  (reply : thrown + Response N) : list Request * (exn N + value N) :=
  let limit := match ld_limit options with Some l => l | None => Finite 20 end in
  let offset := match ld_offset options with Some o => o | None => Finite 0 end in
  if (Num_ltb limit (Finite 1) || Num_gtb limit (Finite 100))%bool
  then ([], inl (RaptorError "Limit must be between 1 and 100"))
  else if Num_ltb offset (Finite 0)
  then ([], inl (RaptorError "Offset must be non-negative"))
  else
    ([get_request (baseUrl this +++ "/api/documents")
        (Some [("limit", Num_toString N limit);
               ("offset", Num_toString N offset)])],
     respond (Some "Network error while listing documents: ")
       "Failed to list documents: "
       (Some "Failed to parse list documents response: ") reply
       (fun data =>
          match js_map document_info data with
          | inl e => inl e
          | inr l => inr (VArr l)
          end)).

End Methods.

Arguments document_params {N} options.
Arguments document_object {N} number_one data.
Arguments getDocument {N} this number_one documentId options reply.
Arguments listVersions {N} this documentId reply.
Arguments getVersion {N} this documentId versionNumber reply.
Arguments deleteVariant {N} this variantId reply.
Arguments cancelProcessing {N} this variantId reply.
Arguments deleteVersion {N} this documentId versionNumber reply.
Arguments revertToVersion {N} this documentId versionNumber reply.
Arguments deleteDocument {N} this documentId reply.
Arguments listDocuments {N} this options reply.

(** ** [getVariant] and [waitForProcessing] *)

(** [Date.now()] as a step on the effects. *)
Definition clock {N} (w : World N) (s : effects N) : Z * effects N :=
  (now w (ticks s), after_tick s).

Definition after_sleep {N} (ms : Z) (s : effects N) : effects N :=
  {| trace := trace s ++ [Sleep ms]; ticks := ticks s; polls := polls s |}.

(** How an iteration of [waitForProcessing] ends: [return variant], or on
    to the next one. *)
Inductive wait_signal (N : NumberOps) : Type :=
| Finished (variant : value N)
| Again.

Arguments Finished {N} variant.
Arguments Again {N}.

(** [options] of [waitForProcessing].  The callback works on a state [St]
    of its own, which it may change, and may throw.  It is handed the
    variant object itself and may assign to its properties: it answers
    with the variant as the call leaves it. *)
Record WaitOptions (N : NumberOps) (St : Type) : Type := {
  maxWaitMs : option Z;
  pollIntervalMs : option Z;
  onProgress : option (value N -> St -> thrown + (value N * St));
}.

Arguments maxWaitMs {N St} _.
Arguments pollIntervalMs {N St} _.
Arguments onProgress {N St} _.

Section Waiting.

Variable N : NumberOps.
Variable w : World N.
Variable this : Client.
Variable St : Type.

(** [getVariant(variantId)], lines 1909-1931: the request is the one a
    poll of [process] sends. *)
Definition getVariant (variantId : string) : M N (value N) :=
  if invalid_id variantId
  then throw (RaptorError ("Invalid variant ID: " +++ variantId))
  else
    r <- fetch_status w (status_request this (VStr variantId : value N)) ;;
    lift (respond None "Failed to get variant: " None r transformVariantJ).

(** [if (options?.onProgress) options.onProgress(variant)]. *)
Definition call_onProgress (options : option (WaitOptions N St))
  (variant : value N) (st : St) : thrown + (value N * St) :=
  match options with
  | Some o =>
      match onProgress o with
      | Some f => f variant st
      | None => inr (variant, st)
      end
  | None => inr (variant, st)
  end.

(** One pass through the loop of [waitForProcessing], lines 2244-2262.
    The tests that follow the callback read the variant as the callback
    left it. *)
Definition wait_iteration (variantId : string)
  (options : option (WaitOptions N St)) (maxWait pollInterval startTime : Z)
  (st : St) (s : effects N) : outcome N (wait_signal N) * St * effects N :=
  match getVariant variantId s with
  | (Returned variant0, s1) =>
      match call_onProgress options variant0 st with
      | inl t => (Thrown (HostThrown t), st, s1)
      | inr (variant, st1) =>
          if is_str (prop variant "status") "completed"
          then (Returned (Finished variant), st1, s1)
          else if is_str (prop variant "status") "failed"
          then (Thrown (RaptorError ("Processing failed: " +++
                                     toStringJS (prop variant "error"))), st1, s1)
          else
            let (t, s2) := clock w s1 in
            if t - startTime >? maxWait
            then (Thrown (RaptorError "Processing timeout"), st1, s2)
            else (Returned Again, st1, after_sleep pollInterval s2)
      end
  | (Thrown e, s1) => (Thrown e, st, s1)
  | (OutOfFuel, s1) => (OutOfFuel, st, s1)
  end.

Fixpoint wait_loop (fuel : nat) (variantId : string)
  (options : option (WaitOptions N St)) (maxWait pollInterval startTime : Z)
  (st : St) (s : effects N) : outcome N (value N) * St * effects N :=
  match fuel with
  | O => (OutOfFuel, st, s)
  | S fuel' =>
      match wait_iteration variantId options maxWait pollInterval startTime st s with
      | (Returned (Finished variant), st', s') => (Returned variant, st', s')
      | (Returned Again, st', s') =>
          wait_loop fuel' variantId options maxWait pollInterval startTime st' s'
      | (Thrown e, st', s') => (Thrown e, st', s')
      | (OutOfFuel, st', s') => (OutOfFuel, st', s')
      end
  end.

Definition maxWait_of (options : option (WaitOptions N St)) : Z :=
  Z_or (match options with Some o => maxWaitMs o | None => None end) 300000.

Definition waitInterval_of (options : option (WaitOptions N St)) : Z :=
  Z_or (match options with Some o => pollIntervalMs o | None => None end) 2000.

(** [waitForProcessing(variantId, options)], lines 2231-2264. *)
Definition waitForProcessing (fuel : nat) (variantId : string)
  (options : option (WaitOptions N St)) (st : St) (s : effects N)
  : outcome N (value N) * St * effects N :=
  let (startTime, s1) := clock w s in
  wait_loop fuel variantId options (maxWait_of options) (waitInterval_of options)
    startTime st s1.

End Waiting.

Arguments getVariant {N} w this variantId.
Arguments call_onProgress {N St} options variant st.
Arguments wait_iteration {N} w this {St} variantId options maxWait pollInterval startTime st s.
Arguments wait_loop {N} w this {St} fuel variantId options maxWait pollInterval startTime st s.
Arguments maxWait_of {N St} options.
Arguments waitInterval_of {N St} options.
Arguments waitForProcessing {N} w this {St} fuel variantId options st s.

(** ** Typed bodies as decoded JSON *)

(** A property that is there when the optional field is. *)
Definition opt_entry {N A} (k : string) (enc : A -> value N) (o : option A)
  : list (string * value N) :=
  match o with Some a => [(k, enc a)] | None => [] end.

(** What reading an optional field gives. *)
Definition reading {N A} (enc : A -> value N) (o : option A) : value N :=
  match o with Some a => enc a | None => VUndefined end.

(** The JSON object of a [BackendProcessingVariant]: an optional field
    that is absent has no property. *)
Definition wire_config {N} (c : Backend.ProcessingConfig N) : value N :=
  VObj (opt_entry "chunk_size" VNum (Backend.chunk_size c) ++
        opt_entry "chunk_overlap" VNum (Backend.chunk_overlap c) ++
        opt_entry "strategy" VStr (Backend.strategy c) ++
        opt_entry "process_images" VBool (Backend.process_images c) ++
        opt_entry "extract_section_numbers" VBool (Backend.extract_section_numbers c) ++
        opt_entry "calculate_quality_scores" VBool (Backend.calculate_quality_scores c) ++
        opt_entry "min_chunk_quality" VNum (Backend.min_chunk_quality c) ++
        opt_entry "enable_smart_context" VBool (Backend.enable_smart_context c) ++
        opt_entry "table_extraction" VBool (Backend.table_extraction c) ++
        opt_entry "table_context_generation" VBool (Backend.table_context_generation c) ++
        opt_entry "store_content" VBool (Backend.store_content c)).

Definition wire_recommendations {N} (r : Backend.EmbeddingRecommendations N)
  : value N :=
  VObj (opt_entry "reuse" VNum (Backend.reuse r) ++
        opt_entry "consider_reuse" VNum (Backend.consider_reuse r) ++
        opt_entry "regenerate" VNum (Backend.regenerate r)).

Definition wire_stats {N} (d : Backend.DedupStats N) : value N :=
  VObj ([ ("chunks_created", VNum (Backend.chunks_created d));
          ("chunks_reused", VNum (Backend.chunks_reused d));
          ("total_chunks", VNum (Backend.total_chunks d));
          ("savings_percent", VNum (Backend.savings_percent d)) ] ++
        opt_entry "chunks_high_reuse" VNum (Backend.chunks_high_reuse d) ++
        opt_entry "chunks_partial_reuse" VNum (Backend.chunks_partial_reuse d) ++
        opt_entry "chunks_fuzzy_matched" VNum (Backend.chunks_fuzzy_matched d) ++
        opt_entry "total_sentences" VNum (Backend.total_sentences d) ++
        opt_entry "reused_sentences" VNum (Backend.reused_sentences d) ++
        opt_entry "new_sentences" VNum (Backend.new_sentences d) ++
        opt_entry "sentence_reuse_ratio" VNum (Backend.sentence_reuse_ratio d) ++
        opt_entry "embedding_recommendations" wire_recommendations
          (Backend.embedding_recommendations d)).

Definition wire_variant {N} (d : Backend.ProcessingVariant N) : value N :=
  VObj ([ ("id", VStr (Backend.id d));
          ("version_id", VStr (Backend.version_id d));
          ("config_hash", VStr (Backend.config_hash d));
          ("config", wire_config (Backend.config d));
          ("status", VStr (Backend.status d)) ] ++
        opt_entry "error" VStr (Backend.error d) ++
        [ ("chunks_count", VNum (Backend.chunks_count d));
          ("total_tokens", VNum (Backend.total_tokens d)) ] ++
        opt_entry "page_count" VNum (Backend.page_count d) ++
        opt_entry "credits_charged" VNum (Backend.credits_charged d) ++
        [ ("is_primary", VBool (Backend.is_primary d)) ] ++
        opt_entry "dedup_stats" wire_stats (Backend.dedup_stats d) ++
        opt_entry "retry_count" VNum (Backend.retry_count d) ++
        opt_entry "max_retries" VNum (Backend.max_retries d) ++
        opt_entry "is_retrying" VBool (Backend.is_retrying d) ++
        opt_entry "in_dlq" VBool (Backend.in_dlq d) ++
        [ ("created_at", VStr (Backend.created_at d)) ] ++
        opt_entry "processed_at" VStr (Backend.processed_at d)).

(** The JavaScript object of a client variant: the literal of
    [transformVariant] writes every property, [undefined] for an absent
    field. *)
Definition client_config {N} (c : Frontend.ProcessingConfig N) : value N :=
  VObj [ ("chunkSize", reading VNum (Frontend.chunkSize c));
         ("chunkOverlap", reading VNum (Frontend.chunkOverlap c));
         ("strategy", reading (fun s => VStr (strategy_string s)) (Frontend.strategy c));
         ("processImages", reading VBool (Frontend.processImages c));
         ("extractSectionNumbers", reading VBool (Frontend.extractSectionNumbers c));
         ("calculateQualityScores", reading VBool (Frontend.calculateQualityScores c));
         ("minChunkQuality", reading VNum (Frontend.minChunkQuality c));
         ("enableSmartContext", reading VBool (Frontend.enableSmartContext c));
         ("tableExtraction", reading VBool (Frontend.tableExtraction c));
         ("tableContextGeneration", reading VBool (Frontend.tableContextGeneration c));
         ("storeContent", reading VBool (Frontend.storeContent c)) ].

Definition client_recommendations {N} (r : Frontend.EmbeddingRecommendations N)
  : value N :=
  VObj [ ("reuse", reading VNum (Frontend.reuse r));
         ("considerReuse", reading VNum (Frontend.considerReuse r));
         ("regenerate", reading VNum (Frontend.regenerate r)) ].

Definition client_stats {N} (d : Frontend.DedupStats N) : value N :=
  VObj [ ("chunksCreated", VNum (Frontend.chunksCreated d));
         ("chunksReused", VNum (Frontend.chunksReused d));
         ("totalChunks", VNum (Frontend.totalChunks d));
         ("savingsPercent", VNum (Frontend.savingsPercent d));
         ("chunksHighReuse", reading VNum (Frontend.chunksHighReuse d));
         ("chunksPartialReuse", reading VNum (Frontend.chunksPartialReuse d));
         ("chunksFuzzyMatched", reading VNum (Frontend.chunksFuzzyMatched d));
         ("totalSentences", reading VNum (Frontend.totalSentences d));
         ("reusedSentences", reading VNum (Frontend.reusedSentences d));
         ("newSentences", reading VNum (Frontend.newSentences d));
         ("sentenceReuseRatio", reading VNum (Frontend.sentenceReuseRatio d));
         ("embeddingRecommendations",
          reading client_recommendations (Frontend.embeddingRecommendations d)) ].

Definition client_variant {N} (v : Frontend.ProcessingVariant N) : value N :=
  VObj [ ("id", VStr (Frontend.id v));
         ("versionId", VStr (Frontend.versionId v));
         ("configHash", VStr (Frontend.configHash v));
         ("config", client_config (Frontend.config v));
         ("status", VStr (Frontend.status v));
         ("error", reading VStr (Frontend.error v));
         ("chunksCount", VNum (Frontend.chunksCount v));
         ("totalTokens", VNum (Frontend.totalTokens v));
         ("pageCount", reading VNum (Frontend.pageCount v));
         ("creditsCharged", reading VNum (Frontend.creditsCharged v));
         ("isPrimary", VBool (Frontend.isPrimary v));
         ("dedupStats", reading client_stats (Frontend.dedupStats v));
         ("retryCount", reading VNum (Frontend.retryCount v));
         ("maxRetries", reading VNum (Frontend.maxRetries v));
         ("isRetrying", reading VBool (Frontend.isRetrying v));
         ("inDlq", reading VBool (Frontend.inDlq v));
         ("createdAt", VStr (Frontend.createdAt v));
         ("processedAt", reading VStr (Frontend.processedAt v)) ].

(** ** Vocabulary of the further properties *)

(** Nothing but white space, and no white space at all. *)
Definition all_whitespace (s : string) : bool := forallb is_whitespace (chars s).

Definition no_whitespace (s : string) : bool :=
  forallb (fun c => negb (is_whitespace c)) (chars s).

(** A configuration with another base URL. *)
Definition with_baseUrl (b : option string) (config : RaptorConfig) : RaptorConfig :=
  {| cfg_apiKey := cfg_apiKey config;
     cfg_baseUrl := b;
     cfg_timeout := cfg_timeout config;
     cfg_maxPollAttempts := cfg_maxPollAttempts config;
     cfg_pollTimeout := cfg_pollTimeout config;
     cfg_dangerouslyAllowLocalhost := cfg_dangerouslyAllowLocalhost config |}.

(** The request carries the key of the client as a bearer token. *)
Definition authorized {N} (this : Client) (e : event N) : bool :=
  match e with
  | Fetch _ r => String.eqb (req_auth r) ("Bearer " +++ apiKey this)
  | _ => true
  end.

(** The requests of a trace, in order. *)
Fixpoint requests {N} (tr : list (event N)) : list (endpoint * Request) :=
  match tr with
  | [] => []
  | Fetch to r :: tr' => (to, r) :: requests tr'
  | _ :: tr' => requests tr'
  end.

(** The request of [getVariant]. *)
Definition variant_request (this : Client) (id : string) : Request :=
  {| req_method := "GET";
     req_url := baseUrl this +++ "/api/documents/variants/" +++ id;
     req_query := None;
     req_auth := authorization this;
     req_body := None |}.

(** The variant that [getVariant] returns for a reply: the mapped body of
    a 2xx response that decodes and has a [config]. *)
Definition variant_of_reply {N} (r : thrown + Response N) : option (value N) :=
  match reply_body r with
  | Some body =>
      match transformVariantJ body with
      | inr variant => Some variant
      | inl _ => None
      end
  | None => None
  end.

(** The reply holds a variant that is neither [completed] nor [failed]. *)
Definition still_processing {N} (r : thrown + Response N) : bool :=
  match variant_of_reply r with
  | Some variant =>
      (negb (is_str (prop variant "status") "completed") &&
       negb (is_str (prop variant "status") "failed"))%bool
  | None => false
  end.

(** The state of the caller's callback once it has been run on the
    variants of [k] polls in a row, from poll [from] on; it stops at a poll
    without a variant and at a call that throws. *)
Fixpoint notified {N St} (w : World N) (options : option (WaitOptions N St))
  (from k : nat) (st : St) : St :=
  match k with
  | O => st
  | S k' =>
      match variant_of_reply (status_reply w from) with
      | Some variant =>
          match call_onProgress options variant st with
          | inr (_, st') => notified w options (S from) k' st'
          | inl _ => st
          end
      | None => st
      end
  end.

(** The callback never throws. *)
Definition callback_total {N St} (options : option (WaitOptions N St)) : Prop :=
  forall variant st, exists r, call_onProgress options variant st = inr r.

(** The callback assigns to no property of the variant it is given. *)
Definition callback_reads_only {N St} (options : option (WaitOptions N St))
  : Prop :=
  forall variant st variant' st',
    call_onProgress options variant st = inr (variant', st') ->
    variant' = variant.

(** [obj.k = x] on an object. *)
Fixpoint assign_prop {N} (k : string) (x : value N)
  (props : list (string * value N)) : list (string * value N) :=
  match props with
  | [] => [(k, x)]
  | (k', y) :: props' =>
      if String.eqb k k' then (k, x) :: props'
      else (k', y) :: assign_prop k x props'
  end.

Definition assign {N} (obj : value N) (k : string) (x : value N) : value N :=
  match obj with
  | VObj props => VObj (assign_prop k x props)
  | _ => obj
  end.

(** The clock stays within [maxWait] of its first reading up to reading
    [k]. *)
Definition within_wait {N} (w : World N) (maxWait : Z) (k : nat) : bool :=
  now w k - now w 0 <=? maxWait.

(** One poll of [waitForProcessing] and the pause after it, and the
    effects after [k] of them. *)
Definition wait_and_sleep {N} (this : Client) (id : string) (interval : Z)
  : list (event N) :=
  [Fetch Status (variant_request this id); Sleep interval].

Definition after_waits {N} (this : Client) (k : nat) (id : string)
  (interval : Z) (s : effects N) : effects N :=
  {| trace := trace s ++ repeat_events k (wait_and_sleep this id interval);
     ticks := (ticks s + k)%nat;
     polls := (polls s + k)%nat |}.

(** The effects after the request of [getVariant]. *)
Definition after_variant_request {N} (this : Client) (id : string)
  (s : effects N) : effects N :=
  {| trace := trace s ++ [Fetch Status (variant_request this id)];
     ticks := ticks s;
     polls := S (polls s) |}.

(** ** Instances used in the further examples *)

Definition example_id : string := "123e4567-e89b-12d3-a456-426614174000".

(** A wire variant with a given status and error. *)
Definition variant_with_status (st : string) (err : option string)
  : Backend.ProcessingVariant ZNum :=
  {| Backend.id := example_id;
     Backend.version_id := "version-1";
     Backend.config_hash := "abc123";
     Backend.config := Backend.config (variant_with_strategy (Some "semantic"));
     Backend.status := st;
     Backend.error := err;
     Backend.chunks_count := zn 2;
     Backend.total_tokens := zn 10;
     Backend.page_count := Some (zn 1);
     Backend.credits_charged := None;
     Backend.is_primary := true;
     Backend.dedup_stats := None;
     Backend.retry_count := None;
     Backend.max_retries := None;
     Backend.is_retrying := None;
     Backend.in_dlq := None;
     Backend.created_at := "2025-01-01T00:00:00Z";
     Backend.processed_at := None |}.

(** A clock that advances by one second per reading, and one that stands
    still. *)
Definition seconds_clock (k : nat) : Z := 1000 * Z.of_nat k.

Definition frozen_clock (k : nat) : Z := 0.

(** A world whose status endpoint answers with whole variants, of the
    statuses of a list and of [rest] once the list is used up. *)
Definition variant_world (statuses : list string) (rest : string)
  (clock : nat -> Z) : World ZNum :=
  {| window_defined := false;
     statSync_isFile := fun _ => inr true;
     readFileSync := fun _ => inr "content";
     basename := fun p => p;
     upload_reply := ok_response example_upload;
     status_reply := fun k =>
       ok_response (wire_variant (variant_with_status (nth k statuses rest) None));
     chunks_reply := ok_response example_chunks;
     now := clock |}.

(** A world with another answer to the upload, or to the status
    requests. *)
Definition with_upload (r : thrown + Response ZNum) (w : World ZNum) : World ZNum :=
  {| window_defined := window_defined w;
     statSync_isFile := statSync_isFile w;
     readFileSync := readFileSync w;
     basename := basename w;
     upload_reply := r;
     status_reply := status_reply w;
     chunks_reply := chunks_reply w;
     now := now w |}.

Definition with_status (r : nat -> thrown + Response ZNum) (w : World ZNum)
  : World ZNum :=
  {| window_defined := window_defined w;
     statSync_isFile := statSync_isFile w;
     readFileSync := readFileSync w;
     basename := basename w;
     upload_reply := upload_reply w;
     status_reply := r;
     chunks_reply := chunks_reply w;
     now := now w |}.

(** A response that is not ok. *)
Definition error_response (code : Z) (text : string) (body : value ZNum)
  : Response ZNum :=
  {| ok := false; status := code; statusText := text; json := inr body |}.

(** A 2xx response whose body is not JSON. *)
Definition undecodable_response : Response ZNum :=
  {| ok := true; status := 200; statusText := "OK";
     json := inl (HostError "Unexpected token < in JSON at position 0" None) |}.

(** The flat body of [/api/documents/{id}]. *)
Definition flat_document : list (string * value ZNum) :=
  [ ("id", VStr example_id);
    ("filename", VStr "report.pdf");
    ("mime_type", VStr "application/pdf");
    ("file_size_bytes", VNum (zn 1024));
    ("created_at", VStr "2025-01-01T00:00:00Z") ].

(** Options whose callback keeps the variants it is given; a wait of at
    most three seconds. *)
Definition recording : option (WaitOptions ZNum (list (value ZNum))) :=
  Some {| maxWaitMs := None; pollIntervalMs := None;
          onProgress :=
            Some (fun variant seen => inr (variant, seen ++ [variant])) |}.

(** Options whose callback marks the variant it is given as completed. *)
Definition marking_completed : option (WaitOptions ZNum unit) :=
  Some {| maxWaitMs := None; pollIntervalMs := None;
          onProgress :=
            Some (fun variant st =>
                    inr (assign variant "status" (VStr "completed"), st)) |}.

Definition three_seconds : option (WaitOptions ZNum unit) :=
  Some {| maxWaitMs := Some 3000; pollIntervalMs := Some 500; onProgress := None |}.

(* ================================================================== *)
(** * Part II: properties *)
(* ================================================================== *)

(** ** The polling loop *)

Lemma gtb_false (a b : Z) : a <= b -> (a >? b) = false.
Proof. intros H. destruct (Z.gtb_spec a b); [lia | reflexivity]. Qed.

(** The comparisons with a finite ceiling are those of the integers. *)
Lemma Num_gtb_finite (a b : Z) : Num_gtb (Finite a) (Finite b) = (b <? a).
Proof. reflexivity. Qed.

Lemma Num_gtb_false_finite (a b : Z) :
  Num_gtb (Finite a) (Finite b) = false <-> a <= b.
Proof. rewrite Num_gtb_finite. apply Z.ltb_ge. Qed.

Lemma Num_gtb_true_finite (a b : Z) :
  Num_gtb (Finite a) (Finite b) = true <-> b < a.
Proof. rewrite Num_gtb_finite. apply Z.ltb_lt. Qed.

(** A check that passes at [b] passes below [b]. *)
Lemma Num_gtb_false_below (a b : Z) (c : Num) :
  a <= b -> Num_gtb (Finite b) c = false -> Num_gtb (Finite a) c = false.
Proof.
  intros Hab. destruct c as [z | | |]; try (intros; reflexivity); try discriminate.
  rewrite !Num_gtb_false_finite. lia.
Qed.

Lemma under_true (c : Num) (k : Z) :
  under c k = true <-> Num_gtb (Finite k) c = false.
Proof. unfold under. apply negb_true_iff. Qed.

Lemma under_finite (m k : Z) : under (Finite m) k = true <-> k <= m.
Proof. rewrite under_true. apply Num_gtb_false_finite. Qed.

Lemma last_two_append (a b : string) :
  last_two b <> None -> last_two (a +++ b) = last_two b.
Proof.
  intros Hb. induction a as [| c a IH]; [reflexivity |].
  change (String c a +++ b) with (String c (a +++ b)).
  destruct (a +++ b) as [| d [| d' t]] eqn:E.
  - rewrite <- IH in Hb. contradiction.
  - rewrite <- IH in Hb. contradiction.
  - exact IH.
Qed.

Section LifecycleProofs.

Variable N : NumberOps.
Variable w : World N.
Variable this : Client.

Lemma truthy_prop_not_nullish (v : value N) (k : string) :
  truthy (prop v k) = true -> nullish v = false.
Proof. destruct v; simpl; intros H; try reflexivity; discriminate. Qed.

Lemma is_str_prop_not_nullish (v : value N) (k lit : string) :
  is_str (prop v k) lit = true -> nullish v = false.
Proof. destruct v; simpl; intros H; try reflexivity; discriminate. Qed.

Lemma reply_status_is_inv (lit : string) (r : thrown + Response N) :
  reply_status_is lit r = true ->
  exists resp body,
    r = inr resp /\ ok resp = true /\ json resp = inr body /\
    is_str (prop body "status") lit = true.
Proof.
  unfold reply_status_is, reply_body.
  destruct r as [t | resp]; [discriminate |].
  destruct (ok resp) eqn:Hok; [| discriminate].
  destruct (json resp) as [t | body] eqn:Hjs; [discriminate |].
  intros H. exists resp, body. auto.
Qed.

Lemma is_str_eq (v : value N) (lit : string) :
  is_str v lit = true -> v = VStr lit.
Proof.
  destruct v; simpl; try discriminate.
  intros H. apply String.eqb_eq in H. now subst.
Qed.

Lemma poll_iteration_attempts_exceeded variantId maxAttempts pollTimeoutMs
  startTime pollInterval attempts (s : effects N) :
  Num_gtb (Finite attempts) maxAttempts = true ->
  poll_iteration w this variantId maxAttempts pollTimeoutMs startTime
    pollInterval attempts s
  = (Thrown (attempts_exceeded maxAttempts), s).
Proof.
  intros Ha. unfold poll_iteration. rewrite Ha. reflexivity.
Qed.

Lemma poll_iteration_time_exceeded variantId maxAttempts pollTimeoutMs
  startTime pollInterval attempts (s : effects N) :
  Num_gtb (Finite attempts) maxAttempts = false ->
  Num_gtb (Finite (now w (ticks s) - startTime)) pollTimeoutMs = true ->
  poll_iteration w this variantId maxAttempts pollTimeoutMs startTime
    pollInterval attempts s
  = (Thrown (time_exceeded pollTimeoutMs), after_tick s).
Proof.
  intros Ha Ht. unfold poll_iteration. rewrite Ha.
  unfold bind at 1. unfold date_now at 1. rewrite Ht.
  reflexivity.
Qed.

(** A pass whose two checks succeed and whose request is answered by a
    decoded 2xx response follows the status of the body. *)
Lemma poll_iteration_decoded variantId maxAttempts pollTimeoutMs startTime
  pollInterval attempts (s : effects N) resp body :
  Num_gtb (Finite attempts) maxAttempts = false ->
  Num_gtb (Finite (now w (ticks s) - startTime)) pollTimeoutMs = false ->
  status_reply w (polls s) = inr resp ->
  ok resp = true ->
  json resp = inr body ->
  nullish body = false ->
  poll_iteration w this variantId maxAttempts pollTimeoutMs startTime
    pollInterval attempts s
  = if is_str (prop body "status") "completed"
    then (Returned Break, after_request this variantId s)
    else if is_str (prop body "status") "failed"
    then (Thrown (processing_failed body), after_request this variantId s)
    else (Returned Continue, after_polls this 1 variantId pollInterval s).
Proof.
  intros Ha Ht Hr Hok Hjs Hnn.
  unfold poll_iteration. rewrite Ha.
  unfold bind at 1. unfold date_now at 1. rewrite Ht.
  unfold bind, fetch_status, or_raptor_error, lift, get, ret, sleep, emit, throw.
  simpl. rewrite Hr, Hok. simpl. rewrite Hjs, Hnn.
  destruct (is_str (prop body "status") "completed"); [reflexivity |].
  destruct (is_str (prop body "status") "failed"); [reflexivity |].
  unfold after_polls, poll_and_sleep. simpl.
  rewrite <- app_assoc, Nat.add_1_r, Nat.add_1_r. reflexivity.
Qed.

Lemma reply_status_decoded (lit : string) (r : thrown + Response N) :
  reply_status_is lit r = true ->
  exists resp body,
    r = inr resp /\ ok resp = true /\ json resp = inr body /\
    nullish body = false /\ prop body "status" = VStr lit.
Proof.
  intros H. apply reply_status_is_inv in H.
  destruct H as (resp & body & Hr & Hok & Hjs & Hs).
  exists resp, body. repeat split; auto.
  - eapply is_str_prop_not_nullish; eauto.
  - now apply is_str_eq.
Qed.

Lemma poll_iteration_nonterminal variantId maxAttempts pollTimeoutMs startTime
  pollInterval attempts (s : effects N) :
  Num_gtb (Finite attempts) maxAttempts = false ->
  Num_gtb (Finite (now w (ticks s) - startTime)) pollTimeoutMs = false ->
  nonterminal_reply (status_reply w (polls s)) = true ->
  poll_iteration w this variantId maxAttempts pollTimeoutMs startTime
    pollInterval attempts s
  = (Returned Continue, after_polls this 1 variantId pollInterval s).
Proof.
  intros Ha Ht Hr.
  unfold nonterminal_reply in Hr. apply orb_true_iff in Hr.
  destruct Hr as [Hr | Hr]; apply reply_status_decoded in Hr;
    destruct Hr as (resp & body & Hr & Hok & Hjs & Hnn & Hs);
    rewrite (poll_iteration_decoded _ _ _ _ _ _ _ resp body) by assumption;
    rewrite Hs; reflexivity.
Qed.

Lemma poll_iteration_completed variantId maxAttempts pollTimeoutMs startTime
  pollInterval attempts (s : effects N) :
  Num_gtb (Finite attempts) maxAttempts = false ->
  Num_gtb (Finite (now w (ticks s) - startTime)) pollTimeoutMs = false ->
  reply_status_is "completed" (status_reply w (polls s)) = true ->
  poll_iteration w this variantId maxAttempts pollTimeoutMs startTime
    pollInterval attempts s
  = (Returned Break, after_request this variantId s).
Proof.
  intros Ha Ht Hr. apply reply_status_decoded in Hr.
  destruct Hr as (resp & body & Hr & Hok & Hjs & Hnn & Hs).
  rewrite (poll_iteration_decoded _ _ _ _ _ _ _ resp body) by assumption.
  rewrite Hs. reflexivity.
Qed.

Lemma poll_iteration_failed variantId maxAttempts pollTimeoutMs startTime
  pollInterval attempts (s : effects N) body :
  Num_gtb (Finite attempts) maxAttempts = false ->
  Num_gtb (Finite (now w (ticks s) - startTime)) pollTimeoutMs = false ->
  reply_body (status_reply w (polls s)) = Some body ->
  is_str (prop body "status") "failed" = true ->
  poll_iteration w this variantId maxAttempts pollTimeoutMs startTime
    pollInterval attempts s
  = (Thrown (processing_failed body), after_request this variantId s).
Proof.
  intros Ha Ht Hb Hs.
  assert (Hr : reply_status_is "failed" (status_reply w (polls s)) = true).
  { unfold reply_status_is. now rewrite Hb. }
  apply reply_status_decoded in Hr.
  destruct Hr as (resp & body' & Hr & Hok & Hjs & Hnn & Hs').
  assert (body' = body).
  { unfold reply_body in Hb. rewrite Hr, Hok, Hjs in Hb. congruence. }
  subst body'.
  rewrite (poll_iteration_decoded _ _ _ _ _ _ _ resp body) by assumption.
  rewrite Hs'. reflexivity.
Qed.

Lemma after_polls_0 variantId pollInterval (s : effects N) :
  after_polls this 0 variantId pollInterval s = s.
Proof.
  destruct s. unfold after_polls. simpl.
  rewrite app_nil_r, !Nat.add_0_r. reflexivity.
Qed.

Lemma after_polls_S k variantId pollInterval (s : effects N) :
  after_polls this k variantId pollInterval (after_polls this 1 variantId pollInterval s)
  = after_polls this (S k) variantId pollInterval s.
Proof.
  unfold after_polls. simpl. rewrite <- app_assoc.
  f_equal; lia.
Qed.

(** [k] polls that report a status that is not terminal, under both
    ceilings, take the loop [k] passes further. *)
Lemma poll_loop_skip variantId maxAttempts pollTimeoutMs startTime pollInterval :
  forall (k fuel : nat) (attempts : Z) (s : effects N),
    Num_gtb (Finite (attempts + Z.of_nat k)) maxAttempts = false ->
    (forall i, (i < k)%nat ->
       Num_gtb (Finite (now w (ticks s + i) - startTime)) pollTimeoutMs = false) ->
    (forall i, (i < k)%nat ->
               nonterminal_reply (status_reply w (polls s + i)) = true) ->
    poll_loop w this (k + fuel) variantId maxAttempts pollTimeoutMs startTime
      pollInterval attempts s
    = poll_loop w this fuel variantId maxAttempts pollTimeoutMs startTime
        pollInterval (attempts + Z.of_nat k)
        (after_polls this k variantId pollInterval s).
Proof.
  induction k as [| k IH]; intros fuel attempts s Ha Ht Hr.
  - rewrite after_polls_0, Z.add_0_r. reflexivity.
  - change (S k + fuel)%nat with (S (k + fuel)). cbn [poll_loop].
    unfold bind at 1.
    rewrite poll_iteration_nonterminal.
    + rewrite IH.
      * rewrite after_polls_S. f_equal. lia.
      * replace (attempts + 1 + Z.of_nat k) with (attempts + Z.of_nat (S k)) by lia.
        exact Ha.
      * intros i Hi.
        replace (ticks (after_polls this 1 variantId pollInterval s) + i)%nat
          with (ticks s + S i)%nat by (simpl; lia).
        apply Ht. lia.
      * intros i Hi.
        replace (polls (after_polls this 1 variantId pollInterval s) + i)%nat
          with (polls s + S i)%nat by (simpl; lia).
        apply Hr. lia.
    + apply (Num_gtb_false_below _ (attempts + Z.of_nat (S k))); [lia | exact Ha].
    + specialize (Ht 0%nat). rewrite Nat.add_0_r in Ht. apply Ht. lia.
    + specialize (Hr 0%nat). rewrite Nat.add_0_r in Hr. apply Hr. lia.
Qed.

(** *** Counting requests *)

Lemma count_fetch_app (to : endpoint) (a b : list (event N)) :
  count_fetch to (a ++ b) = (count_fetch to a + count_fetch to b)%nat.
Proof.
  induction a as [| e a IH]; simpl; [reflexivity |].
  destruct e; try assumption.
  destruct (endpoint_eqb to to0); simpl; now rewrite IH.
Qed.

Lemma count_status_polls k (variantId : value N) pollInterval :
  count_fetch Status (repeat_events k (poll_and_sleep this variantId pollInterval)) = k.
Proof. induction k as [| k IH]; simpl; [reflexivity | now rewrite IH]. Qed.

Lemma count_chunks_polls k (variantId : value N) pollInterval :
  count_fetch Chunks (repeat_events k (poll_and_sleep this variantId pollInterval)) = 0%nat.
Proof. induction k as [| k IH]; simpl; [reflexivity | assumption]. Qed.

(** *** From the upload to the loop *)

Lemma process_after_upload fuel source options file resp body :
  file_part w source = inr file ->
  upload_reply w = inr resp ->
  ok resp = true ->
  json resp = inr body ->
  truthy (prop body "variant_id") = true ->
  process w this fuel source options no_effects
  = match wait options with
    | Some false => (Returned (process_result body [] []), submitted this file options)
    | _ =>
        (poll_loop w this fuel (prop body "variant_id")
           (maxAttempts_of this options) (pollTimeoutMs_of this options)
           (now w 0) (pollInterval_of options) 0 ;;
         collect_chunks w this body (prop body "variant_id"))
          (after_tick (submitted this file options))
    end.
Proof.
  intros Hf Hu Hok Hjs Hv.
  pose proof (truthy_prop_not_nullish _ _ Hv) as Hnn.
  unfold process. rewrite Hf.
  unfold bind at 1. unfold lift at 1. unfold ret at 1.
  unfold bind at 1. unfold fetch_upload, bind, emit, ret. simpl.
  rewrite Hu. simpl. rewrite Hok. simpl. rewrite Hjs. simpl.
  unfold lift, get. rewrite Hnn. simpl. rewrite Hv. simpl.
  destruct (wait options) as [[|]|]; reflexivity.
Qed.

Lemma map_elements_defined {A} (f : value N -> exn N + A) (items : list (value N)) :
  (forall c, nullish c = false -> exists a, f c = inr a) ->
  forallb (fun c => negb (nullish c)) items = true ->
  exists l, map_elements f items = inr l /\ length l = length items.
Proof.
  intros Hf. induction items as [| c items IH]; simpl; intros H.
  - exists []. auto.
  - apply andb_true_iff in H. destruct H as [Hc Hi].
    apply negb_true_iff in Hc.
    destruct (Hf c Hc) as [a Ha]. destruct (IH Hi) as (l & Hl & Hlen).
    rewrite Ha, Hl. exists (a :: l). simpl. auto.
Qed.

Lemma collect_chunks_array uploadData variantId (s : effects N) cresp cbody items :
  chunks_reply w = inr cresp ->
  ok cresp = true ->
  json cresp = inr cbody ->
  prop cbody "chunks" = VArr items ->
  forallb (fun c => negb (nullish c)) items = true ->
  exists texts metadata,
    collect_chunks w this uploadData variantId s
    = (Returned (process_result uploadData texts metadata),
       after_chunks_request this variantId s) /\
    length texts = length items /\ length metadata = length items.
Proof.
  intros Hr Hok Hjs Hc Hall.
  assert (Hnn : nullish cbody = false).
  { destruct cbody; simpl in *; try reflexivity; discriminate. }
  destruct (map_elements_defined chunk_text items) as (texts & Ht & Hlt); auto.
  { intros c Hcn. unfold chunk_text, get. rewrite Hcn. eauto. }
  destruct (map_elements_defined chunk_metadata items) as (metadata & Hm & Hlm); auto.
  { intros c Hcn. unfold chunk_metadata. rewrite Hcn. eauto. }
  exists texts, metadata. split; [| auto].
  unfold collect_chunks, fetch_chunks, bind, emit, ret. simpl.
  rewrite Hr. simpl. rewrite Hok. simpl. rewrite Hjs. simpl.
  unfold lift, get. rewrite Hnn, Hc. simpl. rewrite Ht, Hm. reflexivity.
Qed.

(** *** Never-ending processing *)





Lemma within_time_check pollTimeoutMs k :
  within_time w pollTimeoutMs k = true ->
  Num_gtb (Finite (now w k - now w 0)) pollTimeoutMs = false.
Proof. unfold within_time. apply under_true. Qed.

Lemma timeout_messages_differ (a b : string) :
  "Processing timeout: exceeded " +++ a +++ " polling attempts"
  <> "Processing timeout: exceeded " +++ b +++ "ms".
Proof.
  intros Hm. injection Hm as H.
  apply (f_equal last_two) in H.
  assert (H1 : forall x, last_two (x +++ " polling attempts") = Some ("t", "s")%char).
  { intros x. rewrite last_two_append; [reflexivity | discriminate]. }
  assert (H2 : forall x, last_two (x +++ "ms") = Some ("m", "s")%char).
  { intros x. rewrite last_two_append; [reflexivity | discriminate]. }
  rewrite H1, H2 in H. discriminate.
Qed.

(** A waiting call of [process] whose first [k] polls report a status that
    is not terminal, under both ceilings, is [k] passes into its loop. *)
Lemma process_after_polls fuel source options file resp body (k : nat) :
  file_part w source = inr file ->
  upload_reply w = inr resp ->
  ok resp = true ->
  json resp = inr body ->
  truthy (prop body "variant_id") = true ->
  wait options <> Some false ->
  (forall i, (i < k)%nat -> nonterminal_reply (status_reply w i) = true) ->
  (forall i, (i < k)%nat ->
     under (maxAttempts_of this options) (Z.of_nat (S i)) = true) ->
  (forall i, (i < k)%nat ->
     within_time w (pollTimeoutMs_of this options) (S i) = true) ->
  process w this (k + fuel) source options no_effects
  = (poll_loop w this fuel (prop body "variant_id")
       (maxAttempts_of this options) (pollTimeoutMs_of this options)
       (now w 0) (pollInterval_of options) (Z.of_nat k) ;;
     collect_chunks w this body (prop body "variant_id"))
      (after_polls this k (prop body "variant_id") (pollInterval_of options)
         (after_tick (submitted this file options))).
Proof.
  intros Hf Hu Hok Hjs Hv Hw Hnt Ha Ht.
  rewrite (process_after_upload (k + fuel) source options file resp body)
    by assumption.
  assert (Hskip :
    poll_loop w this (k + fuel) (prop body "variant_id")
      (maxAttempts_of this options) (pollTimeoutMs_of this options)
      (now w 0) (pollInterval_of options) 0
      (after_tick (submitted this file options))
    = poll_loop w this fuel (prop body "variant_id")
        (maxAttempts_of this options) (pollTimeoutMs_of this options)
        (now w 0) (pollInterval_of options) (Z.of_nat k)
        (after_polls this k (prop body "variant_id") (pollInterval_of options)
           (after_tick (submitted this file options)))).
  { destruct k as [| k]; [now rewrite after_polls_0 |].
    rewrite poll_loop_skip.
    - rewrite Z.add_0_l. reflexivity.
    - rewrite Z.add_0_l. apply under_true. apply Ha. lia.
    - intros i Hi. simpl. apply within_time_check. apply Ht. exact Hi.
    - intros i Hi. simpl. apply Hnt. exact Hi. }
  unfold bind. rewrite Hskip.
  destruct (wait options) as [[|]|]; [reflexivity | congruence | reflexivity].
Qed.

(** *** The claims on [process] *)

(** C1.  With [wait === false], [process] returns right after a successful
    submission (the source gives a file entry, the upload is answered by a
    2xx response whose body decodes and carries a truthy [variant_id]).  The
    result holds the variant id and the submission-time fields of the upload
    response, with empty [chunks] and [metadata]; the upload is the only
    request of the trace, so no status request and no chunk request is
    issued, and [Date.now] is never called: the loop is not entered. *)
Theorem process_without_wait fuel source options file resp body :
  file_part w source = inr file ->
  upload_reply w = inr resp ->
  ok resp = true ->
  json resp = inr body ->
  truthy (prop body "variant_id") = true ->
  wait options = Some false ->
  exists result s,
    process w this fuel source options no_effects = (Returned result, s) /\
    result = process_result body [] [] /\
    prop result "variantId" = prop body "variant_id" /\
    prop result "documentId" = prop body "document_id" /\
    prop result "chunks" = VArr [] /\
    prop result "metadata" = VArr [] /\
    prop result "isDuplicate" = prop body "is_duplicate" /\
    prop result "autoLinked" = prop body "auto_linked" /\
    trace s = [Fetch Upload (upload_request this file options)] /\
    count_fetch Status (trace s) = 0%nat /\
    count_fetch Chunks (trace s) = 0%nat /\
    ticks s = 0%nat.
Proof.
  intros Hf Hu Hok Hjs Hv Hw.
  exists (process_result body [] []), (submitted this file options).
  rewrite (process_after_upload fuel source options file resp body) by assumption.
  rewrite Hw. repeat split; reflexivity.
Qed.


(** C3.  When the polls report [pending], [processing], [completed] in
    this order, under both ceilings, [process] issues the upload, exactly
    three status requests (a pause after each of the first two), then
    exactly one chunk request, and returns a result whose [chunks] and
    [metadata] arrays are as long as the [chunks] array of the fetched
    payload (whose elements are not [null]). *)
Theorem process_three_polls fuel source options file resp body cresp cbody items :
  file_part w source = inr file ->
  upload_reply w = inr resp ->
  ok resp = true ->
  json resp = inr body ->
  truthy (prop body "variant_id") = true ->
  wait options <> Some false ->
  reply_status_is "pending" (status_reply w 0) = true ->
  reply_status_is "processing" (status_reply w 1) = true ->
  reply_status_is "completed" (status_reply w 2) = true ->
  under (maxAttempts_of this options) 3 = true ->
  within_time w (pollTimeoutMs_of this options) 1 = true ->
  within_time w (pollTimeoutMs_of this options) 2 = true ->
  within_time w (pollTimeoutMs_of this options) 3 = true ->
  chunks_reply w = inr cresp ->
  ok cresp = true ->
  json cresp = inr cbody ->
  prop cbody "chunks" = VArr items ->
  forallb (fun c => negb (nullish c)) items = true ->
  (3 <= fuel)%nat ->
  exists result texts metadata s,
    process w this fuel source options no_effects = (Returned result, s) /\
    prop result "chunks" = VArr texts /\
    prop result "metadata" = VArr metadata /\
    length texts = length items /\
    length metadata = length items /\
    prop result "variantId" = prop body "variant_id" /\
    prop result "isDuplicate" = prop body "is_duplicate" /\
    trace s =
      [ Fetch Upload (upload_request this file options);
        Fetch Status (status_request this (prop body "variant_id"));
        Sleep (pollInterval_of options);
        Fetch Status (status_request this (prop body "variant_id"));
        Sleep (pollInterval_of options);
        Fetch Status (status_request this (prop body "variant_id"));
        Fetch Chunks (chunks_request this (prop body "variant_id")) ] /\
    count_fetch Status (trace s) = 3%nat /\
    count_fetch Chunks (trace s) = 1%nat.
Proof.
  intros Hf Hu Hok Hjs Hv Hw H0 H1 H2 Hmax Ht1 Ht2 Ht3 Hc Hcok Hcjs Hch Hall Hfuel.
  apply within_time_check in Ht1, Ht2, Ht3.
  apply under_true in Hmax.
  rewrite (process_after_upload fuel source options file resp body) by assumption.
  set (vid := prop body "variant_id").
  set (s1 := after_tick (submitted this file options)).
  destruct (collect_chunks_array body vid
              (after_request this vid (after_polls this 2 vid (pollInterval_of options) s1))
              cresp cbody items Hc Hcok Hcjs Hch Hall)
    as (texts & metadata & Hcol & Hlt & Hlm).
  exists (process_result body texts metadata), texts, metadata,
    (after_chunks_request this vid
       (after_request this vid (after_polls this 2 vid (pollInterval_of options) s1))).
  assert (Hrun :
    (poll_loop w this fuel vid (maxAttempts_of this options)
       (pollTimeoutMs_of this options) (now w 0) (pollInterval_of options) 0 ;;
     collect_chunks w this body vid) s1
    = (Returned (process_result body texts metadata),
       after_chunks_request this vid
         (after_request this vid (after_polls this 2 vid (pollInterval_of options) s1)))).
  { destruct fuel as [| [| [| fuel]]]; try lia.
    unfold bind.
    change (S (S (S fuel))) with (2 + S fuel)%nat.
    rewrite poll_loop_skip.
    - cbn [poll_loop]. unfold bind.
      rewrite poll_iteration_completed.
      + unfold ret. exact Hcol.
      + exact Hmax.
      + exact Ht3.
      + exact H2.
    - apply (Num_gtb_false_below _ 3); [simpl; lia | exact Hmax].
    - intros i Hi. destruct i as [| [| i]]; [exact Ht1 | exact Ht2 | lia].
    - intros i Hi. unfold nonterminal_reply.
      destruct i as [| [| i]]; [| | lia]; simpl.
      + rewrite H0. reflexivity.
      + rewrite H1. apply orb_true_r. }
  split.
  { destruct (wait options) as [[|]|]; [exact Hrun | congruence | exact Hrun]. }
  repeat split; auto.
Qed.

(** C4.  When a poll reports [failed], after [k] polls that reported
    [pending] or [processing] and under both ceilings, [process] throws the
    error [Processing failed: ...], which carries the [error] string of the
    server, or [Unknown error] when that field is absent (or otherwise
    falsy); [k + 1] status requests and no chunk request have been issued.
    A pass whose poll reports [pending] or [processing] never throws: it
    ends with [Continue]. *)
Theorem process_failed_status fuel source options file resp body (k : nat) vbody :
  file_part w source = inr file ->
  upload_reply w = inr resp ->
  ok resp = true ->
  json resp = inr body ->
  truthy (prop body "variant_id") = true ->
  wait options <> Some false ->
  (forall i, (i < k)%nat -> nonterminal_reply (status_reply w i) = true) ->
  reply_body (status_reply w k) = Some vbody ->
  is_str (prop vbody "status") "failed" = true ->
  under (maxAttempts_of this options) (Z.of_nat k + 1) = true ->
  (forall i, (i <= k)%nat ->
             within_time w (pollTimeoutMs_of this options) (S i) = true) ->
  (k < fuel)%nat ->
  (exists s,
     process w this fuel source options no_effects
     = (Thrown (processing_failed vbody), s) /\
     count_fetch Status (trace s) = S k /\
     count_fetch Chunks (trace s) = 0%nat) /\
  (forall e, prop vbody "error" = VStr e -> string_truthy e = true ->
             @processing_failed N vbody = RaptorError ("Processing failed: " +++ e)) /\
  (truthy (prop vbody "error") = false ->
   @processing_failed N vbody = RaptorError "Processing failed: Unknown error") /\
  (forall variantId maxAttempts pollTimeoutMs startTime pollInterval attempts s,
     under maxAttempts attempts = true ->
     under pollTimeoutMs (now w (ticks s) - startTime) = true ->
     nonterminal_reply (status_reply w (polls s)) = true ->
     fst (poll_iteration w this variantId maxAttempts pollTimeoutMs startTime
            pollInterval attempts s) = Returned Continue).
Proof.
  intros Hf Hu Hok Hjs Hv Hw Hnt Hb Hfail Hmax Ht Hfuel.
  apply under_true in Hmax.
  split; [| split; [| split]].
  - rewrite (process_after_upload fuel source options file resp body) by assumption.
    set (vid := prop body "variant_id").
    set (s1 := after_tick (submitted this file options)).
    exists (after_request this vid (after_polls this k vid (pollInterval_of options) s1)).
    assert (Hrun :
      (poll_loop w this fuel vid (maxAttempts_of this options)
         (pollTimeoutMs_of this options) (now w 0) (pollInterval_of options) 0 ;;
       collect_chunks w this body vid) s1
      = (Thrown (processing_failed vbody),
         after_request this vid (after_polls this k vid (pollInterval_of options) s1))).
    { replace fuel with (k + S (fuel - S k))%nat by lia.
      unfold bind. rewrite poll_loop_skip.
      - cbn [poll_loop]. unfold bind.
        rewrite (poll_iteration_failed _ _ _ _ _ _ _ vbody).
        + reflexivity.
        + rewrite Z.add_0_l. exact Hmax.
        + simpl. apply within_time_check.
          replace (S (k + 0))%nat with (S k) by lia.
          replace (1 + k)%nat with (S k) by lia. apply Ht. lia.
        + simpl. exact Hb.
        + exact Hfail.
      - apply (Num_gtb_false_below _ (Z.of_nat k + 1)); [lia | exact Hmax].
      - intros i Hi. simpl. apply within_time_check. apply Ht. lia.
      - intros i Hi. simpl. apply Hnt. exact Hi. }
    split.
    { destruct (wait options) as [[|]|]; [exact Hrun | congruence | exact Hrun]. }
    simpl. rewrite !count_fetch_app, count_status_polls, count_chunks_polls.
    simpl. split; lia.
  - intros e He Htr. unfold processing_failed, js_or. rewrite He. simpl.
    rewrite Htr. reflexivity.
  - intros He. unfold processing_failed, js_or. rewrite He. reflexivity.
  - intros variantId maxAttempts pollTimeoutMs startTime pollInterval attempts s
      Ha Htime Hr.
    apply under_true in Ha, Htime.
    rewrite poll_iteration_nonterminal by assumption. reflexivity.
Qed.

(** C5.  With [maxPollAttempts: 2] and polls that always report
    [processing], [process] throws [Processing timeout: exceeded 2 polling
    attempts] after exactly two status requests, when the elapsed-time check
    passes before each of them.  In general, after [k] polls under both
    ceilings, pass [k + 1] first compares its number with the attempt
    ceiling, then the time elapsed since the reading of the clock that
    [process] takes on entering the loop with the time ceiling, and only
    then sends its status request: when the attempt check fails [process]
    throws the error that names the attempt ceiling, with [k] status
    requests sent and without reading the clock again; when it passes and
    the time check fails [process] throws the error that names the time
    ceiling in milliseconds, with [k] status requests sent.  The two
    messages differ whatever the ceilings are. *)
Theorem process_two_attempts fuel source options file resp body :
  file_part w source = inr file ->
  upload_reply w = inr resp ->
  ok resp = true ->
  json resp = inr body ->
  truthy (prop body "variant_id") = true ->
  wait options <> Some false ->
  (forall k, reply_status_is "processing" (status_reply w k) = true) ->
  (o_maxPollAttempts options = Some (Finite 2) ->
   within_time w (pollTimeoutMs_of this options) 1 = true ->
   within_time w (pollTimeoutMs_of this options) 2 = true ->
   (3 <= fuel)%nat ->
   exists s,
     process w this fuel source options no_effects
     = (Thrown (RaptorError "Processing timeout: exceeded 2 polling attempts"), s) /\
     trace s =
       [ Fetch Upload (upload_request this file options);
         Fetch Status (status_request this (prop body "variant_id"));
         Sleep (pollInterval_of options);
         Fetch Status (status_request this (prop body "variant_id"));
         Sleep (pollInterval_of options) ] /\
     count_fetch Status (trace s) = 2%nat /\
     ticks s = 3%nat) /\
  (forall k : nat,
     (forall i, (i < k)%nat ->
        under (maxAttempts_of this options) (Z.of_nat (S i)) = true) ->
     (forall i, (i < k)%nat ->
        within_time w (pollTimeoutMs_of this options) (S i) = true) ->
     (k < fuel)%nat ->
     (under (maxAttempts_of this options) (Z.of_nat (S k)) = false ->
      exists s,
        process w this fuel source options no_effects
        = (Thrown (RaptorError
                     ("Processing timeout: exceeded " +++
                      Num_toString N (maxAttempts_of this options) +++
                      " polling attempts")), s) /\
        count_fetch Status (trace s) = k /\
        ticks s = S k) /\
     (under (maxAttempts_of this options) (Z.of_nat (S k)) = true ->
      under (pollTimeoutMs_of this options) (now w (S k) - now w 0) = false ->
      exists s,
        process w this fuel source options no_effects
        = (Thrown (RaptorError
                     ("Processing timeout: exceeded " +++
                      Num_toString N (pollTimeoutMs_of this options) +++
                      "ms")), s) /\
        count_fetch Status (trace s) = k /\
        ticks s = S (S k))) /\
  (forall a b : string,
     "Processing timeout: exceeded " +++ a +++ " polling attempts"
     <> "Processing timeout: exceeded " +++ b +++ "ms").
Proof.
  intros Hf Hu Hok Hjs Hv Hw Hall.
  assert (Hnt : forall i, nonterminal_reply (status_reply w i) = true).
  { intros i. unfold nonterminal_reply. rewrite Hall. apply orb_true_r. }
  assert (Hgen : forall k : nat,
     (forall i, (i < k)%nat ->
        under (maxAttempts_of this options) (Z.of_nat (S i)) = true) ->
     (forall i, (i < k)%nat ->
        within_time w (pollTimeoutMs_of this options) (S i) = true) ->
     (k < fuel)%nat ->
     (under (maxAttempts_of this options) (Z.of_nat (S k)) = false ->
      process w this fuel source options no_effects
      = (Thrown (attempts_exceeded (maxAttempts_of this options)),
         after_polls this k (prop body "variant_id") (pollInterval_of options)
           (after_tick (submitted this file options)))) /\
     (under (maxAttempts_of this options) (Z.of_nat (S k)) = true ->
      under (pollTimeoutMs_of this options) (now w (S k) - now w 0) = false ->
      process w this fuel source options no_effects
      = (Thrown (time_exceeded (pollTimeoutMs_of this options)),
         after_tick
           (after_polls this k (prop body "variant_id") (pollInterval_of options)
              (after_tick (submitted this file options)))))).
  { intros k Ha Ht Hfuel.
    replace fuel with (k + S (fuel - S k))%nat by lia.
    rewrite (process_after_polls _ source options file resp body k); auto.
    cbn [poll_loop]. unfold bind.
    replace (Z.of_nat k + 1) with (Z.of_nat (S k)) by lia.
    split.
    - intros Hover. unfold under in Hover. apply negb_false_iff in Hover.
      rewrite poll_iteration_attempts_exceeded by assumption. reflexivity.
    - intros Hunder Hover. apply under_true in Hunder.
      unfold under in Hover. apply negb_false_iff in Hover.
      rewrite poll_iteration_time_exceeded; [reflexivity | assumption |].
      simpl. replace (S (k + 0)) with (S k) by lia.
      replace (1 + k)%nat with (S k) by lia. exact Hover. }
  split; [| split].
  - intros Hmax Ht1 Ht2 Hfuel.
    assert (Hm : maxAttempts_of this options = Finite 2).
    { unfold maxAttempts_of. rewrite Hmax. reflexivity. }
    destruct (Hgen 2%nat) as [Hover _].
    + intros i Hi. rewrite Hm. apply under_finite. lia.
    + intros i Hi. destruct i as [| [| i]]; [exact Ht1 | exact Ht2 | lia].
    + lia.
    + rewrite Hover by (rewrite Hm; reflexivity).
      rewrite Hm. eexists. split; [reflexivity |].
      split; [reflexivity |]. split; reflexivity.
  - intros k Ha Ht Hfuel. destruct (Hgen k Ha Ht Hfuel) as [Hover Htime].
    split.
    + intros H. rewrite (Hover H). eexists. split; [reflexivity |].
      simpl. rewrite count_status_polls. split; lia.
    + intros H1 H2. rewrite (Htime H1 H2). eexists. split; [reflexivity |].
      simpl. rewrite count_status_polls. split; lia.
  - apply timeout_messages_differ.
Qed.

(** *** [processStream] *)

Lemma yields_app (a b : list (event N)) :
  yields (a ++ b) = yields a ++ yields b.
Proof.
  induction a as [| e a IH]; simpl; [reflexivity |].
  destruct e; simpl; now rewrite IH.
Qed.

Lemma stream_iteration_decoded variantId maxAttempts pollTimeoutMs startTime
  pollInterval attempts (s : effects N) resp body :
  Num_gtb (Finite attempts) maxAttempts = false ->
  Num_gtb (Finite (now w (ticks s) - startTime)) pollTimeoutMs = false ->
  status_reply w (polls s) = inr resp ->
  json resp = inr body ->
  nullish body = false ->
  stream_iteration w this variantId maxAttempts pollTimeoutMs startTime
    pollInterval attempts s
  = if is_str (prop body "status") "completed"
    then (Returned Break,
          {| trace := trace s ++ [Fetch Status (status_request this variantId);
                                  Yield (processing_complete variantId)];
             ticks := S (ticks s); polls := S (polls s) |})
    else if is_str (prop body "status") "failed"
    then (Thrown (processing_failed body), after_request this variantId s)
    else (Returned Continue,
          {| trace := trace s ++ [Fetch Status (status_request this variantId);
                                  Yield (progress_event variantId (prop body "status"));
                                  Sleep pollInterval];
             ticks := S (ticks s); polls := S (polls s) |}).
Proof.
  intros Ha Ht Hr Hjs Hnn.
  unfold stream_iteration. rewrite Ha.
  unfold bind at 1. unfold date_now at 1. rewrite Ht.
  unfold bind, fetch_status, or_rethrow, lift, get, ret, sleep, yield, emit, throw.
  simpl. rewrite Hr. simpl. rewrite Hjs, Hnn.
  destruct (is_str (prop body "status") "completed").
  { simpl. rewrite <- app_assoc. reflexivity. }
  destruct (is_str (prop body "status") "failed"); [reflexivity |].
  simpl. rewrite <- !app_assoc. reflexivity.
Qed.

(** One pass of the loop of [processStream]: what it yields, whether it
    sends a status request, and what the poll said. *)
Lemma stream_iteration_cases variantId maxAttempts pollTimeoutMs startTime
  pollInterval attempts (s : effects N) :
  match stream_iteration w this variantId maxAttempts pollTimeoutMs startTime
          pollInterval attempts s with
  | (Thrown e, s') =>
      yields (trace s') = yields (trace s) /\
      ((count_fetch Status (trace s') = count_fetch Status (trace s) /\
        (e = attempts_exceeded maxAttempts \/ e = time_exceeded pollTimeoutMs)) \/
       (count_fetch Status (trace s') = S (count_fetch Status (trace s)) /\
        (is_str (stream_status (status_reply w (polls s))) "failed" = true \/
         stream_readable (status_reply w (polls s)) = false)))
  | (OutOfFuel, s') => False
  | (Returned Break, s') =>
      yields (trace s') = yields (trace s) ++ [processing_complete variantId] /\
      count_fetch Status (trace s') = S (count_fetch Status (trace s)) /\
      is_str (stream_status (status_reply w (polls s))) "completed" = true
  | (Returned Continue, s') =>
      yields (trace s')
      = yields (trace s)
        ++ [progress_event variantId (stream_status (status_reply w (polls s)))] /\
      count_fetch Status (trace s') = S (count_fetch Status (trace s)) /\
      polls s' = S (polls s) /\
      stream_readable (status_reply w (polls s)) = true /\
      is_str (stream_status (status_reply w (polls s))) "completed" = false /\
      is_str (stream_status (status_reply w (polls s))) "failed" = false
  end.
Proof.
  unfold stream_iteration.
  destruct (Num_gtb (Finite attempts) maxAttempts); [simpl; auto |].
  unfold bind at 1. unfold date_now at 1.
  destruct (Num_gtb (Finite (now w (ticks s) - startTime)) pollTimeoutMs);
    [simpl; auto |].
  unfold bind, fetch_status, or_rethrow, lift, get, ret, sleep, yield, emit, throw,
    stream_status, stream_readable.
  simpl.
  destruct (status_reply w (polls s)) as [t | resp]; simpl.
  { rewrite yields_app, count_fetch_app, app_nil_r. simpl.
    split; [reflexivity |]. right. split; [lia | auto]. }
  destruct (json resp) as [t | body]; simpl.
  { rewrite yields_app, count_fetch_app, app_nil_r. simpl.
    split; [reflexivity |]. right. split; [lia | auto]. }
  destruct (nullish body); simpl.
  { rewrite yields_app, count_fetch_app, app_nil_r. simpl.
    split; [reflexivity |]. right. split; [lia | auto]. }
  destruct (is_str (prop body "status") "completed") eqn:Hc; simpl.
  { rewrite !yields_app, !count_fetch_app. simpl. rewrite app_nil_r.
    split; [reflexivity |]. split; [lia | reflexivity]. }
  destruct (is_str (prop body "status") "failed") eqn:Hf; simpl.
  { rewrite yields_app, count_fetch_app, app_nil_r. simpl.
    split; [reflexivity |]. right. split; [lia | auto]. }
  rewrite !yields_app, !count_fetch_app. simpl. rewrite !app_nil_r.
  repeat split; auto. lia.
Qed.

(** The loop of [processStream]: [j] polls that are neither [completed]
    nor [failed], one event each, then the pass that ends it. *)
Lemma stream_loop_run variantId maxAttempts pollTimeoutMs startTime pollInterval :
  forall (fuel : nat) (attempts : Z) (s : effects N) o s',
    stream_loop w this fuel variantId maxAttempts pollTimeoutMs startTime
      pollInterval attempts s = (o, s') ->
    exists j,
      yields (trace s')
      = yields (trace s)
        ++ map (fun i => progress_event variantId (stream_status (status_reply w i)))
             (seq (polls s) j)
        ++ ending variantId o /\
      (forall i, In i (seq (polls s) j) ->
         stream_readable (status_reply w i) = true /\
         is_str (stream_status (status_reply w i)) "completed" = false /\
         is_str (stream_status (status_reply w i)) "failed" = false) /\
      match o with
      | Returned _ =>
          count_fetch Status (trace s') = (count_fetch Status (trace s) + S j)%nat /\
          is_str (stream_status (status_reply w (polls s + j))) "completed" = true
      | Thrown e =>
          (count_fetch Status (trace s') = (count_fetch Status (trace s) + j)%nat /\
           (e = attempts_exceeded maxAttempts \/ e = time_exceeded pollTimeoutMs)) \/
          (count_fetch Status (trace s') = (count_fetch Status (trace s) + S j)%nat /\
           (is_str (stream_status (status_reply w (polls s + j))) "failed" = true \/
            stream_readable (status_reply w (polls s + j)) = false))
      | OutOfFuel =>
          count_fetch Status (trace s') = (count_fetch Status (trace s) + j)%nat /\
          j = fuel
      end.
Proof.
  induction fuel as [| fuel IH]; intros attempts s o s' Hrun.
  - cbn in Hrun. injection Hrun as <- <-.
    exists 0%nat. simpl. rewrite app_nil_r.
    split; [reflexivity |]. split; [contradiction |]. split; [lia | reflexivity].
  - cbn [stream_loop] in Hrun. unfold bind in Hrun.
    pose proof (stream_iteration_cases variantId maxAttempts pollTimeoutMs
                  startTime pollInterval (attempts + 1) s) as Hc.
    destruct (stream_iteration w this variantId maxAttempts pollTimeoutMs
                startTime pollInterval (attempts + 1) s) as [[[|] | e |] s1].
    + injection Hrun as <- <-. destruct Hc as (Hy & Hn & Hdone).
      exists 0%nat. simpl. rewrite Nat.add_0_r.
      split; [exact Hy |]. split; [contradiction |]. split; [lia | exact Hdone].
    + destruct Hc as (Hy & Hn & Hp & Hread & Hnc & Hnf).
      apply IH in Hrun. destruct Hrun as (j & Hj & Hnt & Hend).
      exists (S j). rewrite Hj, Hy, Hp. simpl.
      rewrite <- app_assoc. split; [reflexivity |].
      split.
      { intros i [<- | Hi]; [auto |]. apply Hnt. now rewrite Hp. }
      rewrite Hp, Hn in Hend.
      replace (polls s + S j)%nat with (S (polls s) + j)%nat by lia.
      destruct o as [u | e |].
      * destruct Hend as [Hcount Hdone]. split; [lia | exact Hdone].
      * destruct Hend as [[Hcount He] | [Hcount He]]; [left | right];
          (split; [lia | exact He]).
      * destruct Hend as [Hcount Hfuel]. split; lia.
    + injection Hrun as <- <-. destruct Hc as (Hy & Hcases).
      exists 0%nat. simpl. rewrite app_nil_r, !Nat.add_0_r.
      split; [exact Hy |]. split; [contradiction |].
      destruct Hcases as [[Hn He] | [Hn He]]; [left | right];
        (split; [lia | exact He]).
    + contradiction.
Qed.

(** The attempt ceiling alone ends the loop of [processStream]. *)
Lemma stream_loop_ends variantId (m : Z) pollTimeoutMs startTime pollInterval :
  forall (n fuel : nat) (attempts : Z) (s : effects N),
    m - attempts <= Z.of_nat n ->
    (n < fuel)%nat ->
    fst (stream_loop w this fuel variantId (Finite m) pollTimeoutMs startTime
           pollInterval attempts s) <> OutOfFuel.
Proof.
  induction n as [| n IH]; intros fuel attempts s Hn Hfuel;
    (destruct fuel as [| fuel]; [lia |]); cbn [stream_loop]; unfold bind.
  - unfold stream_iteration.
    replace (Num_gtb (Finite (attempts + 1)) (Finite m)) with true
      by (symmetry; apply Num_gtb_true_finite; lia).
    discriminate.
  - pose proof (stream_iteration_cases variantId (Finite m) pollTimeoutMs
                  startTime pollInterval (attempts + 1) s) as Hc.
    destruct (stream_iteration w this variantId (Finite m) pollTimeoutMs
                startTime pollInterval (attempts + 1) s) as [[[|] | e |] s'];
      simpl in *; try discriminate; [| contradiction].
    apply IH; lia.
Qed.

Lemma progress_event_explicit (variantId status : value N) :
  progress_event variantId status
  = if is_str status "processing"
    then {| stage := "processing"; percent := 50;
            message := "Document processing...";
            variantId := Some variantId |}
    else {| stage := "queued"; percent := 25;
            message := "Document queued...";
            variantId := Some variantId |}.
Proof.
  unfold progress_event. destruct (is_str status "processing"); reflexivity.
Qed.

Lemma processStream_after_upload fuel source options file resp body :
  stream_file_part w source = inr file ->
  upload_reply w = inr resp ->
  ok resp = true ->
  json resp = inr body ->
  nullish body = false ->
  processStream w this fuel source options no_effects
  = stream_loop w this fuel (prop body "variant_id")
      (maxAttempts_of this options) (pollTimeoutMs_of this options)
      (now w 0) (Z_or (pollInterval options) 1000) 0
      {| trace := [ Yield upload_started;
                    Fetch Upload (stream_upload_request this file options);
                    Yield (upload_complete (prop body "variant_id")) ];
         ticks := 1; polls := 0 |}.
Proof.
  intros Hf Hu Hok Hjs Hnn.
  unfold processStream.
  unfold bind, yield, emit, lift, fetch_upload, or_rethrow, get, ret, date_now.
  simpl. rewrite Hf. simpl. rewrite Hu. simpl. rewrite Hok. simpl.
  rewrite Hjs. simpl. rewrite Hnn. simpl. reflexivity.
Qed.

(** C6.  After a successful submission, [processStream] yields [upload]
    at 0, then [upload] at 100 with the variant id, then one event for each
    of its first [j] polls, in their order, and last the [complete] event at
    100 when it returns (nothing more when it throws).  Each of these [j]
    polls could be read and is neither [completed] nor [failed]; its event
    is [processing] at 50 when it reports [processing], [queued] at 25
    otherwise.  The [j] polls are all the polls but the one that ends the
    stream: a stream that returns has sent [j + 1] status requests, the last
    of them answered [completed]; a stream that throws has either sent [j]
    requests and throws one of the two timeout errors, or sent [j + 1], the
    last of them answered [failed] or not readable; a run that is out of
    fuel has sent [j] requests, one per unit of fuel.  With more fuel than a
    finite attempt ceiling allows passes, the stream does return or throw.
    For polls reporting [processing] then [completed], under both ceilings,
    the events are exactly [upload] at 0, [upload] at 100, one [processing]
    event at 50 and [complete] at 100, in this order and without
    repetition. *)
Theorem processStream_events fuel source options file resp body :
  stream_file_part w source = inr file ->
  upload_reply w = inr resp ->
  ok resp = true ->
  json resp = inr body ->
  nullish body = false ->
  (exists j,
     yields (trace (snd (processStream w this fuel source options no_effects)))
     = [ {| stage := "upload"; percent := 0;
            message := "Uploading document..."; variantId := None |};
         {| stage := "upload"; percent := 100;
            message := "Upload complete";
            variantId := Some (prop body "variant_id") |} ]
       ++ map (fun i =>
                 if is_str (stream_status (status_reply w i)) "processing"
                 then {| stage := "processing"; percent := 50;
                         message := "Document processing...";
                         variantId := Some (prop body "variant_id") |}
                 else {| stage := "queued"; percent := 25;
                         message := "Document queued...";
                         variantId := Some (prop body "variant_id") |})
            (seq 0 j)
       ++ match fst (processStream w this fuel source options no_effects) with
          | Returned _ =>
              [ {| stage := "complete"; percent := 100;
                   message := "Processing complete";
                   variantId := Some (prop body "variant_id") |} ]
          | _ => []
          end /\
     (forall i, (i < j)%nat ->
        stream_readable (status_reply w i) = true /\
        is_str (stream_status (status_reply w i)) "completed" = false /\
        is_str (stream_status (status_reply w i)) "failed" = false) /\
     match fst (processStream w this fuel source options no_effects) with
     | Returned _ =>
         count_fetch Status
           (trace (snd (processStream w this fuel source options no_effects)))
         = S j /\
         is_str (stream_status (status_reply w j)) "completed" = true
     | Thrown e =>
         (count_fetch Status
            (trace (snd (processStream w this fuel source options no_effects)))
          = j /\
          (e = RaptorError
                 ("Processing timeout: exceeded " +++
                  Num_toString N (maxAttempts_of this options) +++
                  " polling attempts") \/
           e = RaptorError
                 ("Processing timeout: exceeded " +++
                  Num_toString N (pollTimeoutMs_of this options) +++ "ms"))) \/
         (count_fetch Status
            (trace (snd (processStream w this fuel source options no_effects)))
          = S j /\
          (is_str (stream_status (status_reply w j)) "failed" = true \/
           stream_readable (status_reply w j) = false))
     | OutOfFuel =>
         count_fetch Status
           (trace (snd (processStream w this fuel source options no_effects)))
         = j /\
         j = fuel
     end) /\
  (reply_status_is "processing" (status_reply w 0) = true ->
   reply_status_is "completed" (status_reply w 1) = true ->
   under (maxAttempts_of this options) 2 = true ->
   within_time w (pollTimeoutMs_of this options) 1 = true ->
   within_time w (pollTimeoutMs_of this options) 2 = true ->
   (2 <= fuel)%nat ->
   exists s,
     processStream w this fuel source options no_effects = (Returned tt, s) /\
     yields (trace s)
     = [ {| stage := "upload"; percent := 0;
            message := "Uploading document..."; variantId := None |};
         {| stage := "upload"; percent := 100;
            message := "Upload complete";
            variantId := Some (prop body "variant_id") |};
         {| stage := "processing"; percent := 50;
            message := "Document processing...";
            variantId := Some (prop body "variant_id") |};
         {| stage := "complete"; percent := 100;
            message := "Processing complete";
            variantId := Some (prop body "variant_id") |} ] /\
     NoDup (yields (trace s)) /\
     count_fetch Status (trace s) = 2%nat) /\
  (forall m,
     maxAttempts_of this options = Finite m ->
     (Z.to_nat m < fuel)%nat ->
     fst (processStream w this fuel source options no_effects) <> OutOfFuel).
Proof.
  intros Hf Hu Hok Hjs Hnn.
  rewrite (processStream_after_upload fuel source options file resp body)
    by assumption.
  split; [| split].
  - destruct (stream_loop w this fuel (prop body "variant_id")
                (maxAttempts_of this options) (pollTimeoutMs_of this options)
                (now w 0) (Z_or (pollInterval options) 1000) 0
                {| trace := [ Yield upload_started;
                              Fetch Upload (stream_upload_request this file options);
                              Yield (upload_complete (prop body "variant_id")) ];
                   ticks := 1; polls := 0 |}) as [o s'] eqn:Hrun.
    apply stream_loop_run in Hrun. destruct Hrun as (j & Hj & Hnt & Hend).
    exists j. cbn [fst snd]. simpl in Hj, Hnt, Hend.
    split; [| split].
    + rewrite Hj. unfold upload_started, upload_complete. simpl.
      do 2 apply f_equal. apply f_equal2.
      * apply map_ext. intros i. apply progress_event_explicit.
      * destruct o; reflexivity.
    + intros i Hi. apply Hnt. apply in_seq. lia.
    + destruct o as [u | e |]; exact Hend.
  - intros H0 H1 Hmax Ht1 Ht2 Hfuel.
    apply within_time_check in Ht1, Ht2. apply under_true in Hmax.
    apply reply_status_decoded in H0, H1.
    destruct H0 as (r0 & b0 & Hr0 & _ & Hj0 & Hn0 & Hs0).
    destruct H1 as (r1 & b1 & Hr1 & _ & Hj1 & Hn1 & Hs1).
    destruct fuel as [| [| fuel]]; try lia.
    cbn [stream_loop]. unfold bind.
    rewrite (stream_iteration_decoded _ _ _ _ _ _ _ r0 b0);
      [| apply (Num_gtb_false_below _ 2); [lia | exact Hmax]
       | exact Ht1 | exact Hr0 | exact Hj0 | exact Hn0].
    rewrite Hs0. simpl.
    rewrite (stream_iteration_decoded _ _ _ _ _ _ _ r1 b1);
      [| exact Hmax | exact Ht2 | exact Hr1 | exact Hj1 | exact Hn1].
    rewrite Hs1. simpl. unfold ret.
    eexists. split; [reflexivity |]. simpl.
    split; [reflexivity |]. split; [| reflexivity].
    repeat constructor; simpl; intuition discriminate.
  - intros m Hm Hfuel. rewrite Hm.
    apply (stream_loop_ends _ _ _ _ _ (Z.to_nat m)); lia.
Qed.

End LifecycleProofs.

(** ** The submission request *)

Section RequestProofs.

Variable N : NumberOps.

Lemma assoc_app {A} (k : string) (a b : list (string * A)) :
  assoc k (a ++ b) = match assoc k a with Some v => Some v | None => assoc k b end.
Proof.
  induction a as [| [k' v] a IH]; simpl; [reflexivity |].
  destruct (String.eqb k k'); [reflexivity | exact IH].
Qed.

Lemma assoc_append_defined {A} (k name : string) (render : A -> string)
  (x : option A) :
  assoc k (append_defined name render x)
  = if String.eqb k name then option_map render x else None.
Proof.
  destruct x as [a |]; simpl.
  - destruct (String.eqb k name); reflexivity.
  - destruct (String.eqb k name); reflexivity.
Qed.

Lemma assoc_append_strategy (k : string) (x : option Strategy) :
  assoc k (append_strategy x)
  = if String.eqb k "strategy" then option_map strategy_string x else None.
Proof.
  destruct x as [[|] |]; simpl; destruct (String.eqb k "strategy"); reflexivity.
Qed.

Lemma assoc_text_entries (k : string) (l : list (string * string)) :
  assoc k (map text_entry l) = option_map FormText (assoc k l).
Proof.
  induction l as [| [k' v] l IH]; simpl; [reflexivity |].
  destruct (String.eqb k k'); [reflexivity | exact IH].
Qed.

Lemma assoc_query (k : string) (q : list (string * string)) :
  match match q with [] => None | p :: l => Some (p :: l) end with
  | Some q' => assoc k q'
  | None => None
  end = assoc k q.
Proof. destruct q; reflexivity. Qed.

Lemma assoc_cons {A} (k k' : string) (v : A) (l : list (string * A)) :
  assoc k ((k', v) :: l) = if String.eqb k k' then Some v else assoc k l.
Proof. reflexivity. Qed.

(** C7.  For every options object, each of the fifteen configuration
    fields is carried by the upload request of [process] (in the form, or in
    the query string for the last four) with the text of the value the
    caller provided, falsy values such as [0], [false] and the empty string
    included, and is absent from the request exactly when it is
    [undefined]: no field is replaced by a default.  The truthiness test on
    [strategy] cannot drop a value of its type. *)
Theorem provided_fields_transmitted (this : Client) (file : FormValue)
  (options : ProcessOptions N) (f : ConfigField) :
  transmitted (upload_request this file options) f = provided options f.
Proof.
  unfold transmitted, upload_request.
  destruct f; cbn [in_query req_query req_body wire_name provided].
  all: try (rewrite assoc_query; unfold query_fields;
            rewrite !assoc_app, !assoc_append_defined; simpl).
  all: try (rewrite assoc_cons, assoc_text_entries; unfold config_fields;
            rewrite !assoc_app, !assoc_append_defined, assoc_append_strategy;
            simpl).
  all: match goal with
       | |- context [option_map _ ?x] => destruct x; reflexivity
       | |- context [match ?x with _ => _ end] => destruct x; reflexivity
       end.
Qed.

End RequestProofs.

(** ** The schema mapper *)

Section MapperProofs.

Variable N : NumberOps.

Lemma narrow_strategy_back (s : option string) :
  strategy_representable s = true ->
  option_map strategy_string (narrow_strategy s) = s.
Proof.
  destruct s as [s |]; simpl; [| reflexivity].
  destruct (String.eqb s "semantic") eqn:E1.
  { apply String.eqb_eq in E1. subst s. reflexivity. }
  destruct (String.eqb s "recursive") eqn:E2.
  { apply String.eqb_eq in E2. subst s. reflexivity. }
  discriminate.
Qed.

(** C8, as amended.  Mapping a wire variant to the client format and back
    gives the same wire variant, field by field, whenever its
    [config.strategy] is absent, ['semantic'] or ['recursive']. *)
Theorem transformVariant_round_trip (data : Backend.ProcessingVariant N) :
  strategy_representable (Backend.strategy (Backend.config data)) = true ->
  untransformVariant (transformVariant data) = data.
Proof.
  intros H.
  destruct data as [id vid hash cfg st err cc tt pc cr prim dedup rc mr ir dlq ca pa].
  destruct cfg as [cs co strat pi esn cqs mcq esc te tcg sc].
  simpl in H.
  unfold untransformVariant, transformVariant. simpl.
  rewrite (narrow_strategy_back strat H).
  destruct dedup as [[c1 c2 c3 c4 c5 c6 c7 c8 c9 c10 c11 [[r1 r2 r3] |]] |];
    reflexivity.
Qed.

End MapperProofs.

(** C8 fails as stated: [transformVariant] turns any other strategy into
    [undefined], so a wire variant with the strategy ['fixed'] does not come
    back, and no inverse mapping at all can exist. *)
Lemma transformVariant_not_reversible :
  Backend.strategy (Backend.config
    (untransformVariant (transformVariant (variant_with_strategy (Some "fixed")))))
  = None /\
  untransformVariant (transformVariant (variant_with_strategy (Some "fixed")))
  <> variant_with_strategy (Some "fixed") /\
  transformVariant (variant_with_strategy (Some "fixed"))
  = transformVariant (variant_with_strategy None) /\
  ~ (exists back : Frontend.ProcessingVariant ZNum -> Backend.ProcessingVariant ZNum,
       forall data, back (transformVariant data) = data).
Proof.
  split; [reflexivity |]. split; [discriminate |]. split; [reflexivity |].
  intros [back Hback].
  pose proof (Hback (variant_with_strategy (Some "fixed"))) as H1.
  pose proof (Hback (variant_with_strategy None)) as H2.
  change (transformVariant (variant_with_strategy (Some "fixed")))
    with (transformVariant (variant_with_strategy None)) in H1.
  rewrite H2 in H1. discriminate.
Qed.

(** ** The constructor *)

Section ConstructorProofs.

Variable N : NumberOps.
Variable URL_parse : string -> string + URL.

Lemma constructor_throws_RaptorError (config : RaptorConfig) (e : exn N) :
  constructor N URL_parse config = inl e -> exists msg, e = RaptorError msg.
Proof.
  unfold constructor.
  repeat match goal with
         | |- context [if ?c then _ else _] => destruct c
         | |- context [match URL_parse ?u with _ => _ end] => destruct (URL_parse u)
         end;
    intros H; try discriminate; injection H as <-; eauto.
Qed.

Lemma constructor_returns (config : RaptorConfig) (client : Client) :
  constructor N URL_parse config = inr client ->
  trim_is_empty (cfg_apiKey config) = false /\
  (exists url,
     URL_parse (effective_baseUrl config) = inr url /\
     (isLocalhost url = true ->
      flag (cfg_dangerouslyAllowLocalhost config) = true) /\
     (protocol url = "http:" \/ protocol url = "https:")) /\
  in_range 1000 3600000 (Num_or (cfg_timeout config) (Finite 300000)) /\
  in_range 1 3600 (Num_or (cfg_maxPollAttempts config) (Finite 300)) /\
  in_range 1000 3600000 (Num_or (cfg_pollTimeout config) (Finite 300000)) /\
  client = {| apiKey := cfg_apiKey config;
              baseUrl := effective_baseUrl config;
              timeout := Num_or (cfg_timeout config) (Finite 300000);
              maxPollAttempts := Num_or (cfg_maxPollAttempts config) (Finite 300);
              pollTimeout := Num_or (cfg_pollTimeout config) (Finite 300000) |}.
Proof.
  assert (Hrange : forall lo hi o d,
            d <> 0 ->
            (Num_ltb (Num_or o (Finite d)) (Finite lo) ||
             Num_gtb (Num_or o (Finite d)) (Finite hi))%bool = false ->
            in_range lo hi (Num_or o (Finite d))).
  { intros lo hi o d Hd H. apply orb_false_iff in H. destruct H as [H1 H2].
    unfold Num_or in *.
    destruct o as [[z | | |] |]; simpl in *;
      try (destruct (z =? 0); simpl in *);
      try discriminate;
      rewrite ?Num_gtb_finite in H2; apply Z.ltb_ge in H1, H2; lia. }
  unfold constructor.
  destruct (negb (string_truthy (cfg_apiKey config)) ||
            trim_is_empty (cfg_apiKey config))%bool eqn:Hkey; [discriminate |].
  destruct (URL_parse (effective_baseUrl config)) as [msg | url] eqn:Hurl;
    [discriminate |].
  destruct (isLocalhost url && negb (flag (cfg_dangerouslyAllowLocalhost config)))%bool
    eqn:Hlocal; [discriminate |].
  destruct (negb (String.eqb (protocol url) "http:") &&
            negb (String.eqb (protocol url) "https:"))%bool eqn:Hproto;
    [discriminate |].
  destruct (Num_ltb (Num_or (cfg_timeout config) (Finite 300000)) (Finite 1000) ||
            Num_gtb (Num_or (cfg_timeout config) (Finite 300000)) (Finite 3600000))%bool
    eqn:Ht; [discriminate |].
  destruct (Num_ltb (Num_or (cfg_maxPollAttempts config) (Finite 300)) (Finite 1) ||
            Num_gtb (Num_or (cfg_maxPollAttempts config) (Finite 300)) (Finite 3600))%bool
    eqn:Hm; [discriminate |].
  destruct (Num_ltb (Num_or (cfg_pollTimeout config) (Finite 300000)) (Finite 1000) ||
            Num_gtb (Num_or (cfg_pollTimeout config) (Finite 300000)) (Finite 3600000))%bool
    eqn:Hp; [discriminate |].
  intros H. injection H as <-.
  apply orb_false_iff in Hkey. destruct Hkey as [_ Hkey].
  apply Hrange in Ht, Hm, Hp; try lia.
  repeat split; try assumption.
  exists url. split; [reflexivity |]. split.
  - intros Hl. rewrite Hl in Hlocal. simpl in Hlocal.
    now apply negb_false_iff in Hlocal.
  - apply andb_false_iff in Hproto.
    destruct Hproto as [H | H]; apply negb_false_iff, String.eqb_eq in H; auto.
Qed.

Lemma Num_or_provided (n d : Num) :
  n <> Finite 0 -> n <> NaN -> Num_or (Some n) d = n.
Proof.
  intros H0 Hnan. unfold Num_or.
  destruct n as [z | | |]; simpl; try reflexivity; [| contradiction].
  destruct (Z.eqb_spec z 0); [subst; contradiction | reflexivity].
Qed.

(** The host names the constructor tests for. *)
Lemma isLocalhost_forms (url : URL) :
  hostname url = "localhost" \/
  hostname url = "127.0.0.1" \/
  (exists rest, hostname url = "192.168." +++ rest) \/
  (exists rest, hostname url = "10." +++ rest) \/
  (exists d rest,
     In d ["16"; "17"; "18"; "19"; "20"; "21"; "22"; "23";
           "24"; "25"; "26"; "27"; "28"; "29"; "30"; "31"] /\
     hostname url = "172." +++ d +++ "." +++ rest) ->
  isLocalhost url = true.
Proof.
  assert (Hprefix : forall p rest, prefix p (p +++ rest) = true).
  { induction p as [| c p IH]; intros rest; simpl; [now destruct rest |].
    destruct (ascii_dec c c); [apply IH | contradiction]. }
  unfold isLocalhost, startsWith. rewrite !orb_true_iff.
  intros [H | [H | [[rest H] | [[rest H] | (d & rest & Hd & H)]]]]; rewrite H.
  - do 4 left. reflexivity.
  - do 3 left. right. reflexivity.
  - do 2 left. right. apply Hprefix.
  - left. right. apply Hprefix.
  - right. simpl in Hd.
    repeat (destruct Hd as [<- | Hd]; [reflexivity |]).
    contradiction.
Qed.

(** C10, as amended.  The constructor fails only with a [RaptorError], and
    it does so for a blank API key; for a base URL that does not parse;
    for one whose host name is [localhost] or [127.0.0.1], or begins with
    [192.168.], with [10.] or with [172.16.] to [172.31.], without
    [dangerouslyAllowLocalhost]; for one that is neither HTTP nor HTTPS;
    and for a [timeout], [maxPollAttempts] or [pollTimeout] that is neither
    [0] nor [NaN] and is not an integer of [1000, 3600000], [1, 3600] and
    [1000, 3600000].  A bound that is absent, [0] or [NaN] takes its default
    (300000, 300, 300000).  A client that is constructed holds a key that is
    not blank and bounds within the three ranges. *)
Theorem constructor_validates (config : RaptorConfig) :
  (forall e, constructor N URL_parse config = inl e -> exists msg, e = RaptorError msg) /\
  (trim_is_empty (cfg_apiKey config) = true ->
   exists msg, constructor N URL_parse config = inl (RaptorError msg)) /\
  (forall m, URL_parse (effective_baseUrl config) = inl m ->
   exists msg, constructor N URL_parse config = inl (RaptorError msg)) /\
  (forall url, URL_parse (effective_baseUrl config) = inr url ->
   hostname url = "localhost" \/
   hostname url = "127.0.0.1" \/
   (exists rest, hostname url = "192.168." +++ rest) \/
   (exists rest, hostname url = "10." +++ rest) \/
   (exists d rest,
      In d ["16"; "17"; "18"; "19"; "20"; "21"; "22"; "23";
            "24"; "25"; "26"; "27"; "28"; "29"; "30"; "31"] /\
      hostname url = "172." +++ d +++ "." +++ rest) ->
   flag (cfg_dangerouslyAllowLocalhost config) = false ->
   exists msg, constructor N URL_parse config = inl (RaptorError msg)) /\
  (forall url, URL_parse (effective_baseUrl config) = inr url ->
   protocol url <> "http:" -> protocol url <> "https:" ->
   exists msg, constructor N URL_parse config = inl (RaptorError msg)) /\
  (forall n, cfg_timeout config = Some n -> n <> Finite 0 -> n <> NaN ->
   ~ in_range 1000 3600000 n ->
   exists msg, constructor N URL_parse config = inl (RaptorError msg)) /\
  (forall n, cfg_maxPollAttempts config = Some n -> n <> Finite 0 -> n <> NaN ->
   ~ in_range 1 3600 n ->
   exists msg, constructor N URL_parse config = inl (RaptorError msg)) /\
  (forall n, cfg_pollTimeout config = Some n -> n <> Finite 0 -> n <> NaN ->
   ~ in_range 1000 3600000 n ->
   exists msg, constructor N URL_parse config = inl (RaptorError msg)) /\
  (forall client, constructor N URL_parse config = inr client ->
   trim_is_empty (apiKey client) = false /\
   in_range 1000 3600000 (timeout client) /\
   in_range 1 3600 (maxPollAttempts client) /\
   in_range 1000 3600000 (pollTimeout client) /\
   timeout client = Num_or (cfg_timeout config) (Finite 300000) /\
   maxPollAttempts client = Num_or (cfg_maxPollAttempts config) (Finite 300) /\
   pollTimeout client = Num_or (cfg_pollTimeout config) (Finite 300000)).
Proof.
  assert (Hcases :
    forall P : Prop,
      (forall client, constructor N URL_parse config = inr client -> P -> False) ->
      P -> exists msg, constructor N URL_parse config = inl (RaptorError msg)).
  { intros P Hno HP.
    destruct (constructor N URL_parse config) as [e | client] eqn:Hc.
    - destruct (constructor_throws_RaptorError config e Hc) as [msg ->]. eauto.
    - exfalso. exact (Hno client eq_refl HP). }
  split; [apply constructor_throws_RaptorError |].
  split.
  { apply Hcases. intros client Hc Hk.
    apply constructor_returns in Hc. destruct Hc as (Hkey & _). congruence. }
  split.
  { intros m. apply Hcases. intros client Hc Hm.
    apply constructor_returns in Hc. destruct Hc as (_ & (url & Hu & _) & _).
    congruence. }
  split.
  { intros url Hu Hl. apply isLocalhost_forms in Hl.
    apply Hcases. intros client Hc Hf.
    apply constructor_returns in Hc.
    destruct Hc as (_ & (url' & Hu' & Hloc & _) & _).
    assert (url' = url) by congruence. subst url'.
    specialize (Hloc Hl). congruence. }
  split.
  { intros url Hu Hp1. apply Hcases. intros client Hc Hp2.
    apply constructor_returns in Hc.
    destruct Hc as (_ & (url' & Hu' & _ & Hproto) & _).
    assert (url' = url) by congruence. subst url'. tauto. }
  split.
  { intros n Hn Hnz Hnan. apply Hcases. intros client Hc Hout.
    apply constructor_returns in Hc. destruct Hc as (_ & _ & Ht & _).
    rewrite Hn, Num_or_provided in Ht by assumption. contradiction. }
  split.
  { intros n Hn Hnz Hnan. apply Hcases. intros client Hc Hout.
    apply constructor_returns in Hc. destruct Hc as (_ & _ & _ & Hm & _).
    rewrite Hn, Num_or_provided in Hm by assumption. contradiction. }
  split.
  { intros n Hn Hnz Hnan. apply Hcases. intros client Hc Hout.
    apply constructor_returns in Hc. destruct Hc as (_ & _ & _ & _ & Hp & _).
    rewrite Hn, Num_or_provided in Hp by assumption. contradiction. }
  intros client Hc. apply constructor_returns in Hc.
  destruct Hc as (Hkey & _ & Ht & Hm & Hp & ->). simpl. tauto.
Qed.

End ConstructorProofs.

(** C10 fails as stated.  Bounds of [0] lie outside the ranges, and so does
    [NaN], yet the constructor accepts them and takes the defaults.  The
    loopback addresses [127.0.0.2] and [[::1]] are accepted without
    [dangerouslyAllowLocalhost]. *)
Lemma constructor_accepts_zero_bounds :
  cfg_timeout zero_bounds_config = Some (Finite 0) /\
  cfg_maxPollAttempts zero_bounds_config = Some (Finite 0) /\
  cfg_pollTimeout zero_bounds_config = Some (Finite 0) /\
  ~ (1000 <= 0 <= 3600000) /\ ~ (1 <= 0 <= 3600) /\
  constructor ZNum example_URL_parse zero_bounds_config
  = inr {| apiKey := "rd_live_xxx";
           baseUrl := "https://api.raptordata.dev";
           timeout := Finite 300000;
           maxPollAttempts := Finite 300;
           pollTimeout := Finite 300000 |} /\
  cfg_timeout nan_bounds_config = Some NaN /\
  cfg_maxPollAttempts nan_bounds_config = Some NaN /\
  cfg_pollTimeout nan_bounds_config = Some NaN /\
  constructor ZNum example_URL_parse nan_bounds_config
  = inr {| apiKey := "rd_live_xxx";
           baseUrl := "https://api.raptordata.dev";
           timeout := Finite 300000;
           maxPollAttempts := Finite 300;
           pollTimeout := Finite 300000 |} /\
  cfg_dangerouslyAllowLocalhost example_config = None /\
  constructor ZNum loopback_URL_parse
    (with_baseUrl (Some "http://127.0.0.2:8000") example_config)
  = inr {| apiKey := "rd_live_xxx";
           baseUrl := "http://127.0.0.2:8000";
           timeout := Finite 300000;
           maxPollAttempts := Finite 300;
           pollTimeout := Finite 300000 |} /\
  constructor ZNum loopback_URL_parse
    (with_baseUrl (Some "http://[::1]:8000") example_config)
  = inr {| apiKey := "rd_live_xxx";
           baseUrl := "http://[::1]:8000";
           timeout := Finite 300000;
           maxPollAttempts := Finite 300;
           pollTimeout := Finite 300000 |}.
Proof. repeat split; try reflexivity; lia. Qed.

(** ** Malformed responses *)

Section MalformedProofs.

Variable N : NumberOps.
Variable w : World N.
Variable this : Client.

Lemma isValidUUID_truthy (id : string) :
  isValidUUID id = true -> string_truthy id = true.
Proof. destruct id; [discriminate | reflexivity]. Qed.

Lemma poll_iteration_undecodable variantId maxAttempts pollTimeoutMs startTime
  pollInterval attempts (s : effects N) resp t :
  Num_gtb (Finite attempts) maxAttempts = false ->
  Num_gtb (Finite (now w (ticks s) - startTime)) pollTimeoutMs = false ->
  status_reply w (polls s) = inr resp ->
  ok resp = true ->
  json resp = inl t ->
  poll_iteration w this variantId maxAttempts pollTimeoutMs startTime
    pollInterval attempts s
  = (Thrown (RaptorError ("Failed to parse status response: " +++
                          thrown_message t)),
     after_request this variantId s).
Proof.
  intros Ha Ht Hr Hok Hjs.
  unfold poll_iteration. rewrite Ha.
  unfold bind at 1. unfold date_now at 1. rewrite Ht.
  unfold bind, fetch_status, or_raptor_error, ret, throw. simpl.
  rewrite Hr. simpl. rewrite Hok. simpl. rewrite Hjs. reflexivity.
Qed.

(** C9, as amended.  A 2xx response whose body cannot be decoded makes
    [process] throw [Failed to parse ... response] with the message of the
    decoder: for the upload, with the upload as only request; for the
    status poll number [k], after [k] polls that report [pending] or
    [processing] under both ceilings, with [k + 1] status requests and no
    chunk request; for the chunks, after a poll that reports [completed],
    with one chunk request.  A chunks body that decodes but has no (truthy)
    [chunks] is read as an empty list: [process] returns a result with empty
    [chunks] and [metadata], and [getChunks] returns an empty list whenever
    [chunks] is not an array. *)
Theorem undecodable_body_raises fuel source options file :
  file_part w source = inr file ->
  (forall resp t,
     upload_reply w = inr resp ->
     ok resp = true ->
     json resp = inl t ->
     exists s,
       process w this fuel source options no_effects
       = (Thrown (RaptorError ("Failed to parse upload response: " +++
                               thrown_message t)), s) /\
       trace s = [Fetch Upload (upload_request this file options)]) /\
  (forall resp body (k : nat),
     upload_reply w = inr resp ->
     ok resp = true ->
     json resp = inr body ->
     truthy (prop body "variant_id") = true ->
     wait options <> Some false ->
     (forall i, (i < k)%nat -> nonterminal_reply (status_reply w i) = true) ->
     (forall i, (i <= k)%nat ->
        under (maxAttempts_of this options) (Z.of_nat (S i)) = true) ->
     (forall i, (i <= k)%nat ->
        within_time w (pollTimeoutMs_of this options) (S i) = true) ->
     (k < fuel)%nat ->
     (forall sresp t,
        status_reply w k = inr sresp ->
        ok sresp = true ->
        json sresp = inl t ->
        exists s,
          process w this fuel source options no_effects
          = (Thrown (RaptorError ("Failed to parse status response: " +++
                                  thrown_message t)), s) /\
          count_fetch Status (trace s) = S k /\
          count_fetch Chunks (trace s) = 0%nat) /\
     (reply_status_is "completed" (status_reply w k) = true ->
      forall cresp,
        chunks_reply w = inr cresp ->
        ok cresp = true ->
        (forall t,
           json cresp = inl t ->
           exists s,
             process w this fuel source options no_effects
             = (Thrown (RaptorError ("Failed to parse chunks response: " +++
                                     thrown_message t)), s) /\
             count_fetch Status (trace s) = S k /\
             count_fetch Chunks (trace s) = 1%nat) /\
        (forall cbody,
           json cresp = inr cbody ->
           nullish cbody = false ->
           truthy (prop cbody "chunks") = false ->
           fst (process w this fuel source options no_effects)
           = Returned (process_result body [] [])))) /\
  (forall id goptions s resp data,
     isValidUUID id = true ->
     chunks_reply w = inr resp ->
     ok resp = true ->
     json resp = inr data ->
     nullish data = false ->
     (forall items, prop data "chunks" <> VArr items) ->
     exists total,
       fst (getChunks w this id goptions s)
       = Returned (VObj [("chunks", VArr []); ("total", total)])).
Proof.
  intros Hf.
  split; [| split].
  - intros resp t Hu Hok Hjs.
    unfold process. rewrite Hf.
    unfold bind, lift, fetch_upload, emit, ret, or_raptor_error, throw. simpl.
    rewrite Hu. simpl. rewrite Hok. simpl. rewrite Hjs.
    eexists. split; reflexivity.
  - intros resp body k Hu Hok Hjs Hv Hw Hnt Ha Ht Hfuel.
    assert (Hrun :
      process w this fuel source options no_effects
      = (poll_loop w this (S (fuel - S k)) (prop body "variant_id")
           (maxAttempts_of this options) (pollTimeoutMs_of this options)
           (now w 0) (pollInterval_of options) (Z.of_nat k) ;;
         collect_chunks w this body (prop body "variant_id"))
          (after_polls this k (prop body "variant_id") (pollInterval_of options)
             (after_tick (submitted this file options)))).
    { replace fuel with (k + S (fuel - S k))%nat at 1 by lia.
      apply (process_after_polls N w this _ source options file resp body k);
        try assumption; intros i Hi; [apply Ha | apply Ht]; lia. }
    assert (Hak : Num_gtb (Finite (Z.of_nat k + 1)) (maxAttempts_of this options)
                  = false).
    { replace (Z.of_nat k + 1) with (Z.of_nat (S k)) by lia.
      apply under_true. apply Ha. lia. }
    assert (Htk : Num_gtb (Finite (now w (S k) - now w 0))
                    (pollTimeoutMs_of this options) = false).
    { apply within_time_check. apply Ht. lia. }
    split.
    + intros sresp t Hs Hsok Hsjs.
      rewrite Hrun. cbn [poll_loop]. unfold bind at 1 2.
      rewrite (poll_iteration_undecodable _ _ _ _ _ _ _ sresp t);
        [| exact Hak
         | simpl; replace (S (k + 0)) with (S k) by lia;
           replace (1 + k)%nat with (S k) by lia; exact Htk
         | exact Hs | exact Hsok | exact Hsjs].
      eexists. split; [reflexivity |]. simpl.
      rewrite !count_fetch_app, count_status_polls, count_chunks_polls.
      simpl. split; lia.
    + intros Hdone cresp Hc Hcok.
      assert (Hrun2 :
        process w this fuel source options no_effects
        = collect_chunks w this body (prop body "variant_id")
            (after_request this (prop body "variant_id")
               (after_polls this k (prop body "variant_id")
                  (pollInterval_of options)
                  (after_tick (submitted this file options))))).
      { rewrite Hrun. cbn [poll_loop]. unfold bind at 1 2.
        rewrite (poll_iteration_completed N w this);
          [reflexivity
          | exact Hak
          | simpl; replace (S (k + 0)) with (S k) by lia;
            replace (1 + k)%nat with (S k) by lia; exact Htk
          | exact Hdone]. }
      rewrite Hrun2. clear Hrun Hrun2.
      split.
      * intros t Hcjs.
        unfold collect_chunks, bind, fetch_chunks, emit, or_raptor_error, ret, throw.
        simpl. rewrite Hc. simpl. rewrite Hcok. simpl. rewrite Hcjs.
        eexists. split; [reflexivity |]. simpl.
        rewrite !count_fetch_app, count_status_polls, count_chunks_polls.
        simpl. split; lia.
      * intros cbody Hcjs Hnn Hch.
        unfold collect_chunks, bind, fetch_chunks, emit, or_raptor_error, lift, get,
          ret, throw.
        simpl. rewrite Hc. simpl. rewrite Hcok. simpl. rewrite Hcjs. simpl.
        rewrite Hnn. cbn beta iota. unfold js_or. rewrite Hch. reflexivity.
  - intros id goptions s resp data Hid Hr Hok Hjs Hnn Hc.
    unfold getChunks. rewrite Hid, (isValidUUID_truthy id Hid).
    unfold bind, fetch_chunks, emit, or_rethrow, lift, get, ret, throw.
    simpl. rewrite Hr. simpl. rewrite Hok. simpl. rewrite Hjs. simpl.
    rewrite Hnn. cbn beta iota.
    destruct (prop data "chunks") as [| | b | n | str | items | props] eqn:E;
      try (eexists; reflexivity).
    exfalso. exact (Hc items eq_refl).
Qed.

End MalformedProofs.

(** ** Identifiers and file names *)

Lemma dash_then_cons (n : nat) (c : ascii) (s : string) :
  dash_then n (Some (String c s)) = if Ascii.eqb c "-" then hex_run n s else None.
Proof. destruct c as [[] [] [] [] [] [] [] []]; reflexivity. Qed.

Lemma dash_then_none (n : nat) : dash_then n None = None.
Proof. reflexivity. Qed.

Lemma dash_then_empty (n : nat) : dash_then n (Some EmptyString) = None.
Proof. reflexivity. Qed.

Lemma hex_run_cons (n : nat) (c : ascii) (s : string) :
  hex_run (S n) (String c s) = if is_hex c then hex_run n s else None.
Proof. reflexivity. Qed.

Lemma hex_run_empty (n : nat) : hex_run (S n) EmptyString = None.
Proof. reflexivity. Qed.

Lemma hex_run_0 (s : string) : hex_run 0 s = Some s.
Proof. reflexivity. Qed.

Lemma uuid_chars_from_cons (i : nat) (c : ascii) (l : list ascii) :
  uuid_chars_from i (c :: l) = (uuid_char_ok i c && uuid_chars_from (S i) l)%bool.
Proof. reflexivity. Qed.

Lemma uuid_char_ok_dash (i : nat) (c : ascii) :
  (Nat.eqb i 8 || Nat.eqb i 13 || Nat.eqb i 18 || Nat.eqb i 23)%bool = true ->
  uuid_char_ok i c = Ascii.eqb c "-".
Proof. intros H. unfold uuid_char_ok. now rewrite H. Qed.

Lemma uuid_char_ok_hex (i : nat) (c : ascii) :
  (Nat.eqb i 8 || Nat.eqb i 13 || Nat.eqb i 18 || Nat.eqb i 23)%bool = false ->
  uuid_char_ok i c = is_hex c.
Proof. intros H. unfold uuid_char_ok. now rewrite H. Qed.

Ltac uuid_step :=
  repeat first
    [ rewrite hex_run_0
    | rewrite hex_run_cons
    | rewrite hex_run_empty
    | rewrite dash_then_cons
    | rewrite dash_then_none
    | rewrite dash_then_empty ].

Lemma isValidUUID_uuid_shaped (id : string) : isValidUUID id = uuid_shaped id.
Proof.
  unfold isValidUUID, uuid_shaped.
  do 36 (destruct id as [| ?c id];
         [ cbn [String.length chars Nat.eqb andb]; uuid_step;
           repeat match goal with
                  | |- context [is_hex ?c] => destruct (is_hex c); uuid_step
                  | |- context [Ascii.eqb ?c "-"] => destruct (Ascii.eqb c "-"); uuid_step
                  end; reflexivity
         | ]).
  cbn [String.length chars].
  repeat rewrite uuid_chars_from_cons.
  repeat first [ rewrite uuid_char_ok_hex by reflexivity
               | rewrite uuid_char_ok_dash by reflexivity ].
  uuid_step.
  repeat match goal with
         | |- context [is_hex ?c] =>
             destruct (is_hex c); uuid_step; cbn [andb]; [| destruct id; reflexivity]
         | |- context [Ascii.eqb ?c "-"] =>
             destruct (Ascii.eqb c "-"); uuid_step; cbn [andb]; [| destruct id; reflexivity]
         end.
  destruct id as [| ?c id]; cbn [String.length Nat.eqb andb]; reflexivity.
Qed.

Lemma uuid_chars_from_nth (l : list ascii) (k : nat) :
  uuid_chars_from k l = true <->
  (forall i c, nth_error l i = Some c -> uuid_char_ok (k + i) c = true).
Proof.
  revert k. induction l as [| c0 l IH]; intros k; simpl.
  - split; [| reflexivity]. intros _ i c H. destruct i; discriminate.
  - rewrite andb_true_iff, IH. split.
    + intros [H0 Hl] i c Hi. destruct i as [| i]; simpl in Hi.
      * injection Hi as <-. now rewrite Nat.add_0_r.
      * replace (k + S i)%nat with (S k + i)%nat by lia. now apply Hl.
    + intros H. split.
      * specialize (H 0%nat c0 eq_refl). now rewrite Nat.add_0_r in H.
      * intros i c Hi. specialize (H (S i) c Hi).
        now replace (k + S i)%nat with (S k + i)%nat in H by lia.
Qed.

(** X1.  [isValidUUID] accepts exactly the strings of 36 characters that have a
    dash at the offsets 8, 13, 18 and 23 and a hexadecimal digit, in
    either case, everywhere else: no white space around, no braces, no
    other length. *)
Theorem isValidUUID_shape (id : string) :
  isValidUUID id = true <->
  String.length id = 36%nat /\
  (forall i c, nth_error (chars id) i = Some c -> uuid_char_ok i c = true).
Proof.
  rewrite isValidUUID_uuid_shaped. unfold uuid_shaped.
  rewrite andb_true_iff, Nat.eqb_eq, uuid_chars_from_nth. reflexivity.
Qed.

(** *** Lower case and MIME types *)

Lemma lower_ascii_idempotent (c : ascii) : lower_ascii (lower_ascii c) = lower_ascii c.
Proof. destruct c as [[] [] [] [] [] [] [] []]; reflexivity. Qed.

Lemma lower_ascii_dot (c : ascii) : Ascii.eqb (lower_ascii c) "." = Ascii.eqb c ".".
Proof. destruct c as [[] [] [] [] [] [] [] []]; reflexivity. Qed.

Lemma toLowerCase_app (a b : string) :
  toLowerCase (a +++ b) = toLowerCase a +++ toLowerCase b.
Proof. induction a as [| c a IH]; simpl; [reflexivity | now rewrite IH]. Qed.

Lemma last_segment_toLowerCase (s acc : string) :
  last_segment (toLowerCase acc) (toLowerCase s) = toLowerCase (last_segment acc s).
Proof.
  revert acc. induction s as [| c s IH]; intros acc; simpl; [reflexivity |].
  rewrite lower_ascii_dot.
  destruct (Ascii.eqb c ".").
  - apply (IH EmptyString).
  - rewrite <- IH, toLowerCase_app. reflexivity.
Qed.

Lemma toLowerCase_idempotent (s : string) : toLowerCase (toLowerCase s) = toLowerCase s.
Proof.
  induction s as [| c s IH]; simpl; [reflexivity |].
  now rewrite lower_ascii_idempotent, IH.
Qed.

Lemma last_segment_app_dot (a b acc : string) :
  last_segment acc (a +++ String "." b) = last_segment EmptyString b.
Proof.
  revert acc. induction a as [| c a IH]; intros acc; simpl; [reflexivity |].
  destruct (Ascii.eqb c "."); apply IH.
Qed.

(** X2.  The type depends on the part after the last dot alone, whatever its
    case: the directories and the base name before it play no part, and
    upper-case letters are read as lower-case ones. *)
Theorem getMimeType_extension_only (a b : string) :
  getMimeType (a +++ String "." b) = getMimeType (toLowerCase b).
Proof.
  unfold getMimeType.
  rewrite last_segment_app_dot.
  pose proof (last_segment_toLowerCase b EmptyString) as H. simpl in H.
  rewrite H, toLowerCase_idempotent.
  reflexivity.
Qed.

Lemma lower_ascii_not_upper (c : ascii) : is_upper (lower_ascii c) = false.
Proof. destruct c as [[] [] [] [] [] [] [] []]; reflexivity. Qed.

Lemma toLowerCase_no_upper (s : string) : has_upper (toLowerCase s) = false.
Proof.
  induction s as [| c s IH]; simpl; [reflexivity |].
  now rewrite lower_ascii_not_upper, IH.
Qed.

(** A string in lower case is none of the names with a capital. *)
Lemma lower_case_differs (s name : string) :
  has_upper name = true -> String.eqb (toLowerCase s) name = false.
Proof.
  intros Hu. destruct (String.eqb_spec (toLowerCase s) name) as [E |]; [| reflexivity].
  rewrite <- E, toLowerCase_no_upper in Hu. discriminate.
Qed.

(** The entries of the table are truthy, and a [Blob] keeps them as its
    type. *)
Lemma MIME_TYPES_entries (k m : string) :
  assoc k MIME_TYPES = Some m ->
  string_truthy m = true /\ Blob_type (Own m) = m.
Proof.
  unfold MIME_TYPES. cbn [assoc].
  repeat match goal with
         | |- context [String.eqb k ?x] =>
             destruct (String.eqb k x);
             [intros H; injection H as <-; split; reflexivity |]
         end.
  discriminate.
Qed.

(** What [getMimeType] answers: the entry of the extension; for the two
    extensions that name a member the table inherits, that member; the
    default otherwise. *)
Lemma getMimeType_cases (filename : string) :
  getMimeType filename
  = match assoc (extension filename) MIME_TYPES with
    | Some m => Own m
    | None =>
        if String.eqb (extension filename) "constructor"
        then Inherited "constructor"
        else if String.eqb (extension filename) "__proto__"
        then Inherited "__proto__"
        else Own "application/octet-stream"
    end.
Proof.
  unfold getMimeType, extension.
  set (s := last_segment EmptyString filename).
  destruct (toLowerCase s) as [| c ext] eqn:E; [reflexivity |].
  cbn [string_truthy]. rewrite <- E. unfold lookup.
  destruct (assoc (toLowerCase s) MIME_TYPES) as [m |] eqn:Hm.
  { apply MIME_TYPES_entries in Hm. destruct Hm as [Hm _].
    unfold member_or. now rewrite Hm. }
  unfold Object_prototype_names. cbn [existsb].
  rewrite (lower_case_differs s "__defineGetter__") by reflexivity.
  rewrite (lower_case_differs s "__defineSetter__") by reflexivity.
  rewrite (lower_case_differs s "hasOwnProperty") by reflexivity.
  rewrite (lower_case_differs s "__lookupGetter__") by reflexivity.
  rewrite (lower_case_differs s "__lookupSetter__") by reflexivity.
  rewrite (lower_case_differs s "isPrototypeOf") by reflexivity.
  rewrite (lower_case_differs s "propertyIsEnumerable") by reflexivity.
  rewrite (lower_case_differs s "toString") by reflexivity.
  rewrite (lower_case_differs s "valueOf") by reflexivity.
  rewrite (lower_case_differs s "toLocaleString") by reflexivity.
  destruct (String.eqb_spec (toLowerCase s) "constructor") as [-> | _];
    [reflexivity |].
  destruct (String.eqb_spec (toLowerCase s) "__proto__") as [-> | _];
    reflexivity.
Qed.

(** *** Trimming *)

Lemma trimStart_blank_app (pad s : string) :
  all_whitespace pad = true -> trimStart (pad +++ s) = trimStart s.
Proof.
  induction pad as [| c pad IH]; simpl; intros H; [reflexivity |].
  apply andb_true_iff in H. destruct H as [Hc Hp].
  rewrite Hc. auto.
Qed.

Lemma trimEnd_blank (pad : string) :
  all_whitespace pad = true -> trimEnd pad = EmptyString.
Proof.
  induction pad as [| c pad IH]; simpl; intros H; [reflexivity |].
  apply andb_true_iff in H. destruct H as [Hc Hp].
  rewrite (IH Hp), Hc. reflexivity.
Qed.

Lemma trimEnd_app_blank (s pad : string) :
  all_whitespace pad = true -> trimEnd (s +++ pad) = trimEnd s.
Proof.
  intros H. induction s as [| c s IH]; simpl.
  - now apply trimEnd_blank.
  - now rewrite IH.
Qed.

Lemma trimEnd_solid (s : string) :
  no_whitespace s = true -> trimEnd s = s.
Proof.
  induction s as [| c s IH]; simpl; intros H; [reflexivity |].
  apply andb_true_iff in H. destruct H as [Hc Hs].
  rewrite (IH Hs). apply negb_true_iff in Hc. rewrite Hc.
  destruct s; reflexivity.
Qed.

Lemma trimStart_solid (s : string) :
  no_whitespace s = true -> trimStart s = s.
Proof.
  destruct s as [| c s]; simpl; intros H; [reflexivity |].
  apply andb_true_iff in H. destruct H as [Hc Hs].
  apply negb_true_iff in Hc. now rewrite Hc.
Qed.

Lemma trim_padded (pad1 pad2 s : string) :
  all_whitespace pad1 = true ->
  all_whitespace pad2 = true ->
  no_whitespace s = true ->
  trim (pad1 +++ s +++ pad2) = s.
Proof.
  intros H1 H2 Hs. unfold trim.
  rewrite trimStart_blank_app by assumption.
  destruct s as [| c s].
  - simpl. rewrite trimEnd_blank; [reflexivity |].
    clear -H2. induction pad2 as [| c p IH]; simpl in *; [reflexivity |].
    apply andb_true_iff in H2. destruct H2 as [Hc Hp]. rewrite Hc. auto.
  - assert (Hc : is_whitespace c = false).
    { simpl in Hs. apply andb_true_iff in Hs. destruct Hs as [Hc _].
      now apply negb_true_iff in Hc. }
    change ((String c s) +++ pad2) with (String c (s +++ pad2)).
    cbn [trimStart]. rewrite Hc.
    change (String c (s +++ pad2)) with ((String c s) +++ pad2).
    rewrite trimEnd_app_blank by assumption.
    now apply trimEnd_solid.
Qed.

Lemma trim_blank (s : string) :
  trim_is_empty s = true -> trim s = EmptyString.
Proof.
  unfold trim. induction s as [| c s IH]; simpl; intros H; [reflexivity |].
  apply andb_true_iff in H. destruct H as [Hc Hs]. rewrite Hc. auto.
Qed.

Lemma hex_not_whitespace (c : ascii) : is_hex c = true -> is_whitespace c = false.
Proof. destruct c as [[] [] [] [] [] [] [] []]; (reflexivity || discriminate). Qed.

Lemma dash_not_whitespace (c : ascii) : Ascii.eqb c "-" = true -> is_whitespace c = false.
Proof. destruct c as [[] [] [] [] [] [] [] []]; (reflexivity || discriminate). Qed.

Lemma uuid_chars_solid (l : list ascii) (i : nat) :
  uuid_chars_from i l = true ->
  forallb (fun c => negb (is_whitespace c)) l = true.
Proof.
  revert i. induction l as [| c l IH]; simpl; intros i H; [reflexivity |].
  apply andb_true_iff in H. destruct H as [Hc Hl].
  rewrite (IH _ Hl), andb_true_r. apply negb_true_iff.
  unfold uuid_char_ok in Hc.
  destruct (Nat.eqb i 8 || Nat.eqb i 13 || Nat.eqb i 18 || Nat.eqb i 23)%bool.
  - now apply dash_not_whitespace.
  - now apply hex_not_whitespace.
Qed.

Lemma isValidUUID_solid (id : string) :
  isValidUUID id = true ->
  no_whitespace id = true.
Proof.
  rewrite isValidUUID_uuid_shaped. unfold uuid_shaped. intros H.
  apply andb_true_iff in H. destruct H as [_ H].
  now apply uuid_chars_solid in H.
Qed.

Lemma isValidUUID_length (id : string) :
  isValidUUID id = true -> String.length id = 36%nat.
Proof.
  rewrite isValidUUID_uuid_shaped. unfold uuid_shaped. intros H.
  apply andb_true_iff in H. destruct H as [H _].
  now apply Nat.eqb_eq in H.
Qed.

(** ** The base URL *)

Section ConstructorSlashProofs.

Variable N : NumberOps.
Variable URL_parse : string -> string + URL.

Lemma strip_trailing_slash_cons (c : ascii) (s : string) :
  s <> EmptyString ->
  strip_trailing_slash (String c s) = String c (strip_trailing_slash s).
Proof. destruct s; [contradiction | reflexivity]. Qed.

Lemma strip_trailing_slash_app (u : string) :
  strip_trailing_slash (u +++ "/") = u.
Proof.
  induction u as [| c u IH]; [reflexivity |].
  change (String c u +++ "/") with (String c (u +++ "/")).
  rewrite strip_trailing_slash_cons.
  - now rewrite IH.
  - destruct u; discriminate.
Qed.

Lemma constructor_effective (config config' : RaptorConfig) :
  cfg_apiKey config = cfg_apiKey config' ->
  effective_baseUrl config = effective_baseUrl config' ->
  cfg_timeout config = cfg_timeout config' ->
  cfg_maxPollAttempts config = cfg_maxPollAttempts config' ->
  cfg_pollTimeout config = cfg_pollTimeout config' ->
  cfg_dangerouslyAllowLocalhost config = cfg_dangerouslyAllowLocalhost config' ->
  constructor N URL_parse config = constructor N URL_parse config'.
Proof.
  intros H1 H2 H3 H4 H5 H6. unfold constructor.
  now rewrite H1, H2, H3, H4, H5, H6.
Qed.

(** X3.  One slash at the end of the configured base URL makes no difference
    to the client that is built, so that the URL of a request never gets a
    double slash from it; only one is removed, so a URL given with two
    keeps one. *)
Theorem constructor_trailing_slash (config : RaptorConfig) (u : string) :
  strip_trailing_slash u = u ->
  constructor N URL_parse (with_baseUrl (Some (u +++ "/")) config)
  = constructor N URL_parse (with_baseUrl (Some u) config) /\
  effective_baseUrl (with_baseUrl (Some (u +++ "//")) config) = u +++ "/".
Proof.
  intros Hu. split.
  - apply constructor_effective; try reflexivity.
    unfold effective_baseUrl, with_baseUrl. cbn [cfg_baseUrl].
    now rewrite strip_trailing_slash_app, Hu.
  - unfold effective_baseUrl, with_baseUrl. cbn [cfg_baseUrl].
    replace (u +++ "//") with ((u +++ "/") +++ "/").
    + rewrite strip_trailing_slash_app. destruct u; reflexivity.
    + clear. induction u as [| c u IH]; simpl; [reflexivity | now rewrite IH].
Qed.

End ConstructorSlashProofs.

(** ** What [process] does in every world *)

Section BudgetProofs.

Variable N : NumberOps.
Variable w : World N.
Variable this : Client.

(** A pass of the loop ends in one of three ways: an error before the
    request; the request, then an error or [break] (the latter on a
    [completed] poll alone); the request, the pause, and on to the next
    pass. *)
Lemma poll_iteration_cases variantId maxAttempts pollTimeoutMs startTime
  pollInterval attempts (s : effects N) :
  let r := poll_iteration w this variantId maxAttempts pollTimeoutMs startTime
             pollInterval attempts s in
  (exists e, fst r = Thrown e /\ trace (snd r) = trace s) \/
  (Num_gtb (Finite attempts) maxAttempts = false /\
   trace (snd r) = trace s ++ [Fetch Status (status_request this variantId)] /\
   ((exists e, fst r = Thrown e) \/
    (fst r = Returned Break /\
     reply_status_is "completed" (status_reply w (polls s)) = true))) \/
  (Num_gtb (Finite attempts) maxAttempts = false /\
   fst r = Returned Continue /\
   trace (snd r) = trace s ++ poll_and_sleep this variantId pollInterval /\
   polls (snd r) = S (polls s)).
Proof.
  intros r. subst r.
  destruct (poll_iteration w this variantId maxAttempts pollTimeoutMs startTime
              pollInterval attempts s) as [o s1] eqn:Hrun.
  cbn [fst snd]. revert Hrun. unfold poll_iteration.
  destruct (Num_gtb (Finite attempts) maxAttempts) eqn:Ha.
  { intros H. injection H as <- <-. left. eexists. split; reflexivity. }
  unfold bind at 1. unfold date_now at 1.
  destruct (Num_gtb (Finite (now w (ticks s) - startTime)) pollTimeoutMs).
  { intros H. injection H as <- <-. left. eexists. split; reflexivity. }
  unfold bind, fetch_status, or_raptor_error, lift, get, ret, sleep, emit, throw.
  unfold reply_status_is, reply_body. simpl.
  destruct (status_reply w (polls s)) as [t | resp]; simpl.
  { intros H. injection H as <- <-. right. left.
    repeat split; auto. left. eexists. reflexivity. }
  destruct (ok resp); simpl;
    [| intros H; injection H as <- <-; right; left;
       repeat split; auto; left; eexists; reflexivity].
  destruct (json resp) as [t | body]; simpl;
    [intros H; injection H as <- <-; right; left;
     repeat split; auto; left; eexists; reflexivity |].
  destruct (nullish body); simpl;
    [intros H; injection H as <- <-; right; left;
     repeat split; auto; left; eexists; reflexivity |].
  destruct (is_str (prop body "status") "completed"); simpl;
    [intros H; injection H as <- <-; right; left; repeat split; auto |].
  destruct (is_str (prop body "status") "failed"); simpl;
    [intros H; injection H as <- <-; right; left;
     repeat split; auto; left; eexists; reflexivity |].
  intros H. injection H as <- <-. right. right.
  unfold poll_and_sleep. simpl. rewrite <- app_assoc. auto.
Qed.

(** The polls of the loop, in every world: pairs of a request and a
    pause, then at most one more request.  The last request, if there is
    one, passed the attempt check, and the loop is left normally only on a
    [completed] poll. *)
Lemma poll_loop_shape variantId maxAttempts pollTimeoutMs startTime pollInterval :
  forall (fuel : nat) (attempts : Z) (s : effects N) out s',
    poll_loop w this fuel variantId maxAttempts pollTimeoutMs startTime
      pollInterval attempts s = (out, s') ->
    exists (j : nat) (last : bool),
      trace s' = trace s ++
                 repeat_events j (poll_and_sleep this variantId pollInterval) ++
                 (if last then [Fetch Status (status_request this variantId)] else []) /\
      (Z.of_nat j + (if last then 1 else 0) = 0 \/
       Num_gtb (Finite (attempts + (Z.of_nat j + (if last then 1 else 0))))
         maxAttempts = false) /\
      (out = Returned tt ->
       last = true /\
       reply_status_is "completed" (status_reply w (polls s + j)) = true).
Proof.
  induction fuel as [| fuel IH]; intros attempts s out s' Hrun.
  - cbn in Hrun. injection Hrun as <- <-.
    exists 0%nat, false. simpl. rewrite app_nil_r.
    repeat split; try lia; discriminate.
  - cbn [poll_loop] in Hrun. unfold bind in Hrun.
    pose proof (poll_iteration_cases variantId maxAttempts pollTimeoutMs startTime
                  pollInterval (attempts + 1) s) as Hcases.
    cbv zeta in Hcases.
    destruct (poll_iteration w this variantId maxAttempts pollTimeoutMs startTime
                pollInterval (attempts + 1) s) as [o s1].
    simpl in Hcases.
    destruct Hcases as [(e & Ho & Htr) | [(Ha & Htr & Hend) | (Ha & Ho & Htr & Hp)]].
    + subst o. injection Hrun as <- <-.
      exists 0%nat, false. simpl. rewrite app_nil_r.
      split; [assumption |]. split; [left; reflexivity | discriminate].
    + exists 0%nat, true. simpl.
      destruct Hend as [(e & Ho) | (Ho & Hc)]; subst o.
      * injection Hrun as <- <-.
        split; [assumption |]. split; [right; exact Ha | discriminate].
      * injection Hrun as <- <-. rewrite Nat.add_0_r.
        split; [assumption |]. split; [right; exact Ha | auto].
    + subst o. apply IH in Hrun.
      destruct Hrun as (j & last & Htr' & Hb & Hret).
      exists (S j), last. split; [| split].
      * rewrite Htr', Htr. cbn [repeat_events]. now rewrite <- !app_assoc.
      * right. destruct Hb as [Hb | Hb].
        { replace (attempts + (Z.of_nat (S j) + (if last then 1 else 0)))
            with (attempts + 1) by lia.
          exact Ha. }
        { replace (attempts + (Z.of_nat (S j) + (if last then 1 else 0)))
            with (attempts + 1 + (Z.of_nat j + (if last then 1 else 0))) by lia.
          exact Hb. }
      * intros Hout. destruct (Hret Hout) as [Hl Hc]. split; [exact Hl |].
        rewrite Hp in Hc.
        replace (polls s + S j)%nat with (S (polls s) + j)%nat by lia.
        exact Hc.
Qed.

(** What the attempt check leaves of a budget of requests. *)
Lemma attempt_budget (ceiling : Num) (n : nat) (k : Z) :
  k = 0 \/ Num_gtb (Finite k) ceiling = false ->
  Z.of_nat n <= k ->
  match ceiling with
  | Finite m => Z.of_nat n <= Z.max 0 m
  | NegInfinity => n = 0%nat
  | Infinity | NaN => True
  end.
Proof.
  intros Hk Hn. destruct ceiling as [m | | |]; try exact I.
  - destruct Hk as [-> | Hk]; [lia |]. apply Num_gtb_false_finite in Hk. lia.
  - destruct Hk as [-> | Hk]; [lia | discriminate].
Qed.

Lemma count_sleep_app (a b : list (event N)) :
  count_sleep (a ++ b) = (count_sleep a + count_sleep b)%nat.
Proof.
  induction a as [| e a IH]; simpl; [reflexivity |].
  destruct e; simpl; now rewrite ?IH.
Qed.

Lemma count_sleep_polls k (variantId : value N) pollInterval :
  count_sleep (repeat_events k (poll_and_sleep this variantId pollInterval)) = k.
Proof. induction k as [| k IH]; simpl; [reflexivity | now rewrite IH]. Qed.

Lemma count_upload_polls k (variantId : value N) pollInterval :
  count_fetch Upload (repeat_events k (poll_and_sleep this variantId pollInterval)) = 0%nat.
Proof. induction k as [| k IH]; simpl; [reflexivity | assumption]. Qed.

Lemma authorized_polls k (variantId : value N) pollInterval :
  forallb (authorized this)
    (repeat_events k (poll_and_sleep this variantId pollInterval)) = true.
Proof.
  induction k as [| k IH]; simpl; [reflexivity |].
  rewrite IH. unfold authorization. now rewrite String.eqb_refl.
Qed.

Lemma map_elements_length {A} (f : value N -> exn N + A) (items : list (value N)) l :
  map_elements f items = inr l -> length l = length items.
Proof.
  revert l. induction items as [| c items IH]; simpl; intros l H.
  - injection H as <-. reflexivity.
  - destruct (f c); [discriminate |].
    destruct (map_elements f items); [discriminate |].
    injection H as <-. simpl. f_equal. now apply IH.
Qed.

Lemma js_map_length {A} (f : value N -> exn N + A) (arr : value N) l :
  js_map f arr = inr l ->
  exists items, arr = VArr items /\ length l = length items.
Proof.
  destruct arr; simpl; try discriminate.
  intros H. eexists. split; [reflexivity |]. eapply map_elements_length; eauto.
Qed.

(** Steps 3 and 4 in every world: one request, and a result whose two
    lists have one entry per chunk of the body. *)
Lemma collect_chunks_shape uploadData variantId (s : effects N) out s' :
  collect_chunks w this uploadData variantId s = (out, s') ->
  trace s' = trace s ++ [Fetch Chunks (chunks_request this variantId)] /\
  out <> OutOfFuel /\
  (forall result, out = Returned result ->
     exists cbody texts metadata,
       reply_body (chunks_reply w) = Some cbody /\
       result = process_result uploadData texts metadata /\
       js_map chunk_text (js_or (prop cbody "chunks") (VArr [])) = inr texts /\
       length texts = length metadata).
Proof.
  unfold collect_chunks, fetch_chunks, bind, emit, ret, or_raptor_error, lift,
    get, throw, reply_body. simpl.
  destruct (chunks_reply w) as [t | resp]; simpl.
  { intros H. injection H as <- <-. simpl. repeat split; discriminate. }
  destruct (ok resp); simpl;
    [| intros H; injection H as <- <-; simpl; repeat split; discriminate].
  destruct (json resp) as [t | cbody]; simpl;
    [intros H; injection H as <- <-; simpl; repeat split; discriminate |].
  destruct (nullish cbody); simpl;
    [intros H; injection H as <- <-; simpl; repeat split; discriminate |].
  destruct (js_map chunk_text (js_or (prop cbody "chunks") (VArr []))) as [e | texts] eqn:Ht;
    simpl; [intros H; injection H as <- <-; simpl; repeat split; discriminate |].
  destruct (js_map chunk_metadata (js_or (prop cbody "chunks") (VArr []))) as [e | metadata] eqn:Hm;
    simpl; [intros H; injection H as <- <-; simpl; repeat split; discriminate |].
  intros H. injection H as <- <-. simpl.
  repeat split; [discriminate |].
  intros result Hres. injection Hres as <-.
  exists cbody, texts, metadata. repeat split; auto.
  apply js_map_length in Ht, Hm.
  destruct Ht as (items & Hi & Hl), Hm as (items' & Hi' & Hl').
  rewrite Hi in Hi'. injection Hi' as <-. congruence.
Qed.

(** *** The submission *)

Lemma upload_accepted_inv :
  upload_accepted w = true ->
  exists resp body,
    upload_reply w = inr resp /\ ok resp = true /\ json resp = inr body /\
    truthy (prop body "variant_id") = true.
Proof.
  unfold upload_accepted, reply_body.
  destruct (upload_reply w) as [t | resp]; [discriminate |].
  destruct (ok resp) eqn:Hok; [| discriminate].
  destruct (json resp) as [t | body] eqn:Hjs; [discriminate |].
  intros H. exists resp, body. auto.
Qed.

Lemma process_no_file fuel source options e :
  file_part w source = inl e ->
  process w this fuel source options no_effects = (Thrown e, no_effects).
Proof. intros Hf. unfold process. rewrite Hf. reflexivity. Qed.

Lemma process_rejected fuel source options file :
  file_part w source = inr file ->
  upload_accepted w = false ->
  exists e,
    process w this fuel source options no_effects
    = (Thrown e, submitted this file options).
Proof.
  intros Hf. unfold upload_accepted, reply_body, process. rewrite Hf.
  unfold bind at 1. unfold lift at 1. unfold ret at 1.
  unfold bind at 1. unfold fetch_upload, bind, emit, ret. simpl.
  unfold submitted, or_raptor_error, lift, get, throw, ret.
  destruct (upload_reply w) as [t | resp]; simpl; [eauto |].
  destruct (ok resp); simpl; [| eauto].
  destruct (json resp) as [t | body]; simpl; [eauto |].
  destruct (nullish body) eqn:Hnn; simpl; [eauto |].
  intros Hv. rewrite Hv. simpl. eauto.
Qed.

Lemma authorization_accepted :
  String.eqb (authorization this) ("Bearer " +++ apiKey this) = true.
Proof. unfold authorization. apply String.eqb_refl. Qed.

Lemma forallb_authorized_app (a b : list (event N)) :
  forallb (authorized this) (a ++ b)
  = (forallb (authorized this) a && forallb (authorized this) b)%bool.
Proof. apply forallb_app. Qed.

(** A run of [process] that waits, after an accepted submission, in every
    world: the upload, the polls, and the request for the chunks when a
    poll reported [completed]. *)
Lemma process_waiting_run fuel source options file resp body :
  file_part w source = inr file ->
  upload_reply w = inr resp ->
  ok resp = true ->
  json resp = inr body ->
  truthy (prop body "variant_id") = true ->
  wait options <> Some false ->
  exists (j : nat) (last : bool) (tail : list (event N)),
    trace (snd (process w this fuel source options no_effects))
    = [Fetch Upload (upload_request this file options)] ++
      repeat_events j (poll_and_sleep this (prop body "variant_id")
                         (pollInterval_of options)) ++
      (if last then [Fetch Status (status_request this (prop body "variant_id"))]
       else []) ++ tail /\
    (Z.of_nat j + (if last then 1 else 0) = 0 \/
     Num_gtb (Finite (Z.of_nat j + (if last then 1 else 0)))
       (maxAttempts_of this options) = false) /\
    (tail = [] \/
     tail = [Fetch Chunks (chunks_request this (prop body "variant_id"))] /\
     last = true /\
     reply_status_is "completed" (status_reply w j) = true) /\
    (forall result,
       fst (process w this fuel source options no_effects) = Returned result ->
       tail <> [] /\
       exists texts metadata,
         result = process_result body texts metadata /\
         length texts = length metadata).
Proof.
  intros Hf Hu Hok Hjs Hv Hwait.
  rewrite (process_after_upload N w this fuel source options file resp body)
    by assumption.
  assert (Hrun : forall r : outcome N (value N) * effects N,
            match wait options with
            | Some false => r
            | _ => (poll_loop w this fuel (prop body "variant_id")
                      (maxAttempts_of this options) (pollTimeoutMs_of this options)
                      (now w 0) (pollInterval_of options) 0 ;;
                    collect_chunks w this body (prop body "variant_id"))
                     (after_tick (submitted this file options))
            end
            = (poll_loop w this fuel (prop body "variant_id")
                 (maxAttempts_of this options) (pollTimeoutMs_of this options)
                 (now w 0) (pollInterval_of options) 0 ;;
               collect_chunks w this body (prop body "variant_id"))
                (after_tick (submitted this file options))).
  { intros r. destruct (wait options) as [[|] |]; congruence. }
  rewrite Hrun. clear Hrun. unfold bind.
  destruct (poll_loop w this fuel (prop body "variant_id")
              (maxAttempts_of this options) (pollTimeoutMs_of this options)
              (now w 0) (pollInterval_of options) 0
              (after_tick (submitted this file options))) as [o s1] eqn:Hloop.
  apply poll_loop_shape in Hloop.
  destruct Hloop as (j & last & Htr & Hb & Hret).
  simpl in Htr, Hret.
  destruct o as [[] | e |].
  - destruct (Hret eq_refl) as [-> Hc].
    destruct (collect_chunks w this body (prop body "variant_id") s1)
      as [o2 s2] eqn:Hcc.
    apply collect_chunks_shape in Hcc. destruct Hcc as (Htr2 & _ & Hres).
    exists j, true, [Fetch Chunks (chunks_request this (prop body "variant_id"))].
    simpl. split; [| split; [| split]].
    + rewrite Htr2, Htr. simpl. rewrite <- !app_assoc. reflexivity.
    + exact Hb.
    + right. auto.
    + intros result H. split; [discriminate |].
      destruct (Hres result H) as (cbody & texts & metadata & _ & Hr & _ & Hl).
      eauto.
  - exists j, last, []. simpl. rewrite app_nil_r. split; [| split; [| split]].
    + rewrite Htr. reflexivity.
    + exact Hb.
    + left. reflexivity.
    + discriminate.
  - exists j, last, []. simpl. rewrite app_nil_r. split; [| split; [| split]].
    + rewrite Htr. reflexivity.
    + exact Hb.
    + left. reflexivity.
    + discriminate.
Qed.

Ltac count_events :=
  repeat first
    [ rewrite count_fetch_app | rewrite count_sleep_app
    | rewrite count_status_polls | rewrite count_chunks_polls
    | rewrite count_upload_polls | rewrite count_sleep_polls
    | rewrite forallb_authorized_app | rewrite authorized_polls ].

(** X4.  Whatever the world answers and however much fuel there is, a call of
    [process] sends at most one upload, at most [maxAttempts] status
    requests when the attempt ceiling is an integer (none when the ceiling
    is not positive, nor when it is [-Infinity]), at most one request for
    chunks, and pauses at most once per status request; every request
    carries the client's key as a bearer token. *)
Theorem process_request_budget fuel source options :
  let tr := trace (snd (process w this fuel source options no_effects)) in
  (count_fetch Upload tr <= 1)%nat /\
  match maxAttempts_of this options with
  | Finite m => Z.of_nat (count_fetch Status tr) <= Z.max 0 m
  | NegInfinity => count_fetch Status tr = 0%nat
  | Infinity | NaN => True
  end /\
  (count_sleep tr <= count_fetch Status tr)%nat /\
  (count_fetch Chunks tr <= 1)%nat /\
  forallb (authorized this) tr = true.
Proof.
  intros tr. subst tr.
  assert (Hnone : match maxAttempts_of this options with
                  | Finite m => Z.of_nat 0 <= Z.max 0 m
                  | NegInfinity => 0%nat = 0%nat
                  | Infinity | NaN => True
                  end).
  { apply (attempt_budget _ 0 0); [left; reflexivity | lia]. }
  destruct (file_part w source) as [e | file] eqn:Hf.
  { rewrite (process_no_file fuel source options e Hf). simpl.
    repeat split; try lia; exact Hnone. }
  destruct (upload_accepted w) eqn:Hacc.
  2: { destruct (process_rejected fuel source options file Hf Hacc) as [e ->].
       simpl. rewrite ?String.eqb_refl. repeat split; try lia; exact Hnone. }
  destruct (upload_accepted_inv Hacc) as (resp & body & Hu & Hok & Hjs & Hv).
  destruct (wait options) as [[|] |] eqn:Hw.
  2: { rewrite (process_after_upload N w this fuel source options file resp body)
         by assumption.
       rewrite Hw. simpl. rewrite ?String.eqb_refl.
       repeat split; try lia; exact Hnone. }
  all: destruct (process_waiting_run fuel source options file resp body)
         as (j & fin & tail & -> & Hb & Htail & _);
       try assumption; try (rewrite Hw; discriminate);
       count_events; simpl;
       (split; [| split; [apply (attempt_budget _ _ _ Hb) |]]);
       destruct Htail as [-> | (-> & -> & _)]; try destruct fin; simpl;
       rewrite ?String.eqb_refl; repeat split; lia.
Qed.

(** X5.  The chunks are asked for only once a poll has reported [completed]:
    that poll is the last status request of the call, and the submission
    had been accepted. *)
Theorem process_chunks_after_completion fuel source options :
  let tr := trace (snd (process w this fuel source options no_effects)) in
  count_fetch Chunks tr = 1%nat ->
  upload_accepted w = true /\
  exists k,
    count_fetch Status tr = S k /\
    reply_status_is "completed" (status_reply w k) = true.
Proof.
  intros tr. subst tr.
  destruct (file_part w source) as [e | file] eqn:Hf.
  { rewrite (process_no_file fuel source options e Hf). discriminate. }
  destruct (upload_accepted w) eqn:Hacc.
  2: { destruct (process_rejected fuel source options file Hf Hacc) as [e ->].
       discriminate. }
  destruct (upload_accepted_inv Hacc) as (resp & body & Hu & Hok & Hjs & Hv).
  destruct (wait options) as [[|] |] eqn:Hw.
  2: { rewrite (process_after_upload N w this fuel source options file resp body)
         by assumption.
       rewrite Hw. discriminate. }
  all: destruct (process_waiting_run fuel source options file resp body)
         as (j & fin & tail & -> & Hb & Htail & _);
       try assumption; try (rewrite Hw; discriminate);
       count_events; simpl;
       destruct Htail as [-> | (-> & -> & Hc)];
       [ destruct fin; simpl; lia
       | intros _; split; [reflexivity |]; exists j; split; [simpl; lia | exact Hc] ].
Qed.

(** X6.  Whenever [process] returns, the submission had been accepted and the
    result is built from the body of the upload response; its [chunks] and
    [metadata] lists have the same length. *)
Theorem process_returns_parallel_lists fuel source options result :
  fst (process w this fuel source options no_effects) = Returned result ->
  exists body texts metadata,
    reply_body (upload_reply w) = Some body /\
    truthy (prop body "variant_id") = true /\
    result = process_result body texts metadata /\
    length texts = length metadata /\
    (wait options = Some false -> texts = []).
Proof.
  destruct (file_part w source) as [e | file] eqn:Hf.
  { rewrite (process_no_file fuel source options e Hf). discriminate. }
  destruct (upload_accepted w) eqn:Hacc.
  2: { destruct (process_rejected fuel source options file Hf Hacc) as [e ->].
       discriminate. }
  destruct (upload_accepted_inv Hacc) as (resp & body & Hu & Hok & Hjs & Hv).
  assert (Hb : reply_body (upload_reply w) = Some body).
  { unfold reply_body. now rewrite Hu, Hok, Hjs. }
  destruct (wait options) as [[|] |] eqn:Hw.
  2: { rewrite (process_after_upload N w this fuel source options file resp body)
         by assumption.
       rewrite Hw. simpl. intros H. injection H as <-.
       exists body, [], []. auto. }
  all: destruct (process_waiting_run fuel source options file resp body)
         as (j & fin & tail & _ & _ & _ & Hres);
       try assumption; try (rewrite Hw; discriminate);
       intros Hret; destruct (Hres result Hret) as (_ & texts & metadata & Hr & Hl);
       exists body, texts, metadata; repeat split; auto; discriminate.
Qed.

(** X7.  A submission that is not accepted (the upload is rejected, not 2xx,
    undecodable, or without a variant id) makes [process] throw without
    any poll, pause, chunk request or clock reading, whatever [wait] is. *)
Theorem process_submission_failure fuel source options :
  upload_accepted w = false ->
  let r := process w this fuel source options no_effects in
  (exists e, fst r = Thrown e) /\
  count_fetch Status (trace (snd r)) = 0%nat /\
  count_fetch Chunks (trace (snd r)) = 0%nat /\
  count_sleep (trace (snd r)) = 0%nat /\
  ticks (snd r) = 0%nat.
Proof.
  intros Hacc r. subst r.
  destruct (file_part w source) as [e | file] eqn:Hf.
  - rewrite (process_no_file fuel source options e Hf). simpl.
    repeat split; eauto.
  - destruct (process_rejected fuel source options file Hf Hacc) as [e ->].
    simpl. repeat split; eauto.
Qed.

(** *** Responses that are not ok *)

Lemma errorDetail_prop (error : value N) : errorDetail error = prop error "detail".
Proof.
  unfold errorDetail, hasDetail, has_prop, prop.
  destruct error; try reflexivity.
  destruct (assoc "detail" props); reflexivity.
Qed.

(** X8.  An upload that is answered by a response that is not ok makes
    [process] throw a [RaptorAPIError] that carries the HTTP status and the
    decoded body (an empty object when the body does not decode).  Its
    message ends with [detail] when that is a string that is not empty,
    with the status text when [detail] is missing or falsy, and with
    ['[object Object]'] for each element when [detail] is a list of
    objects, as validation errors are. *)
Theorem upload_failure_report fuel source options file resp :
  file_part w source = inr file ->
  upload_reply w = inr resp ->
  ok resp = false ->
  exists msg,
    process w this fuel source options no_effects
    = (Thrown (RaptorAPIError ("Upload failed: " +++ msg) (status resp)
                 (json_or_empty resp)),
       submitted this file options) /\
    (forall t, json resp = inl t ->
       msg = statusText resp /\ json_or_empty resp = VObj []) /\
    (forall body, json resp = inr body ->
       json_or_empty resp = body /\
       (truthy (prop body "detail") = false -> msg = statusText resp) /\
       (forall d, prop body "detail" = VStr d -> d <> EmptyString -> msg = d) /\
       (forall items, prop body "detail" = VArr (map VObj items) ->
          msg = String.concat "," (map (fun _ => "[object Object]") items))).
Proof.
  intros Hf Hu Hok.
  exists (toStringJS (js_or (prop (json_or_empty resp) "detail")
                        (VStr (statusText resp)))).
  split; [| split].
  - unfold process. rewrite Hf.
    unfold bind at 1. unfold lift at 1. unfold ret at 1.
    unfold bind at 1. unfold fetch_upload, bind, emit, ret. simpl.
    rewrite Hu. simpl. rewrite Hok. simpl.
    unfold throw, api_error. rewrite errorDetail_prop. reflexivity.
  - intros t Hjs. unfold json_or_empty. rewrite Hjs. auto.
  - intros body Hjs. unfold json_or_empty. rewrite Hjs.
    split; [reflexivity |]. split; [| split].
    + intros Hd. unfold js_or. rewrite Hd. reflexivity.
    + intros d Hd Hne. rewrite Hd. unfold js_or. simpl.
      destruct d; [contradiction | reflexivity].
    + intros items Hd. rewrite Hd. unfold js_or. simpl.
      rewrite map_map. reflexivity.
Qed.

(** *** The file of a path *)

(** X9.  [process] uploads a file named by a path only when it runs outside a
    browser, the path is a regular file that can be read, and its base
    name holds neither [..] nor a slash nor a backslash.  The type of the
    blob sent is the entry of the table for the extension of the base name,
    and [application/octet-stream] when the table has none; for the
    extensions [constructor] and [__proto__], which name members that the
    table inherits, it is the text of that member in lower case.  For such
    a path [processStream] builds the same file entry, but it makes none of
    these checks itself. *)
Theorem process_uploads_checked_file fuel (path : string) options :
  count_fetch Upload
    (trace (snd (process w this fuel (SrcPath path) options no_effects))) = 1%nat ->
  window_defined w = false /\
  statSync_isFile w path = inr true /\
  includes ".." (basename w path) = false /\
  includes "/" (basename w path) = false /\
  includes "\" (basename w path) = false /\
  exists data type,
    readFileSync w path = inr data /\
    file_part w (SrcPath path)
    = inr (FormFile {| blob_data := data; blob_type := type |}
             (Some (basename w path))) /\
    type
    = match assoc (extension (basename w path)) MIME_TYPES with
      | Some m => m
      | None =>
          if String.eqb (extension (basename w path)) "constructor"
          then "function object() { [native code] }"
          else if String.eqb (extension (basename w path)) "__proto__"
          then "[object object]"
          else "application/octet-stream"
      end /\
    stream_file_part w (SrcPath path) = file_part w (SrcPath path).
Proof.
  assert (Htype :
    Blob_type (getMimeType (basename w path))
    = match assoc (extension (basename w path)) MIME_TYPES with
      | Some m => m
      | None =>
          if String.eqb (extension (basename w path)) "constructor"
          then "function object() { [native code] }"
          else if String.eqb (extension (basename w path)) "__proto__"
          then "[object object]"
          else "application/octet-stream"
      end).
  { rewrite getMimeType_cases.
    destruct (assoc (extension (basename w path)) MIME_TYPES) as [m |] eqn:Hm.
    { apply MIME_TYPES_entries in Hm. apply Hm. }
    destruct (String.eqb (extension (basename w path)) "constructor");
      [reflexivity |].
    destruct (String.eqb (extension (basename w path)) "__proto__"); reflexivity. }
  destruct (file_part w (SrcPath path)) as [e | file] eqn:Hf.
  { rewrite (process_no_file fuel (SrcPath path) options e Hf).
    discriminate. }
  intros _. revert Hf. unfold stream_file_part. cbn [file_part].
  destruct (window_defined w); [discriminate |].
  destruct (statSync_isFile w path) as [t | [|]].
  { destruct t as [m [c |] |]; try discriminate.
    destruct (String.eqb c "ENOENT") eqn:E.
    - apply String.eqb_eq in E. subst c. discriminate.
    - destruct c as [| a0 c]; try discriminate.
      repeat match goal with
             | |- context [match ?x with _ => _ end] => destruct x; try discriminate
             end. }
  2: discriminate.
  destruct (readFileSync w path) as [t | data]; [discriminate |].
  destruct (includes ".." (basename w path)); [discriminate |].
  destruct (includes "/" (basename w path)); [discriminate |].
  destruct (includes "\" (basename w path)); [discriminate |].
  simpl. intros H. injection H as <-.
  repeat split; auto.
  exists data, (Blob_type (getMimeType (basename w path))).
  repeat split; auto.
Qed.

End BudgetProofs.

(** ** What [processStream] does in every world *)

Section StreamProofs.

Variable N : NumberOps.
Variable w : World N.
Variable this : Client.

(** X10.  The form of [processStream] is the one of [process], but the four
    fields that [process] puts in the query string are not sent at all:
    [parentDocumentId], [versionLabel], [autoLink] and [autoLinkThreshold]
    have no effect on a streamed upload. *)
Theorem processStream_drops_query_fields (file : FormValue)
  (options : ProcessOptions N) (f : ConfigField) :
  transmitted (stream_upload_request this file options) f
  = if in_query f then None else provided options f.
Proof.
  unfold transmitted, stream_upload_request.
  destruct f; cbn [in_query req_query req_body wire_name provided];
    try reflexivity.
  all: rewrite assoc_cons, assoc_text_entries; unfold config_fields;
       rewrite !assoc_app, !assoc_append_defined, assoc_append_strategy;
       simpl.
  all: match goal with
       | |- context [option_map _ ?x] => destruct x; reflexivity
       | |- context [match ?x with _ => _ end] => destruct x; reflexivity
       end.
Qed.

(** The events one pass of the loop of [processStream] adds. *)
Lemma stream_iteration_events variantId maxAttempts pollTimeoutMs startTime
  pollInterval attempts (s : effects N) :
  let r := stream_iteration w this variantId maxAttempts pollTimeoutMs startTime
             pollInterval attempts s in
  exists evs,
    trace (snd r) = trace s ++ evs /\
    count_fetch Upload evs = 0%nat /\
    count_fetch Chunks evs = 0%nat /\
    (count_fetch Status evs <= 1)%nat /\
    (Num_gtb (Finite attempts) maxAttempts = true ->
     count_fetch Status evs = 0%nat) /\
    (count_sleep evs <= count_fetch Status evs)%nat /\
    forallb (authorized this) evs = true.
Proof.
  intros r. subst r.
  destruct (stream_iteration w this variantId maxAttempts pollTimeoutMs startTime
              pollInterval attempts s) as [o s1] eqn:Hrun.
  cbn [fst snd]. revert Hrun. unfold stream_iteration.
  destruct (Num_gtb (Finite attempts) maxAttempts) eqn:Ha.
  { intros H. injection H as <- <-. exists []. rewrite app_nil_r.
    simpl. repeat split; auto. }
  unfold bind at 1. unfold date_now at 1.
  destruct (Num_gtb (Finite (now w (ticks s) - startTime)) pollTimeoutMs).
  { intros H. injection H as <- <-. exists []. rewrite app_nil_r.
    simpl. repeat split; auto. }
  unfold bind, fetch_status, or_rethrow, lift, get, ret, sleep, yield, emit, throw.
  simpl.
  assert (Hone : forall tail : list (event N),
            count_fetch Upload tail = 0%nat ->
            count_fetch Chunks tail = 0%nat ->
            count_fetch Status tail = 0%nat ->
            (count_sleep tail <= 1)%nat ->
            forallb (authorized this) tail = true ->
            let evs := Fetch Status (status_request this variantId) :: tail in
            count_fetch Upload evs = 0%nat /\
            count_fetch Chunks evs = 0%nat /\
            (count_fetch Status evs <= 1)%nat /\
            (false = true -> count_fetch Status evs = 0%nat) /\
            (count_sleep evs <= count_fetch Status evs)%nat /\
            forallb (authorized this) evs = true).
  { intros tail H1 H2 H3 H4 H5. simpl. rewrite H1, H2, H3, H5.
    rewrite String.eqb_refl. repeat split; auto; try lia; discriminate. }
  destruct (status_reply w (polls s)) as [t | resp]; simpl.
  { intros H. injection H as <- <-. eexists. split; [reflexivity |].
    apply Hone; simpl; auto. }
  destruct (json resp) as [t | body]; simpl.
  { intros H. injection H as <- <-. eexists. split; [reflexivity |].
    apply Hone; simpl; auto. }
  destruct (nullish body); simpl.
  { intros H. injection H as <- <-. eexists. split; [reflexivity |].
    apply Hone; simpl; auto. }
  destruct (is_str (prop body "status") "completed"); simpl.
  { intros H. injection H as <- <-. eexists. split.
    - rewrite <- app_assoc. reflexivity.
    - apply Hone; simpl; auto. }
  destruct (is_str (prop body "status") "failed"); simpl.
  { intros H. injection H as <- <-. eexists. split; [reflexivity |].
    apply Hone; simpl; auto. }
  intros H. injection H as <- <-. eexists. split.
  - rewrite <- !app_assoc. reflexivity.
  - apply Hone; simpl; auto.
Qed.

Lemma stream_loop_events variantId maxAttempts pollTimeoutMs startTime pollInterval :
  forall (fuel : nat) (attempts : Z) (s : effects N),
  exists evs,
    trace (snd (stream_loop w this fuel variantId maxAttempts pollTimeoutMs
                  startTime pollInterval attempts s)) = trace s ++ evs /\
    count_fetch Upload evs = 0%nat /\
    count_fetch Chunks evs = 0%nat /\
    (Z.of_nat (count_fetch Status evs) = 0 \/
     Num_gtb (Finite (attempts + Z.of_nat (count_fetch Status evs))) maxAttempts
     = false) /\
    (count_sleep evs <= count_fetch Status evs)%nat /\
    forallb (authorized this) evs = true.
Proof.
  induction fuel as [| fuel IH]; intros attempts s.
  - exists []. simpl. rewrite app_nil_r. repeat split; auto; lia.
  - cbn [stream_loop]. unfold bind.
    pose proof (stream_iteration_events variantId maxAttempts pollTimeoutMs
                  startTime pollInterval (attempts + 1) s) as Hev.
    cbv zeta in Hev.
    destruct (stream_iteration w this variantId maxAttempts pollTimeoutMs
                startTime pollInterval (attempts + 1) s) as [o s1].
    cbn [fst snd] in Hev.
    destruct Hev as (evs & Htr & Hu & Hc & Hs1 & Hs0 & Hsl & Hauth).
    assert (Hb : Z.of_nat (count_fetch Status evs) = 0 \/
                 Num_gtb (Finite (attempts + Z.of_nat (count_fetch Status evs)))
                   maxAttempts = false).
    { destruct (Num_gtb (Finite (attempts + 1)) maxAttempts) eqn:Ha.
      - left. rewrite (Hs0 eq_refl). reflexivity.
      - right. apply (Num_gtb_false_below _ (attempts + 1)); [lia | exact Ha]. }
    destruct o as [[|] | e |].
    + exists evs. simpl. repeat split; auto.
    + destruct (IH (attempts + 1) s1) as (evs' & Htr' & Hu' & Hc' & Hb' & Hsl' & Hauth').
      exists (evs ++ evs'). rewrite Htr', Htr, <- app_assoc.
      rewrite !count_fetch_app, count_sleep_app, forallb_app.
      rewrite Hu, Hu', Hc, Hc', Hauth, Hauth'.
      repeat split; auto; try lia.
      destruct Hb' as [Hb' | Hb'].
      * destruct Hb as [Hb | Hb]; [left; lia | right].
        replace (attempts + Z.of_nat (count_fetch Status evs + count_fetch Status evs'))
          with (attempts + Z.of_nat (count_fetch Status evs)) by lia.
        exact Hb.
      * right.
        apply (Num_gtb_false_below _
                 (attempts + 1 + Z.of_nat (count_fetch Status evs')));
          [lia | exact Hb'].
    + exists evs. simpl. repeat split; auto.
    + exists evs. simpl. repeat split; auto.
Qed.

(** X11.  Whatever the world answers and however much fuel there is,
    [processStream] sends at most one upload and at most [maxAttempts]
    status requests when the attempt ceiling is an integer (none when it is
    [-Infinity]), pauses at most once per status request, and never asks
    for the chunks: its consumer gets progress events and nothing else.
    Every request carries the client's key. *)
Theorem processStream_request_budget fuel source options :
  let tr := trace (snd (processStream w this fuel source options no_effects)) in
  (count_fetch Upload tr <= 1)%nat /\
  match maxAttempts_of this options with
  | Finite m => Z.of_nat (count_fetch Status tr) <= Z.max 0 m
  | NegInfinity => count_fetch Status tr = 0%nat
  | Infinity | NaN => True
  end /\
  (count_sleep tr <= count_fetch Status tr)%nat /\
  count_fetch Chunks tr = 0%nat /\
  forallb (authorized this) tr = true.
Proof.
  intros tr. subst tr.
  assert (Hnone : match maxAttempts_of this options with
                  | Finite m => Z.of_nat 0 <= Z.max 0 m
                  | NegInfinity => 0%nat = 0%nat
                  | Infinity | NaN => True
                  end).
  { apply (attempt_budget _ 0 0); [left; reflexivity | lia]. }
  unfold processStream.
  unfold bind at 1. unfold yield at 1. unfold emit at 1.
  unfold bind at 1.
  destruct (stream_file_part w source) as [e | file]; simpl.
  { repeat split; try lia; exact Hnone. }
  unfold bind at 1. unfold fetch_upload, bind, emit, ret. simpl.
  destruct (upload_reply w) as [t | resp]; simpl.
  { rewrite String.eqb_refl. repeat split; try lia; exact Hnone. }
  destruct (ok resp); simpl.
  2: { rewrite String.eqb_refl. repeat split; try lia; exact Hnone. }
  destruct (json resp) as [t | body]; simpl.
  { rewrite String.eqb_refl. repeat split; try lia; exact Hnone. }
  unfold lift, get. destruct (nullish body); simpl.
  { rewrite String.eqb_refl. repeat split; try lia; exact Hnone. }
  unfold yield, emit, date_now. simpl.
  match goal with
  | |- context [stream_loop w this fuel ?v ?m ?p ?t ?i ?a ?s] =>
      destruct (stream_loop_events v m p t i fuel a s)
        as (evs & -> & Hu & Hc & Hb & Hsl & Hauth)
  end.
  simpl. rewrite String.eqb_refl.
  rewrite Hu, Hc, Hauth. rewrite Z.add_0_l in Hb.
  split; [lia |].
  split; [apply (attempt_budget _ _ _ Hb); lia |].
  repeat split; lia.
Qed.

Lemma requests_app (a b : list (event N)) :
  requests (a ++ b) = requests a ++ requests b.
Proof.
  induction a as [| e a IH]; simpl; [reflexivity |].
  destruct e; simpl; now rewrite IH.
Qed.

(** Under both ceilings a pass of the loop of [processStream] sends its
    status request, whatever the answer. *)
Lemma stream_iteration_requests variantId maxAttempts pollTimeoutMs startTime
  pollInterval attempts (s : effects N) :
  Num_gtb (Finite attempts) maxAttempts = false ->
  Num_gtb (Finite (now w (ticks s) - startTime)) pollTimeoutMs = false ->
  exists tail,
    trace (snd (stream_iteration w this variantId maxAttempts pollTimeoutMs
                  startTime pollInterval attempts s))
    = trace s ++ Fetch Status (status_request this variantId) :: tail.
Proof.
  intros Ha Ht. unfold stream_iteration. rewrite Ha.
  unfold bind at 1. unfold date_now at 1. rewrite Ht.
  unfold bind, fetch_status, or_rethrow, lift, get, ret, sleep, yield, emit, throw.
  simpl.
  destruct (status_reply w (polls s)) as [t | resp]; simpl; [eauto |].
  destruct (json resp) as [t | body]; simpl; [eauto |].
  destruct (nullish body); simpl; [eauto |].
  destruct (is_str (prop body "status") "completed"); simpl.
  { rewrite <- app_assoc. simpl. eauto. }
  destruct (is_str (prop body "status") "failed"); simpl; [eauto |].
  rewrite <- !app_assoc. simpl. eauto.
Qed.

(** X12.  [processStream] does not check that the upload gave a variant id:
    where [process] throws 'Upload response missing variant ID' right
    after the upload, the stream goes on and polls the variant
    ['undefined']. *)
Theorem processStream_polls_without_variant_id fuel source options file resp body :
  stream_file_part w source = inr file ->
  upload_reply w = inr resp ->
  ok resp = true ->
  json resp = inr body ->
  nullish body = false ->
  prop body "variant_id" = VUndefined ->
  under (maxAttempts_of this options) 1 = true ->
  within_time w (pollTimeoutMs_of this options) 1 = true ->
  (1 <= fuel)%nat ->
  (exists rest,
     requests (trace (snd (processStream w this fuel source options no_effects)))
     = (Upload, stream_upload_request this file options) ::
       (Status, status_request this (@VUndefined N)) :: rest) /\
  req_url (status_request this (@VUndefined N))
  = baseUrl this +++ "/api/documents/variants/undefined" /\
  (forall file',
     file_part w source = inr file' ->
     process w this fuel source options no_effects
     = (Thrown (RaptorError "Upload response missing variant ID"),
        submitted this file' options)).
Proof.
  intros Hf Hu Hok Hjs Hnn Hv Hmax Ht Hfuel.
  apply (within_time_check N w) in Ht. apply under_true in Hmax.
  split; [| split; [reflexivity |]].
  - rewrite (processStream_after_upload N w this fuel source options file resp body)
      by assumption.
    rewrite Hv.
    destruct fuel as [| fuel]; [lia |].
    cbn [stream_loop]. unfold bind.
    match goal with
    | |- context [stream_iteration w this ?v ?m ?p ?t ?i ?a ?s] =>
        destruct (stream_iteration_requests v m p t i a s) as (tail & Htr);
        [ exact Hmax | exact Ht | ];
        destruct (stream_iteration w this v m p t i a s) as [o s1]
    end.
    simpl in Htr.
    destruct o as [[|] | e |]; simpl.
    + rewrite Htr. simpl. eauto.
    + match goal with
      | |- context [stream_loop w this fuel ?v ?m ?p ?t ?i ?a s1] =>
          destruct (stream_loop_events v m p t i fuel a s1) as (evs & -> & _)
      end.
      rewrite Htr. simpl. eauto.
    + rewrite Htr. simpl. eauto.
    + rewrite Htr. simpl. eauto.
  - intros file' Hf'. unfold process. rewrite Hf'.
    unfold bind at 1. unfold lift at 1. unfold ret at 1.
    unfold bind at 1. unfold fetch_upload, bind, emit, ret. simpl.
    rewrite Hu. simpl. rewrite Hok. simpl. rewrite Hjs. simpl.
    unfold lift, get. rewrite Hnn, Hv. reflexivity.
Qed.

(** X13.  [processStream] does not look at the HTTP status of a poll: it decodes
    the body of a response that is not ok and acts on its [status], so a
    failed status request whose body says [completed] ends the stream
    normally, where [process] throws the [RaptorAPIError] of the failed
    request and never asks for the chunks. *)
Theorem processStream_ignores_poll_http_status fuel source options file file'
  resp body sresp sbody :
  stream_file_part w source = inr file ->
  file_part w source = inr file' ->
  upload_reply w = inr resp ->
  ok resp = true ->
  json resp = inr body ->
  truthy (prop body "variant_id") = true ->
  wait options <> Some false ->
  status_reply w 0 = inr sresp ->
  ok sresp = false ->
  json sresp = inr sbody ->
  is_str (prop sbody "status") "completed" = true ->
  under (maxAttempts_of this options) 1 = true ->
  within_time w (pollTimeoutMs_of this options) 1 = true ->
  (1 <= fuel)%nat ->
  fst (processStream w this fuel source options no_effects) = Returned tt /\
  yields (trace (snd (processStream w this fuel source options no_effects)))
  = [ upload_started; upload_complete (prop body "variant_id");
      processing_complete (prop body "variant_id") ] /\
  fst (process w this fuel source options no_effects)
  = Thrown (api_error "Status check failed: " sresp) /\
  count_fetch Chunks (trace (snd (process w this fuel source options no_effects)))
  = 0%nat.
Proof.
  intros Hf Hf' Hu Hok Hjs Hv Hwait Hs Hsok Hsjs Hc Hmax Ht Hfuel.
  apply (within_time_check N w) in Ht. apply under_true in Hmax.
  pose proof (truthy_prop_not_nullish _ _ _ Hv) as Hnn.
  pose proof (is_str_prop_not_nullish _ _ _ _ Hc) as Hsnn.
  destruct fuel as [| fuel]; [lia |].
  rewrite (processStream_after_upload N w this (S fuel) source options file resp body)
    by assumption.
  rewrite (process_after_upload N w this (S fuel) source options file' resp body)
    by assumption.
  assert (Hstream :
    stream_iteration w this (prop body "variant_id") (maxAttempts_of this options)
      (pollTimeoutMs_of this options) (now w 0) (Z_or (pollInterval options) 1000)
      (0 + 1)
      {| trace := [ Yield upload_started;
                    Fetch Upload (stream_upload_request this file options);
                    Yield (upload_complete (prop body "variant_id")) ];
         ticks := 1; polls := 0 |}
    = (Returned Break,
       {| trace := [ Yield upload_started;
                     Fetch Upload (stream_upload_request this file options);
                     Yield (upload_complete (prop body "variant_id")) ] ++
                   [ Fetch Status (status_request this (prop body "variant_id"));
                     Yield (processing_complete (prop body "variant_id")) ];
          ticks := 2; polls := 1 |})).
  { rewrite (stream_iteration_decoded N w this _ _ _ _ _ _ _ sresp sbody)
      by assumption.
    rewrite Hc. reflexivity. }
  assert (Hrun' :
    stream_loop w this (S fuel) (prop body "variant_id") (maxAttempts_of this options)
      (pollTimeoutMs_of this options) (now w 0) (Z_or (pollInterval options) 1000) 0
      {| trace := [ Yield upload_started;
                    Fetch Upload (stream_upload_request this file options);
                    Yield (upload_complete (prop body "variant_id")) ];
         ticks := 1; polls := 0 |}
    = (Returned tt,
       {| trace := [ Yield upload_started;
                     Fetch Upload (stream_upload_request this file options);
                     Yield (upload_complete (prop body "variant_id")) ] ++
                   [ Fetch Status (status_request this (prop body "variant_id"));
                     Yield (processing_complete (prop body "variant_id")) ];
          ticks := 2; polls := 1 |})).
  { cbn [stream_loop]. unfold bind. rewrite Hstream. reflexivity. }
  rewrite Hrun'.
  split; [reflexivity |]. split; [reflexivity |].
  assert (Hpoll :
    poll_iteration w this (prop body "variant_id") (maxAttempts_of this options)
      (pollTimeoutMs_of this options) (now w 0) (pollInterval_of options) (0 + 1)
      (after_tick (submitted this file' options))
    = (Thrown (api_error "Status check failed: " sresp),
       after_request this (prop body "variant_id")
         (after_tick (submitted this file' options)))).
  { unfold poll_iteration. change (0 + 1) with 1. rewrite Hmax.
    unfold bind at 1. unfold date_now at 1.
    change (ticks (after_tick (submitted this file' options))) with 1%nat.
    rewrite Ht.
    unfold bind, fetch_status, or_raptor_error, ret, throw. simpl.
    rewrite Hs. simpl. rewrite Hsok. reflexivity. }
  assert (Hrun :
    (poll_loop w this (S fuel) (prop body "variant_id")
       (maxAttempts_of this options) (pollTimeoutMs_of this options)
       (now w 0) (pollInterval_of options) 0 ;;
     collect_chunks w this body (prop body "variant_id"))
      (after_tick (submitted this file' options))
    = (Thrown (api_error "Status check failed: " sresp),
       after_request this (prop body "variant_id")
         (after_tick (submitted this file' options)))).
  { cbn [poll_loop]. unfold bind. rewrite Hpoll. reflexivity. }
  destruct (wait options) as [[|] |]; try congruence; rewrite Hrun; simpl; auto.
Qed.

End StreamProofs.

(** ** The methods with one request *)

Section MethodProofs.

Variable N : NumberOps.
Variable w : World N.
Variable this : Client.
Variable number_one : number N.

Lemma invalid_id_malformed (id : string) :
  uuid_shaped id = false -> invalid_id id = true.
Proof.
  intros H. unfold invalid_id. rewrite isValidUUID_uuid_shaped, H.
  apply orb_true_r.
Qed.

Lemma invalid_id_wellformed (id : string) :
  isValidUUID id = true -> invalid_id id = false.
Proof.
  intros H. unfold invalid_id. rewrite H.
  now rewrite (isValidUUID_truthy id H).
Qed.

(** X14.  An identifier that does not have the shape of a UUID (36 characters,
    dashes at the offsets 8, 13, 18 and 23, hexadecimal digits elsewhere)
    makes every method that takes an identifier throw a [RaptorError]
    before it sends anything. *)
Theorem malformed_id_sends_nothing (id : string) :
  uuid_shaped id = false ->
  (forall options s,
     getChunks w this id options s
     = (Thrown (RaptorError ("Invalid variant ID: " +++ id)), s)) /\
  (forall s,
     getVariant w this id s
     = (Thrown (RaptorError ("Invalid variant ID: " +++ id)), s)) /\
  (forall options reply,
     getDocument this number_one id options reply
     = ([], inl (RaptorError ("Invalid document ID: " +++ id)))) /\
  (forall reply,
     listVersions this id reply
     = ([], inl (@RaptorError N ("Invalid document ID: " +++ id)))) /\
  (forall n reply,
     getVersion this id n reply
     = ([], inl (@RaptorError N ("Invalid document ID: " +++ id)))) /\
  (forall reply,
     deleteVariant this id reply
     = ([], inl (@RaptorError N ("Invalid variant ID: " +++ id)))) /\
  (forall reply,
     cancelProcessing this id reply
     = ([], inl (@RaptorError N ("Invalid variant ID: " +++ id)))) /\
  (forall n reply,
     deleteVersion this id n reply
     = ([], inl (@RaptorError N ("Invalid document ID: " +++ id)))) /\
  (forall n reply,
     revertToVersion this id n reply
     = ([], inl (@RaptorError N ("Invalid document ID: " +++ id)))).
Proof.
  intros H. pose proof (invalid_id_malformed id H) as Hinv.
  repeat split; intros;
    unfold getChunks, getVariant, getDocument, listVersions, getVersion,
      deleteVariant, cancelProcessing, deleteVersion, revertToVersion;
    try fold (invalid_id id); rewrite Hinv; reflexivity.
Qed.

(** X15.  The two methods that change versions check the version number before
    they send anything; [getVersion] does not, and asks the server for
    version 0 or a negative one.  The number appears in the URL as the host
    prints it: with all its digits down to -2^53. *)
Theorem version_number_checked_on_writes (id : string) (n : Z)
  (reply : thrown + Response N) :
  n < 1 ->
  fst (deleteVersion this id n reply) = [] /\
  fst (revertToVersion this id n reply) = [] /\
  (isValidUUID id = true ->
   snd (deleteVersion this id n reply)
   = inl (RaptorError "Version number must be >= 1") /\
   snd (revertToVersion this id n reply)
   = inl (RaptorError "Version number must be >= 1") /\
   fst (getVersion this id n reply)
   = [get_request this
        (baseUrl this +++ "/api/documents/" +++ id +++ "/versions/" +++
         (if - 2 ^ 53 <=? n then decimal n else integer_toString N n))
        None]).
Proof.
  intros Hn.
  assert (Hprint : Z_toString N n
                   = if - 2 ^ 53 <=? n then decimal n else integer_toString N n).
  { unfold Z_toString, Z_print.
    destruct (Z.leb_spec (Z.abs n) (2 ^ 53)), (Z.leb_spec (- 2 ^ 53) n);
      try reflexivity; lia. }
  apply Z.ltb_lt in Hn.
  unfold deleteVersion, revertToVersion, getVersion. rewrite Hn, Hprint.
  destruct (invalid_id id) eqn:Hinv.
  - split; [reflexivity |]. split; [reflexivity |]. intros Hv.
    rewrite (invalid_id_wellformed id Hv) in Hinv. discriminate.
  - split; [reflexivity |]. split; [reflexivity |]. intros _.
    split; [reflexivity |]. split; reflexivity.
Qed.

(** *** [listDocuments] *)

(** X16.  [listDocuments] sends its request exactly when none of its three
    tests holds, [limit < 1], [limit > 100] and [offset < 0], the page
    size being 20 and the offset 0 when absent.  For integers this is a
    page size in [1, 100] and an offset that is not negative; a page size
    of 0 is rejected, not replaced by the default.  [NaN] passes every
    test, and so does an offset of [Infinity].  The two numbers are sent as
    the host prints them.  Whatever the answer is, no host rejection leaves
    the method as it is: a network failure and an undecodable body are
    wrapped in a [RaptorError]. *)
Theorem listDocuments_validates_and_wraps (options : ListDocumentsOptions)
  (reply : thrown + Response N) :
  let page := match ld_limit options with Some l => l | None => Finite 20 end in
  let start := match ld_offset options with Some o => o | None => Finite 0 end in
  let page_passes :=
    match page with
    | Finite p => 1 <= p <= 100
    | NaN => True
    | Infinity | NegInfinity => False
    end in
  let start_passes :=
    match start with
    | Finite s => 0 <= s
    | NaN | Infinity => True
    | NegInfinity => False
    end in
  let text (n : Num) :=
    match n with
    | Finite z => if Z.abs z <=? 2 ^ 53 then decimal z else integer_toString N z
    | Infinity => "Infinity"
    | NegInfinity => "-Infinity"
    | NaN => "NaN"
    end in
  (page_passes /\ start_passes <->
   fst (listDocuments this options reply)
   = [get_request this (baseUrl this +++ "/api/documents")
        (Some [("limit", text page); ("offset", text start)])]) /\
  (fst (listDocuments this options reply) = [] \/
   page_passes /\ start_passes) /\
  (fst (listDocuments this options reply) = [] ->
   exists msg, snd (listDocuments this options reply) = inl (@RaptorError N msg)) /\
  (forall t, snd (listDocuments this options reply) <> inl (@HostThrown N t)).
Proof.
  intros page start page_passes start_passes text.
  unfold listDocuments. fold page. fold start.
  assert (Htext : forall n, Num_toString N n = text n).
  { intros [z | | |]; reflexivity. }
  rewrite !Htext.
  assert (Hgen : forall (items : list (value N)) t,
             map_elements document_info items <> inl (HostThrown t)).
  { induction items as [| c items IH]; simpl; intros t; [discriminate |].
    unfold document_info at 1.
    destruct (nullish c); [discriminate |].
    destruct (map_elements document_info items) as [e |] eqn:He; [| discriminate].
    intros H. injection H as ->. now apply (IH t). }
  assert (Hpage : (Num_ltb page (Finite 1) || Num_gtb page (Finite 100))%bool = false
                  <-> page_passes).
  { subst page_passes. destruct page as [p | | |]; simpl;
      try (split; [discriminate | contradiction]);
      try (split; [intros _; exact I | reflexivity]).
    unfold Num_gtb, Num_ltb. rewrite orb_false_iff, !Z.ltb_ge. lia. }
  assert (Hstart : Num_ltb start (Finite 0) = false <-> start_passes).
  { subst start_passes. destruct start as [s0 | | |]; simpl;
      try (split; [discriminate | contradiction]);
      try (split; [intros _; exact I | reflexivity]).
    rewrite Z.ltb_ge. lia. }
  destruct (Num_ltb page (Finite 1) || Num_gtb page (Finite 100))%bool eqn:Hp; simpl.
  { assert (Hno : ~ page_passes) by (intros H; apply Hpage in H; discriminate).
    split; [split; [intros [? ?]; contradiction | discriminate] |].
    split; [left; reflexivity |].
    split; [intros _; eexists; reflexivity | intros t; discriminate]. }
  destruct (Num_ltb start (Finite 0)) eqn:Hs; simpl.
  { assert (Hno : ~ start_passes) by (intros H; apply Hstart in H; discriminate).
    split; [split; [intros [? ?]; contradiction | discriminate] |].
    split; [left; reflexivity |].
    split; [intros _; eexists; reflexivity | intros t; discriminate]. }
  assert (Hyes : page_passes /\ start_passes).
  { split; [apply Hpage | apply Hstart]; reflexivity. }
  split; [split; [reflexivity | intros _; exact Hyes] |].
  split; [right; exact Hyes |].
  split; [discriminate |].
  intros t. unfold respond.
  destruct reply as [t' | resp]; [discriminate |].
  destruct (ok resp); simpl; [| unfold api_error; discriminate].
  destruct (json resp) as [t' | data]; [discriminate |].
  destruct data; simpl; try discriminate.
  destruct (map_elements document_info items) as [e | l] eqn:Hmap; [| discriminate].
  intros He. injection He as ->. now apply (Hgen items t).
Qed.

(** *** [deleteDocument] *)

Lemma length_append (a b : string) :
  String.length (a +++ b) = (String.length a + String.length b)%nat.
Proof. induction a as [| c a IH]; simpl; [reflexivity | now rewrite IH]. Qed.

Lemma all_whitespace_blank (s : string) :
  all_whitespace s = true -> trim_is_empty s = true.
Proof.
  induction s as [| c s IH]; simpl; intros H; [reflexivity |].
  apply andb_true_iff in H. destruct H as [Hc Hs].
  unfold all_whitespace in IH. now rewrite Hc, IH.
Qed.

(** X17.  [deleteDocument] alone trims the identifier: white space around a
    UUID changes neither the request nor the outcome, where [getDocument]
    rejects the same string; an identifier of white space alone is
    reported as missing. *)
Theorem deleteDocument_trims (pad1 pad2 id : string) (reply : thrown + Response N) :
  all_whitespace pad1 = true ->
  all_whitespace pad2 = true ->
  isValidUUID id = true ->
  deleteDocument this (pad1 +++ id +++ pad2) reply = deleteDocument this id reply /\
  fst (deleteDocument this (pad1 +++ id +++ pad2) reply)
  = [bare_request this "DELETE" (baseUrl this +++ "/api/documents/" +++ id)] /\
  ((String.length pad1 + String.length pad2 <> 0)%nat ->
   fst (getDocument this number_one (pad1 +++ id +++ pad2) None reply) = []) /\
  deleteDocument this (pad1 +++ pad2) reply
  = ([], inl (RaptorError "Document ID is required")).
Proof.
  intros H1 H2 Hid.
  pose proof (isValidUUID_solid id Hid) as Hsolid.
  pose proof (isValidUUID_length id Hid) as Hlen.
  assert (Htrim : trim (pad1 +++ id +++ pad2) = id) by now apply trim_padded.
  assert (Htrim0 : trim id = id).
  { pose proof (trim_padded EmptyString EmptyString id eq_refl eq_refl Hsolid) as H.
    simpl in H. clear -H.
    assert (Hnil : forall x, x +++ EmptyString = x).
    { induction x as [| c x IH]; simpl; [reflexivity | now rewrite IH]. }
    now rewrite Hnil in H. }
  assert (Hpadded : string_truthy (pad1 +++ id +++ pad2) = true).
  { destruct (pad1 +++ id +++ pad2) eqn:E; [| reflexivity].
    apply (f_equal String.length) in E. rewrite !length_append, Hlen in E.
    simpl in E. lia. }
  assert (Hdel : forall x, trim x = id -> string_truthy x = true ->
            deleteDocument this x reply
            = ([bare_request this "DELETE" (baseUrl this +++ "/api/documents/" +++ id)],
               respond (Some "Network error while deleting document: ")
                 "Failed to delete document: " None reply transformDeletionResponse)).
  { intros x Hx Ht. unfold deleteDocument. rewrite Hx, Ht, Hlen, Hid. reflexivity. }
  split; [| split; [| split]].
  - rewrite (Hdel _ Htrim Hpadded).
    rewrite (Hdel id Htrim0 (isValidUUID_truthy id Hid)). reflexivity.
  - rewrite (Hdel _ Htrim Hpadded). reflexivity.
  - intros Hpad. unfold getDocument.
    assert (Hbad : isValidUUID (pad1 +++ id +++ pad2) = false).
    { destruct (isValidUUID (pad1 +++ id +++ pad2)) eqn:E; [| reflexivity].
      apply isValidUUID_length in E. rewrite !length_append, Hlen in E. lia. }
    unfold invalid_id. rewrite Hbad, orb_true_r. reflexivity.
  - unfold deleteDocument.
    assert (Hblank : trim (pad1 +++ pad2) = EmptyString).
    { apply trim_blank. apply all_whitespace_blank.
      unfold all_whitespace in *. clear -H1 H2.
      induction pad1 as [| c p IH]; simpl in *; [assumption |].
      apply andb_true_iff in H1. destruct H1 as [Hc Hp].
      rewrite Hc. simpl. now apply IH. }
    rewrite Hblank. simpl. rewrite orb_true_r. reflexivity.
Qed.

(** *** [getDocument] and [getVersion] *)

(** X18.  For the flat body that [/api/documents/{id}] sends (no [variants],
    [document_id], [version_number] or [content_hash]) [getDocument]
    fills in an empty variant list, the document's own id, version 1 and
    an empty hash; [getVersion] has no such defaults and fails with a
    [TypeError] on the same body. *)
Theorem getDocument_flat_response (id : string) (n : Z)
  (options : option (GetDocumentOptions N)) (resp : Response N)
  (props : list (string * value N)) :
  isValidUUID id = true ->
  ok resp = true ->
  json resp = inr (VObj props) ->
  assoc "variants" props = None ->
  assoc "document_id" props = None ->
  assoc "version_number" props = None ->
  assoc "content_hash" props = None ->
  (exists result,
     snd (getDocument this number_one id options (inr resp)) = inr result /\
     prop result "variants" = VArr [] /\
     prop result "documentId" = prop (VObj props) "id" /\
     prop result "versionNumber" = VNum number_one /\
     prop result "contentHash" = VStr EmptyString /\
     prop result "filename" = prop (VObj props) "filename") /\
  snd (getVersion this id n (inr resp)) = inl TypeError.
Proof.
  intros Hid Hok Hjs Hv Hd Hn Hc.
  pose proof (invalid_id_wellformed id Hid) as Hinv.
  unfold getDocument, getVersion. rewrite Hinv. simpl.
  unfold respond. rewrite Hok, Hjs. simpl.
  unfold document_object, version_object, get. simpl.
  rewrite Hv, Hd, Hn, Hc. simpl.
  split; [| reflexivity].
  eexists. split; [reflexivity |]. simpl. auto.
Qed.

(** *** Bodies that do not decode *)

(** X19.  A 2xx response whose body does not decode: [getVariant], the methods
    on documents and versions and the two deletions let the rejection of
    [response.json()] leave them as it is, [listDocuments] wraps it in a
    [RaptorError], and [cancelProcessing], which does not read the body,
    succeeds. *)
Theorem undecodable_body_elsewhere (id : string) (n : Z) (resp : Response N)
  (t : thrown) :
  isValidUUID id = true ->
  1 <= n ->
  ok resp = true ->
  json resp = inl t ->
  (forall s,
     status_reply w (polls s) = inr resp ->
     fst (getVariant w this id s) = Thrown (HostThrown t)) /\
  (forall options,
     snd (getDocument this number_one id options (inr resp)) = inl (HostThrown t)) /\
  snd (listVersions this id (inr resp)) = inl (HostThrown t) /\
  snd (getVersion this id n (inr resp)) = inl (HostThrown t) /\
  snd (deleteVariant this id (inr resp)) = inl (HostThrown t) /\
  snd (deleteVersion this id n (inr resp)) = inl (HostThrown t) /\
  snd (revertToVersion this id n (inr resp)) = inl (HostThrown t) /\
  snd (deleteDocument this id (inr resp)) = inl (HostThrown t) /\
  (forall options,
     fst (listDocuments this options (inr resp)) <> [] ->
     snd (listDocuments this options (inr resp))
     = inl (RaptorError ("Failed to parse list documents response: " +++
                         thrown_message t))) /\
  snd (cancelProcessing this id (inr resp)) = inr tt.
Proof.
  intros Hid Hn Hok Hjs.
  pose proof (invalid_id_wellformed id Hid) as Hinv.
  assert (Hnlt : (n <? 1) = false) by (apply Z.ltb_ge; lia).
  assert (Hresp : forall A (k : value N -> exn N + A) failed,
            respond None failed None (inr resp) k = inl (HostThrown t)).
  { intros A k failed. unfold respond. now rewrite Hok, Hjs. }
  repeat split.
  - intros s Hr. unfold getVariant. rewrite Hinv.
    unfold bind, fetch_status, lift. rewrite Hr.
    unfold respond. rewrite Hok, Hjs. reflexivity.
  - intros options. unfold getDocument. rewrite Hinv. apply Hresp.
  - unfold listVersions. rewrite Hinv. apply Hresp.
  - unfold getVersion. rewrite Hinv. apply Hresp.
  - unfold deleteVariant. rewrite Hinv. apply Hresp.
  - unfold deleteVersion. rewrite Hinv, Hnlt. apply Hresp.
  - unfold revertToVersion. rewrite Hinv, Hnlt. apply Hresp.
  - unfold deleteDocument.
    pose proof (isValidUUID_solid id Hid) as Hsolid.
    assert (Htrim0 : trim id = id).
    { pose proof (trim_padded EmptyString EmptyString id eq_refl eq_refl Hsolid) as H.
      simpl in H. clear -H.
      assert (Hnil : forall x, x +++ EmptyString = x).
      { induction x as [| c x IH]; simpl; [reflexivity | now rewrite IH]. }
      now rewrite Hnil in H. }
    rewrite Htrim0, (isValidUUID_truthy id Hid), (isValidUUID_length id Hid), Hid.
    simpl. unfold respond. now rewrite Hok, Hjs.
  - intros options. unfold listDocuments.
    destruct (Num_ltb _ (Finite 1) || Num_gtb _ (Finite 100))%bool;
      [intros H; now elim H |].
    destruct (Num_ltb _ (Finite 0)); [intros H; now elim H |].
    intros _. simpl. unfold respond. now rewrite Hok, Hjs.
  - unfold cancelProcessing. rewrite Hinv. simpl. now rewrite Hok.
Qed.

(** *** [getChunks] *)

Lemma map_elements_nth {A} (f : value N -> exn N + A) (items : list (value N)) l :
  map_elements f items = inr l ->
  forall i c, nth_error items i = Some c ->
    exists a, f c = inr a /\ nth_error l i = Some a.
Proof.
  revert l. induction items as [| c0 items IH]; simpl; intros l H i c Hi.
  - destruct i; discriminate.
  - destruct (f c0) as [e | a0] eqn:Hf; [discriminate |].
    destruct (map_elements f items) as [e | l0]; [discriminate |].
    injection H as <-.
    destruct i as [| i]; simpl in *.
    + injection Hi as <-. eauto.
    + eapply IH; eauto.
Qed.

(** X20.  For a well-formed identifier and a 2xx response whose [chunks] is an
    array without [null], [getChunks] sends one request and returns one
    chunk per element, in the order of the array, with the element's [id]
    and [text], and an empty list where [page_range] or
    [section_hierarchy] is missing; [total] is the number of the body, 0
    when the body has none. *)
Theorem getChunks_result (id : string) (options : option (GetChunksOptions N))
  (s : effects N) (resp : Response N) (data : value N) (items : list (value N)) :
  isValidUUID id = true ->
  chunks_reply w = inr resp ->
  ok resp = true ->
  json resp = inr data ->
  prop data "chunks" = VArr items ->
  forallb (fun c => negb (nullish c)) items = true ->
  exists chunks,
    getChunks w this id options s
    = (Returned (VObj [ ("chunks", VArr chunks);
                        ("total", match prop data "total" with
                                  | VNum n => VNum n
                                  | _ => VNum (number_zero N)
                                  end) ]),
       {| trace := trace s ++
                   [Fetch Chunks
                      (get_request this
                         (baseUrl this +++ "/api/documents/variants/" +++ id +++ "/chunks")
                         (Some (chunks_params options)))];
          ticks := ticks s; polls := polls s |}) /\
    length chunks = length items /\
    (forall i c, nth_error items i = Some c ->
       exists c', nth_error chunks i = Some c' /\
         prop c' "id" = prop c "id" /\
         prop c' "text" = prop c "text" /\
         prop c' "pageRange" = js_or (prop c "page_range") (VArr []) /\
         prop c' "sectionHierarchy" = js_or (prop c "section_hierarchy") (VArr [])).
Proof.
  intros Hid Hr Hok Hjs Hc Hall.
  assert (Hnn : nullish data = false).
  { destruct data; simpl in *; try reflexivity; discriminate. }
  destruct (map_elements_defined N chunk_object items) as (chunks & Hm & Hl); auto.
  { intros c Hcn. unfold chunk_object. rewrite Hcn. eauto. }
  exists chunks. split; [| split; [assumption |]].
  - unfold getChunks. rewrite Hid, (isValidUUID_truthy id Hid). simpl.
    unfold fetch_chunks, bind, emit, ret, or_rethrow. simpl.
    rewrite Hr. simpl. rewrite Hok. simpl. rewrite Hjs. simpl.
    unfold lift, get. rewrite Hnn, Hc. simpl. rewrite Hm. reflexivity.
  - intros i c Hi.
    destruct (map_elements_nth chunk_object items chunks Hm i c Hi) as (c' & Hc' & Hn).
    exists c'. split; [assumption |].
    unfold chunk_object in Hc'. destruct (nullish c); [discriminate |].
    injection Hc' as <-. simpl. auto.
Qed.

End MethodProofs.

(** ** The mapper on decoded bodies *)

Section JsonMapperProofs.

Variable N : NumberOps.

Lemma assoc_opt_entry {A} (k k' : string) (enc : A -> value N) (o : option A) :
  assoc k (opt_entry k' enc o)
  = if String.eqb k k' then option_map enc o else None.
Proof.
  destruct o as [a |]; simpl; destruct (String.eqb k k'); reflexivity.
Qed.

Lemma reading_option_map {A} (enc : A -> value N) (o : option A) :
  match option_map enc o with Some x => x | None => VUndefined end = reading enc o.
Proof. destruct o; reflexivity. Qed.

Lemma entry_cons (k : string) (v v' : value N) (l l' : list (string * value N)) :
  v = v' -> l = l' -> (k, v) :: l = (k, v') :: l'.
Proof. intros -> ->. reflexivity. Qed.

Ltac lookup :=
  unfold prop;
  repeat first [ rewrite assoc_app | rewrite assoc_opt_entry | rewrite assoc_cons ];
  simpl;
  repeat match goal with
         | |- context [option_map _ ?o] => is_var o; destruct o; simpl
         end;
  reflexivity.

Lemma config_literal_wire (d : Backend.ProcessingVariant N) :
  config_literal (wire_config (Backend.config d))
  = client_config (Frontend.config (transformVariant d)).
Proof.
  destruct d as [id vid hash cfg st err cc tt pc cr prim dedup rc mr ir dlq ca pa].
  destruct cfg as [cs co strat pi esn cqs mcq esc te tcg sc].
  unfold config_literal, client_config, wire_config, transformVariant.
  cbn [Backend.config Frontend.config Backend.chunk_size Backend.chunk_overlap
       Backend.strategy Backend.process_images Backend.extract_section_numbers
       Backend.calculate_quality_scores Backend.min_chunk_quality
       Backend.enable_smart_context Backend.table_extraction
       Backend.table_context_generation Backend.store_content
       Frontend.chunkSize Frontend.chunkOverlap Frontend.strategy
       Frontend.processImages Frontend.extractSectionNumbers
       Frontend.calculateQualityScores Frontend.minChunkQuality
       Frontend.enableSmartContext Frontend.tableExtraction
       Frontend.tableContextGeneration Frontend.storeContent].
  f_equal.
  repeat (apply entry_cons; [try solve [lookup] |]); [| reflexivity].
  match goal with
  | |- context [prop ?c "strategy"] =>
      assert (Hs : prop c "strategy" = reading VStr strat) by lookup;
      rewrite Hs; clear Hs
  end.
  destruct strat as [s |]; simpl; [| reflexivity].
  destruct (String.eqb s "semantic") eqn:E1.
  { apply String.eqb_eq in E1. subst s. reflexivity. }
  destruct (String.eqb s "recursive") eqn:E2.
  { apply String.eqb_eq in E2. subst s. reflexivity. }
  reflexivity.
Qed.

Lemma recommendations_literal_wire (r : Backend.EmbeddingRecommendations N) :
  recommendations_literal (wire_recommendations r)
  = client_recommendations
      {| Frontend.reuse := Backend.reuse r;
         Frontend.considerReuse := Backend.consider_reuse r;
         Frontend.regenerate := Backend.regenerate r |}.
Proof.
  destruct r as [r1 r2 r3].
  unfold recommendations_literal, client_recommendations, wire_recommendations.
  cbn [Backend.reuse Backend.consider_reuse Backend.regenerate
       Frontend.reuse Frontend.considerReuse Frontend.regenerate].
  f_equal.
  repeat (apply entry_cons; [try solve [lookup] |]). reflexivity.
Qed.

Lemma stats_literal_wire (d : Backend.ProcessingVariant N) (st : Backend.DedupStats N) :
  Backend.dedup_stats d = Some st ->
  exists st',
    Frontend.dedupStats (transformVariant d) = Some st' /\
    stats_literal (wire_stats st) = client_stats st'.
Proof.
  intros Hd. unfold transformVariant. cbn [Frontend.dedupStats]. rewrite Hd.
  eexists. split; [reflexivity |].
  destruct st as [c1 c2 c3 c4 c5 c6 c7 c8 c9 c10 c11 recs].
  unfold stats_literal, client_stats, wire_stats.
  cbn [Backend.chunks_created Backend.chunks_reused Backend.total_chunks
       Backend.savings_percent Backend.chunks_high_reuse
       Backend.chunks_partial_reuse Backend.chunks_fuzzy_matched
       Backend.total_sentences Backend.reused_sentences Backend.new_sentences
       Backend.sentence_reuse_ratio Backend.embedding_recommendations
       Frontend.chunksCreated Frontend.chunksReused Frontend.totalChunks
       Frontend.savingsPercent Frontend.chunksHighReuse
       Frontend.chunksPartialReuse Frontend.chunksFuzzyMatched
       Frontend.totalSentences Frontend.reusedSentences Frontend.newSentences
       Frontend.sentenceReuseRatio Frontend.embeddingRecommendations].
  f_equal.
  repeat (apply entry_cons; [try solve [lookup] |]); [| reflexivity].
  match goal with
  | |- context [prop ?c "embedding_recommendations"] =>
      assert (Hs : prop c "embedding_recommendations"
                   = reading wire_recommendations recs) by lookup;
      rewrite Hs; clear Hs
  end.
  destruct recs as [r |]; [| reflexivity].
  cbn [reading]. rewrite recommendations_literal_wire. reflexivity.
Qed.

(** X21.  [transformVariant] on the decoded body of a wire variant gives the
    object of the client variant that the typed [transformVariant] gives:
    the two descriptions of the mapper agree, field by field, absent
    optional fields reading as [undefined]. *)
Theorem transformVariantJ_refines (d : Backend.ProcessingVariant N) :
  transformVariantJ (wire_variant d) = inr (client_variant (transformVariant d)).
Proof.
  unfold transformVariantJ.
  assert (Hc : prop (wire_variant d) "config" = wire_config (Backend.config d)).
  { unfold wire_variant. lookup. }
  rewrite Hc.
  replace (nullish (wire_variant d)) with false by reflexivity.
  replace (nullish (wire_config (Backend.config d))) with false by reflexivity.
  rewrite config_literal_wire.
  assert (Hstats :
    (if truthy (prop (wire_variant d) "dedup_stats")
     then stats_literal (prop (wire_variant d) "dedup_stats")
     else VUndefined)
    = reading client_stats (Frontend.dedupStats (transformVariant d))).
  { assert (Hp : prop (wire_variant d) "dedup_stats"
                 = reading wire_stats (Backend.dedup_stats d)).
    { destruct d as [id vid hash cfg st err cc tt pc cr prim dedup rc mr ir dlq ca pa].
      unfold wire_variant.
      cbn [Backend.id Backend.version_id Backend.config_hash Backend.config
           Backend.status Backend.error Backend.chunks_count Backend.total_tokens
           Backend.page_count Backend.credits_charged Backend.is_primary
           Backend.dedup_stats Backend.retry_count Backend.max_retries
           Backend.is_retrying Backend.in_dlq Backend.created_at
           Backend.processed_at].
      lookup. }
    rewrite Hp.
    destruct (Backend.dedup_stats d) as [st |] eqn:Hd.
    - destruct (stats_literal_wire d st Hd) as (st' & Hst' & Heq).
      rewrite Hst'. cbn [reading]. rewrite <- Heq. reflexivity.
    - unfold transformVariant. cbn [Frontend.dedupStats]. rewrite Hd. reflexivity. }
  rewrite Hstats. clear Hstats Hc.
  unfold client_variant.
  generalize (client_config (Frontend.config (transformVariant d))) as config.
  generalize (reading client_stats (Frontend.dedupStats (transformVariant d))) as stats.
  intros stats config.
  destruct d as [id vid hash cfg st err cc tt pc cr prim dedup rc mr ir dlq ca pa].
  unfold client_variant, wire_variant, transformVariant.
  cbn [Backend.id Backend.version_id Backend.config_hash Backend.config
       Backend.status Backend.error Backend.chunks_count Backend.total_tokens
       Backend.page_count Backend.credits_charged Backend.is_primary
       Backend.dedup_stats Backend.retry_count Backend.max_retries
       Backend.is_retrying Backend.in_dlq Backend.created_at Backend.processed_at
       Frontend.id Frontend.versionId Frontend.configHash Frontend.config
       Frontend.status Frontend.error Frontend.chunksCount Frontend.totalTokens
       Frontend.pageCount Frontend.creditsCharged Frontend.isPrimary
       Frontend.dedupStats Frontend.retryCount Frontend.maxRetries
       Frontend.isRetrying Frontend.inDlq Frontend.createdAt Frontend.processedAt].
  f_equal. f_equal.
  repeat (apply entry_cons; [try solve [reflexivity | lookup] |]). reflexivity.
Qed.

End JsonMapperProofs.

(** ** [waitForProcessing] *)

Section WaitProofs.

Variable N : NumberOps.
Variable w : World N.
Variable this : Client.
Variable St : Type.

(** [getVariant] with a well-formed identifier: one request, and the
    variant of the reply when it has one. *)
Lemma getVariant_run (id : string) (s : effects N) :
  invalid_id id = false ->
  exists o,
    getVariant w this id s = (o, after_variant_request this id s) /\
    match variant_of_reply (status_reply w (polls s)) with
    | Some variant => o = Returned variant
    | None => exists e, o = Thrown e
    end.
Proof.
  intros Hid. unfold getVariant. rewrite Hid.
  unfold bind, fetch_status, lift, respond, variant_of_reply, reply_body.
  destruct (status_reply w (polls s)) as [t | resp]; simpl.
  { eexists. split; [reflexivity |]. eexists. reflexivity. }
  destruct (ok resp); simpl.
  2: { eexists. split; [reflexivity |]. eexists. reflexivity. }
  destruct (json resp) as [t | data]; simpl.
  { eexists. split; [reflexivity |]. eexists. reflexivity. }
  destruct (transformVariantJ data) as [e | variant]; simpl.
  { eexists. split; [reflexivity |]. eexists. reflexivity. }
  eexists. split; reflexivity.
Qed.

Lemma getVariant_malformed (id : string) (s : effects N) :
  invalid_id id = true ->
  getVariant w this id s = (Thrown (RaptorError ("Invalid variant ID: " +++ id)), s).
Proof. intros Hid. unfold getVariant. now rewrite Hid. Qed.

Lemma after_waits_0 id interval (s : effects N) :
  after_waits this 0 id interval s = s.
Proof.
  destruct s. unfold after_waits. simpl.
  rewrite app_nil_r, !Nat.add_0_r. reflexivity.
Qed.

Lemma after_waits_S k id interval (s : effects N) :
  after_waits this k id interval (after_waits this 1 id interval s)
  = after_waits this (S k) id interval s.
Proof.
  unfold after_waits. simpl. rewrite <- app_assoc.
  f_equal; lia.
Qed.

(** One pass of the loop of [waitForProcessing], by cases. *)
Lemma wait_iteration_run (id : string) (options : option (WaitOptions N St))
  (maxWait interval startTime : Z) (st : St) (s : effects N) :
  invalid_id id = false ->
  match variant_of_reply (status_reply w (polls s)) with
  | None =>
      exists e,
        wait_iteration w this id options maxWait interval startTime st s
        = (Thrown e, st, after_variant_request this id s)
  | Some variant0 =>
      match call_onProgress options variant0 st with
      | inl t =>
          wait_iteration w this id options maxWait interval startTime st s
          = (Thrown (HostThrown t), st, after_variant_request this id s)
      | inr (variant, st1) =>
          wait_iteration w this id options maxWait interval startTime st s
          = if is_str (prop variant "status") "completed"
            then (Returned (Finished variant), st1, after_variant_request this id s)
            else if is_str (prop variant "status") "failed"
            then (Thrown (RaptorError ("Processing failed: " +++
                                       toStringJS (prop variant "error"))),
                  st1, after_variant_request this id s)
            else if now w (ticks s) - startTime >? maxWait
            then (Thrown (RaptorError "Processing timeout"), st1,
                  after_tick (after_variant_request this id s))
            else (Returned Again, st1, after_waits this 1 id interval s)
      end
  end.
Proof.
  intros Hid. unfold wait_iteration.
  destruct (getVariant_run id s Hid) as (o & -> & Ho).
  destruct (variant_of_reply (status_reply w (polls s))) as [variant0 |].
  - subst o. destruct (call_onProgress options variant0 st) as [t | [variant st1]];
      [reflexivity |].
    destruct (is_str (prop variant "status") "completed"); [reflexivity |].
    destruct (is_str (prop variant "status") "failed"); [reflexivity |].
    unfold clock. simpl.
    destruct (now w (ticks s) - startTime >? maxWait); [reflexivity |].
    unfold after_sleep, after_waits, after_tick, wait_and_sleep. simpl.
    rewrite <- app_assoc, !Nat.add_1_r. reflexivity.
  - destruct Ho as [e ->]. eauto.
Qed.

Lemma still_processing_inv (r : thrown + Response N) :
  still_processing r = true ->
  exists variant,
    variant_of_reply r = Some variant /\
    is_str (prop variant "status") "completed" = false /\
    is_str (prop variant "status") "failed" = false.
Proof.
  unfold still_processing.
  destruct (variant_of_reply r) as [variant |]; [| discriminate].
  intros H. apply andb_true_iff in H. destruct H as [H1 H2].
  apply negb_true_iff in H1, H2. eauto.
Qed.

(** A callback that neither throws nor assigns to the variant. *)
Lemma callback_observes (options : option (WaitOptions N St)) :
  callback_total options ->
  callback_reads_only options ->
  forall variant st,
    exists st1, call_onProgress options variant st = inr (variant, st1).
Proof.
  intros Htotal Hreads variant st.
  destruct (Htotal variant st) as [[variant' st1] Hcall].
  rewrite (Hreads _ _ _ _ Hcall) in Hcall. eauto.
Qed.

(** [k] polls that find the variant neither [completed] nor [failed],
    with the clock within [maxWait] and a callback that neither throws nor
    assigns to the variant, take the loop [k] passes further. *)
Lemma wait_loop_skip (id : string) (options : option (WaitOptions N St))
  (maxWait interval startTime : Z) :
  invalid_id id = false ->
  callback_total options ->
  callback_reads_only options ->
  forall (k fuel : nat) (st : St) (s : effects N),
    (forall i, (i < k)%nat -> still_processing (status_reply w (polls s + i)) = true) ->
    (forall i, (i < k)%nat -> now w (ticks s + i) - startTime <= maxWait) ->
    wait_loop w this (k + fuel) id options maxWait interval startTime st s
    = wait_loop w this fuel id options maxWait interval startTime
        (notified w options (polls s) k st) (after_waits this k id interval s).
Proof.
  intros Hid Hcb Hro. induction k as [| k IH]; intros fuel st s Hp Ht.
  - rewrite after_waits_0. reflexivity.
  - change (S k + fuel)%nat with (S (k + fuel)). cbn [wait_loop notified].
    pose proof (wait_iteration_run id options maxWait interval startTime st s Hid)
      as Hrun.
    assert (H0 : still_processing (status_reply w (polls s)) = true).
    { specialize (Hp 0%nat). rewrite Nat.add_0_r in Hp. apply Hp. lia. }
    apply still_processing_inv in H0. destruct H0 as (variant & Hv & Hc & Hf).
    rewrite Hv in *.
    destruct (callback_observes options Hcb Hro variant st) as [st1 Hst1].
    rewrite Hst1 in *.
    rewrite Hc, Hf in Hrun.
    rewrite gtb_false in Hrun.
    2: { specialize (Ht 0%nat). rewrite Nat.add_0_r in Ht. apply Ht. lia. }
    rewrite Hrun. rewrite IH.
    + rewrite after_waits_S.
      replace (polls (after_waits this 1 id interval s)) with (S (polls s))
        by (simpl; lia).
      reflexivity.
    + intros i Hi.
      replace (polls (after_waits this 1 id interval s) + i)%nat
        with (polls s + S i)%nat by (simpl; lia).
      apply Hp. lia.
    + intros i Hi.
      replace (ticks (after_waits this 1 id interval s) + i)%nat
        with (ticks s + S i)%nat by (simpl; lia).
      apply Ht. lia.
Qed.

(** The loop in every world and with any callback: pairs of a request and
    a pause, then at most one more request; the callback has been run on
    the variant of every poll; the clock was within [maxWait] at every pass
    that went on; the loop returns the variant of its last poll as the
    callback left it. *)
Lemma wait_loop_shape (id : string) (options : option (WaitOptions N St))
  (maxWait interval startTime : Z) :
  invalid_id id = false ->
  forall (fuel : nat) (st : St) (s : effects N) o st' s',
    wait_loop w this fuel id options maxWait interval startTime st s = (o, st', s') ->
    exists (j : nat) (fin : bool),
      trace s' = trace s ++ repeat_events j (wait_and_sleep this id interval) ++
                 (if fin then [Fetch Status (variant_request this id)] else []) /\
      st' = notified w options (polls s) (j + (if fin then 1 else 0)) st /\
      (forall i, (i < j)%nat -> now w (ticks s + i) - startTime <= maxWait) /\
      (o = OutOfFuel -> j = fuel /\ fin = false) /\
      (forall variant, o = Returned variant ->
         fin = true /\
         is_str (prop variant "status") "completed" = true /\
         exists variant0 st1,
           variant_of_reply (status_reply w (polls s + j)) = Some variant0 /\
           call_onProgress options variant0 (notified w options (polls s) j st)
           = inr (variant, st1)).
Proof.
  intros Hid. induction fuel as [| fuel IH]; intros st s o st' s' Hrun.
  - cbn in Hrun. injection Hrun as <- <- <-.
    exists 0%nat, false. simpl. rewrite app_nil_r.
    split; [reflexivity |]. split; [reflexivity |].
    split; [intros i Hi; lia |]. split; [auto | discriminate].
  - cbn [wait_loop] in Hrun.
    pose proof (wait_iteration_run id options maxWait interval startTime st s Hid)
      as Hit.
    destruct (variant_of_reply (status_reply w (polls s))) as [variant0 |] eqn:Hv.
    2: { destruct Hit as [e Hit]. rewrite Hit in Hrun. injection Hrun as <- <- <-.
         exists 0%nat, true. simpl. rewrite Hv.
         split; [reflexivity |]. split; [reflexivity |].
         split; [intros i Hi; lia |]. split; discriminate. }
    destruct (call_onProgress options variant0 st) as [t | [variant st1]] eqn:Hcall.
    { rewrite Hit in Hrun. injection Hrun as <- <- <-.
      exists 0%nat, true. simpl. rewrite Hv, Hcall.
      split; [reflexivity |]. split; [reflexivity |].
      split; [intros i Hi; lia |]. split; discriminate. }
    destruct (is_str (prop variant "status") "completed") eqn:Hc.
    { rewrite Hit in Hrun. injection Hrun as <- <- <-.
      exists 0%nat, true. simpl. rewrite Hv, Hcall, Nat.add_0_r.
      split; [reflexivity |]. split; [reflexivity |].
      split; [intros i Hi; lia |]. split; [discriminate |].
      intros v Hret. injection Hret as <-.
      split; [reflexivity |]. split; [exact Hc |]. eauto. }
    destruct (is_str (prop variant "status") "failed") eqn:Hf.
    { rewrite Hit in Hrun. injection Hrun as <- <- <-.
      exists 0%nat, true. simpl. rewrite Hv, Hcall.
      split; [reflexivity |]. split; [reflexivity |].
      split; [intros i Hi; lia |]. split; discriminate. }
    destruct (Z.gtb_spec (now w (ticks s) - startTime) maxWait) as [Hgt | Hle].
    { rewrite Hit in Hrun. injection Hrun as <- <- <-.
      exists 0%nat, true. simpl. rewrite Hv, Hcall.
      split; [reflexivity |]. split; [reflexivity |].
      split; [intros i Hi; lia |]. split; discriminate. }
    rewrite Hit in Hrun. apply IH in Hrun.
    destruct Hrun as (j & fin & Htr & Hst & Htime & Hfuel & Hret).
    assert (Hpolls : polls (after_waits this 1 id interval s) = S (polls s))
      by (simpl; lia).
    rewrite Hpolls in Hst, Hret.
    assert (Hnot : forall n, notified w options (polls s) (S n) st
                             = notified w options (S (polls s)) n st1).
    { intros n. cbn [notified]. now rewrite Hv, Hcall. }
    exists (S j), fin. split; [| split; [| split; [| split]]].
    + rewrite Htr. simpl. rewrite <- !app_assoc. reflexivity.
    + rewrite Hst. cbn [Nat.add]. now rewrite Hnot.
    + intros i Hi. destruct i as [| i].
      * now rewrite Nat.add_0_r.
      * replace (ticks s + S i)%nat
          with (ticks (after_waits this 1 id interval s) + i)%nat by (simpl; lia).
        apply Htime. lia.
    + intros Ho. destruct (Hfuel Ho) as [-> ->]. auto.
    + intros v Ho. destruct (Hret v Ho) as (Hfin & Hdone & v0 & st2 & Hv0 & Hcall0).
      split; [exact Hfin |]. split; [exact Hdone |].
      exists v0, st2. rewrite Hnot.
      replace (polls s + S j)%nat with (S (polls s) + j)%nat by lia.
      auto.
Qed.

Lemma count_status_waits k id interval :
  count_fetch Status (repeat_events k (@wait_and_sleep N this id interval)) = k.
Proof. induction k as [| k IH]; simpl; [reflexivity | now rewrite IH]. Qed.

Lemma count_sleep_waits k id interval :
  count_sleep (repeat_events k (@wait_and_sleep N this id interval)) = k.
Proof. induction k as [| k IH]; simpl; [reflexivity | now rewrite IH]. Qed.

(** X22.  [waitForProcessing] has no ceiling on the number of polls: while the
    variant is neither [completed] nor [failed] and the clock stays within
    [maxWait], with a callback that neither throws nor assigns to the
    variant, it polls on, however many passes it is given, where [process]
    stops after [maxPollAttempts] requests. *)
Theorem waitForProcessing_no_attempt_ceiling (id : string)
  (options : option (WaitOptions N St)) (st : St) (fuel : nat) :
  isValidUUID id = true ->
  callback_total options ->
  callback_reads_only options ->
  (forall k, still_processing (status_reply w k) = true) ->
  (forall k, within_wait w (maxWait_of options) k = true) ->
  exists st' s',
    waitForProcessing w this fuel id options st no_effects = (OutOfFuel, st', s') /\
    count_fetch Status (trace s') = fuel /\
    count_sleep (trace s') = fuel.
Proof.
  intros Hid Hcb Hro Hp Ht.
  pose proof (invalid_id_wellformed id Hid) as Hinv.
  unfold waitForProcessing, clock. simpl.
  pose proof (wait_loop_skip id options (maxWait_of options)
                (waitInterval_of options) (now w 0) Hinv Hcb Hro fuel 0%nat st
                (after_tick no_effects)) as Hskip.
  rewrite Nat.add_0_r in Hskip. rewrite Hskip.
  - cbn [wait_loop]. eexists. eexists. split; [reflexivity |].
    simpl. rewrite count_status_waits, count_sleep_waits. auto.
  - intros i _. apply Hp.
  - intros i _. simpl. specialize (Ht (S i)). unfold within_wait in Ht.
    now apply Z.leb_le in Ht.
Qed.

(** X23.  Once the clock has passed [maxWait], [waitForProcessing] stops: if
    reading [K] of the clock (the first one sets [startTime]) is later than
    [maxWait], it returns or throws within [K] polls, whatever the world
    answers and whatever the callback does. *)
Theorem waitForProcessing_stops_after_maxWait (id : string)
  (options : option (WaitOptions N St)) (st : St) (fuel K : nat) :
  (1 <= K)%nat ->
  maxWait_of options < now w K - now w 0 ->
  (K <= fuel)%nat ->
  let r := waitForProcessing w this fuel id options st no_effects in
  fst (fst r) <> OutOfFuel /\
  (count_fetch Status (trace (snd r)) <= K)%nat.
Proof.
  intros HK Hlate Hfuel r. subst r.
  unfold waitForProcessing, clock. simpl.
  destruct (invalid_id id) eqn:Hinv.
  { destruct fuel as [| fuel]; [lia |].
    cbn [wait_loop]. unfold wait_iteration.
    rewrite (getVariant_malformed id _ Hinv). simpl.
    split; [discriminate | lia]. }
  destruct (wait_loop w this fuel id options (maxWait_of options)
              (waitInterval_of options) (now w 0) st (after_tick no_effects))
    as [[o st'] s'] eqn:Hrun.
  apply (wait_loop_shape id options _ _ _ Hinv) in Hrun.
  destruct Hrun as (j & fin & Htr & _ & Htime & Hout & _).
  simpl in Htr, Htime.
  assert (Hj : (j < K)%nat).
  { destruct (Nat.lt_ge_cases j K) as [Hlt | Hge]; [assumption |].
    specialize (Htime (K - 1)%nat).
    replace (S (K - 1)) with K in Htime by lia.
    assert (now w K - now w 0 <= maxWait_of options) by (apply Htime; lia).
    lia. }
  simpl. split.
  - intros Ho. destruct (Hout Ho) as [Hjf _]. lia.
  - rewrite Htr, count_fetch_app, count_status_waits.
    destruct fin; simpl; lia.
Qed.

(** X24.  [waitForProcessing] on polls that find the variant in progress [k]
    times and then [completed] or [failed], with a callback that neither
    throws nor assigns to the variant: it returns the completed variant
    after [k + 1] requests and [k] pauses, or throws with the variant's own
    [error] in the message (['undefined'] when the variant has none).  The
    clock is not read after the poll that ends the wait: a variant that is
    [completed] is returned even when [maxWait] has passed. *)
Theorem waitForProcessing_outcome (id : string)
  (options : option (WaitOptions N St)) (st : St) (fuel k : nat)
  (variant : value N) :
  isValidUUID id = true ->
  callback_total options ->
  callback_reads_only options ->
  (forall i, (i < k)%nat -> still_processing (status_reply w i) = true) ->
  (forall i, (i < k)%nat -> within_wait w (maxWait_of options) (S i) = true) ->
  variant_of_reply (status_reply w k) = Some variant ->
  (is_str (prop variant "status") "completed" ||
   is_str (prop variant "status") "failed")%bool = true ->
  (k < fuel)%nat ->
  let r := waitForProcessing w this fuel id options st no_effects in
  trace (snd r)
  = repeat_events k (wait_and_sleep this id (waitInterval_of options)) ++
    [Fetch Status (variant_request this id)] /\
  snd (fst r) = notified w options 0 (S k) st /\
  fst (fst r)
  = if is_str (prop variant "status") "completed"
    then Returned variant
    else Thrown (RaptorError ("Processing failed: " +++
                              toStringJS (prop variant "error"))).
Proof.
  intros Hid Hcb Hro Hp Ht Hv Hend Hfuel r. subst r.
  pose proof (invalid_id_wellformed id Hid) as Hinv.
  unfold waitForProcessing, clock. cbv beta iota zeta.
  change (ticks (@no_effects N)) with 0%nat.
  assert (Efuel : fuel = (k + S (fuel - S k))%nat) by lia.
  rewrite Efuel. clear Efuel.
  rewrite wait_loop_skip; auto.
  2: { intros i Hi. simpl. specialize (Ht i Hi). unfold within_wait in Ht.
       now apply Z.leb_le in Ht. }
  cbn [wait_loop].
  change (polls (@after_tick N no_effects)) with 0%nat.
  pose proof (wait_iteration_run id options (maxWait_of options)
                (waitInterval_of options) (now w 0)
                (notified w options 0 k st)
                (after_waits this k id (waitInterval_of options)
                   (after_tick no_effects)) Hinv) as Hit.
  simpl in Hit. rewrite Hv in Hit.
  assert (Hnot : forall st1,
            call_onProgress options variant (notified w options 0 k st)
            = inr (variant, st1) ->
            notified w options 0 (S k) st = st1).
  { intros st1 Hcall. clear -Hp Hcb Hro Hv Hcall.
    assert (Hgen : forall n from st0,
              (forall i, (i < n)%nat ->
                 still_processing (status_reply w (from + i)) = true) ->
              variant_of_reply (status_reply w (from + n)) = Some variant ->
              forall st2,
                call_onProgress options variant (notified w options from n st0)
                = inr (variant, st2) ->
                notified w options from (S n) st0 = st2).
    { induction n as [| n IH]; intros from st0 Hpn Hvn st2 Hc2.
      - simpl in *. rewrite Nat.add_0_r in Hvn. now rewrite Hvn, Hc2.
      - assert (H0 : still_processing (status_reply w from) = true).
        { specialize (Hpn 0%nat). rewrite Nat.add_0_r in Hpn. apply Hpn. lia. }
        apply still_processing_inv in H0. destruct H0 as (v0 & Hv0 & _).
        destruct (callback_observes options Hcb Hro v0 st0) as [st3 Hst3].
        change (notified w options from (S (S n)) st0)
          with (match variant_of_reply (status_reply w from) with
                | Some v =>
                    match call_onProgress options v st0 with
                    | inr (_, st') => notified w options (S from) (S n) st'
                    | inl _ => st0
                    end
                | None => st0
                end).
        rewrite Hv0, Hst3.
        apply IH.
        + intros i Hi. replace (S from + i)%nat with (from + S i)%nat by lia.
          apply Hpn. lia.
        + replace (S from + n)%nat with (from + S n)%nat by lia. assumption.
        + cbn [notified] in Hc2. now rewrite Hv0, Hst3 in Hc2. }
    apply (Hgen k 0%nat st); auto. }
  destruct (callback_observes options Hcb Hro variant (notified w options 0 k st))
    as [st1 Hst1].
  rewrite Hst1 in Hit. rewrite Hit. rewrite (Hnot st1 Hst1).
  destruct (is_str (prop variant "status") "completed") eqn:Hc.
  { simpl. repeat split; reflexivity. }
  destruct (is_str (prop variant "status") "failed") eqn:Hf; [| discriminate].
  simpl. repeat split; reflexivity.
Qed.

(** X25.  In every world, with any callback, [waitForProcessing] has run the
    callback once on the variant of each of its polls, in the order of the
    polls and before it looks at the status.  A variant it returns is the
    object of its last poll as the callback left it, and reads [completed]
    then; it is the variant decoded from the reply when the callback
    assigns to none of its properties. *)
Theorem waitForProcessing_notifies (id : string)
  (options : option (WaitOptions N St)) (st : St) (fuel : nat) :
  let r := waitForProcessing w this fuel id options st no_effects in
  snd (fst r) = notified w options 0 (count_fetch Status (trace (snd r))) st /\
  (forall variant,
     fst (fst r) = Returned variant ->
     exists k variant0 st1,
       count_fetch Status (trace (snd r)) = S k /\
       variant_of_reply (status_reply w k) = Some variant0 /\
       call_onProgress options variant0 (notified w options 0 k st)
       = inr (variant, st1) /\
       is_str (prop variant "status") "completed" = true /\
       (callback_reads_only options -> variant = variant0)).
Proof.
  intros r. subst r.
  unfold waitForProcessing, clock. simpl.
  destruct (invalid_id id) eqn:Hinv.
  { destruct fuel as [| fuel]; [simpl; split; [reflexivity | discriminate] |].
    cbn [wait_loop]. unfold wait_iteration.
    rewrite (getVariant_malformed id _ Hinv). simpl.
    split; [reflexivity | discriminate]. }
  destruct (wait_loop w this fuel id options (maxWait_of options)
              (waitInterval_of options) (now w 0) st (after_tick no_effects))
    as [[o st'] s'] eqn:Hrun.
  apply (wait_loop_shape id options _ _ _ Hinv) in Hrun.
  destruct Hrun as (j & fin & Htr & Hst & _ & _ & Hret).
  simpl in Htr, Hst, Hret. simpl.
  assert (Hcount : count_fetch Status (trace s') = (j + (if fin then 1 else 0))%nat).
  { rewrite Htr, count_fetch_app, count_status_waits. destruct fin; reflexivity. }
  rewrite Hcount. split; [assumption |].
  intros variant Ho.
  destruct (Hret variant Ho) as (-> & Hc & variant0 & st1 & Hv & Hcall).
  exists j, variant0, st1.
  split; [lia |]. split; [exact Hv |]. split; [exact Hcall |].
  split; [exact Hc |].
  intros Hro. exact (Hro _ _ _ _ Hcall).
Qed.

End WaitProofs.

(* ================================================================== *)
(** * Part III: the theorems at concrete inputs *)
(* ================================================================== *)

(** ** The helpers on small inputs *)

Example getMimeType_examples :
  getMimeType "Report.PDF" = Own "application/pdf" /\
  getMimeType "archive.tar.gz" = Own "application/octet-stream" /\
  getMimeType "README" = Own "application/octet-stream" /\
  getMimeType "notes." = Own "application/octet-stream" /\
  getMimeType "md" = Own "text/markdown" /\
  getMimeType "x.constructor" = Inherited "constructor" /\
  getMimeType "x.__PROTO__" = Inherited "__proto__" /\
  getMimeType "x.toString" = Own "application/octet-stream".
Proof. repeat split; reflexivity. Qed.

Example Blob_type_examples :
  Blob_type (getMimeType "Report.PDF") = "application/pdf" /\
  Blob_type (getMimeType "x.constructor") = "function object() { [native code] }" /\
  Blob_type (getMimeType "x.__proto__") = "[object object]".
Proof. repeat split; reflexivity. Qed.

Example Num_examples :
  Z_toString ZNum 42 = "42" /\
  Z_toString ZNum (- 7) = "-7" /\
  Z_toString ZNum (10 ^ 20) = "100000000000000000000" /\
  Z_toString ZNum (10 ^ 21) = "1e+21" /\
  Z_toString ZNum (- 10 ^ 21) = "-1e+21" /\
  Z_toString ZNum (12 * 10 ^ 22) = "1.2e+23" /\
  Num_toString ZNum NaN = "NaN" /\
  Num_or (Some NaN) (Finite 300) = Finite 300 /\
  Num_or (Some Infinity) (Finite 300) = Infinity /\
  Num_gtb (Finite 5000) Infinity = false /\
  Num_gtb (Finite 1) NaN = false /\
  Num_gtb (Finite 1) NegInfinity = true.
Proof. repeat split; reflexivity. Qed.

Example strip_trailing_slash_examples :
  strip_trailing_slash "http://localhost:8000/" = "http://localhost:8000" /\
  strip_trailing_slash "https://a.b//" = "https://a.b/" /\
  strip_trailing_slash "/" = EmptyString /\
  strip_trailing_slash "https://a.b" = "https://a.b".
Proof. repeat split; reflexivity. Qed.

Example isValidUUID_examples :
  isValidUUID "123e4567-e89b-12d3-a456-426614174000" = true /\
  isValidUUID "123E4567-E89B-12D3-A456-426614174000" = true /\
  isValidUUID "123e4567-e89b-12d3-a456-4266141740000" = false /\
  isValidUUID "variant-1" = false /\
  isValidUUID EmptyString = false.
Proof. repeat split; reflexivity. Qed.

Example matches_172_private_examples :
  matches_172_private "172.16.0.1" = true /\
  matches_172_private "172.31.255.255" = true /\
  matches_172_private "172.32.0.1" = false /\
  matches_172_private "172.1.0.1" = false.
Proof. repeat split; reflexivity. Qed.

Example toStringJS_examples :
  toStringJS (VArr [VStr "a"; VNull; VNum (zn 3); VArr [VBool true]] : value ZNum)
  = "a,,3,true" /\
  toStringJS (VObj [("detail", VStr "x")] : value ZNum) = "[object Object]" /\
  toStringJS (VUndefined : value ZNum) = "undefined".
Proof. repeat split; reflexivity. Qed.

Example constructor_defaults :
  constructor ZNum example_URL_parse example_config = inr example_client.
Proof. reflexivity. Qed.

Example file_part_directory :
  file_part {| window_defined := false;
               statSync_isFile := fun _ => inr false;
               readFileSync := fun _ => inr "content";
               basename := fun p => p;
               upload_reply := ok_response example_upload;
               status_reply := fun _ => inl HostValue;
               chunks_reply := inl HostValue;
               now := fun _ => 0 |} (SrcPath "docs")
  = inl (RaptorError "Failed to access file: Path is not a file: docs").
Proof. reflexivity. Qed.

(** ** The claims on concrete inputs *)

(** Discharge a hypothesis of a theorem at a concrete input by evaluation. *)
Ltac by_evaluation :=
  match goal with
  | |- _ = _ => reflexivity
  | |- _ <> _ => discriminate
  | |- (_ <= _)%nat => apply Nat.leb_le; reflexivity
  | |- (_ < _)%nat => apply Nat.ltb_lt; reflexivity
  | |- _ <= _ => apply Z.leb_le; reflexivity
  | |- forall k : nat, (_ < _)%nat -> _ =>
      let k := fresh "k" in let H := fresh "H" in
      intros k H; repeat (destruct k as [| k]; [reflexivity |]);
      exfalso; revert H; apply Nat.lt_nge, Nat.leb_le; reflexivity
  | |- forall k : nat, (_ <= _)%nat -> _ =>
      let k := fresh "k" in let H := fresh "H" in
      intros k H; repeat (destruct k as [| k]; [reflexivity |]);
      exfalso; revert H; apply Nat.lt_nge, Nat.ltb_lt; reflexivity
  | |- forall k : nat, _ =>
      let k := fresh "k" in
      intros k; destruct k; reflexivity
  end.

Lemma process_without_wait_witness :
  exists result s,
    process (mock_world [] "processing" (ok_response example_chunks))
      example_client 0 (SrcBlob example_blob) (set_wait false no_options)
      no_effects = (Returned result, s) /\
    prop result "variantId" = VStr "variant-1" /\
    prop result "chunks" = VArr [] /\
    prop result "metadata" = VArr [] /\
    count_fetch Status (trace s) = 0%nat /\
    count_fetch Chunks (trace s) = 0%nat.
Proof.
  destruct (process_without_wait ZNum
              (mock_world [] "processing" (ok_response example_chunks))
              example_client 0 (SrcBlob example_blob) (set_wait false no_options)
              (FormFile example_blob None) ok_upload example_upload)
    as (result & s & Hrun & Hres & Hvid & _ & Hch & Hmd & _ & _ & _ & Hst & Hck & _);
    try by_evaluation.
  exists result, s. repeat split; assumption.
Defined.


Lemma process_three_polls_witness :
  exists result s,
    process (mock_world ["pending"; "processing"; "completed"] "completed"
               (ok_response example_chunks))
      example_client 3 (SrcBlob example_blob) (set_ceilings 10 300 no_options)
      no_effects = (Returned result, s) /\
    (exists texts, prop result "chunks" = VArr texts /\ length texts = 2%nat) /\
    (exists metadata, prop result "metadata" = VArr metadata /\
                      length metadata = 2%nat) /\
    count_fetch Status (trace s) = 3%nat /\
    count_fetch Chunks (trace s) = 1%nat.
Proof.
  destruct (process_three_polls ZNum
              (mock_world ["pending"; "processing"; "completed"] "completed"
                 (ok_response example_chunks))
              example_client 3 (SrcBlob example_blob)
              (set_ceilings 10 300 no_options)
              (FormFile example_blob None) ok_upload example_upload
              {| ok := true; status := 200; statusText := "OK";
                 json := inr example_chunks |}
              example_chunks
              [ VObj [("id", VStr "c0"); ("text", VStr "first"); ("tokens", VNum (zn 1))];
                VObj [("id", VStr "c1"); ("text", VStr "second"); ("tokens", VNum (zn 1))] ])
    as (result & texts & metadata & s & Hrun & Hc & Hm & Hlt & Hlm & _ & _ & _ & Hst & Hck);
    try by_evaluation.
  exists result, s. split; [exact Hrun |].
  split; [exists texts; auto |]. split; [exists metadata; auto |]. auto.
Defined.

Lemma process_failed_status_witness :
  exists s,
    process (mock_world ["pending"; "failed"] "failed" (ok_response example_chunks))
      example_client 2 (SrcBlob example_blob) no_options no_effects
    = (Thrown (RaptorError "Processing failed: out of memory"), s) /\
    count_fetch Status (trace s) = 2%nat /\
    count_fetch Chunks (trace s) = 0%nat.
Proof.
  destruct (process_failed_status ZNum
              (mock_world ["pending"; "failed"] "failed" (ok_response example_chunks))
              example_client 2 (SrcBlob example_blob) no_options
              (FormFile example_blob None) ok_upload example_upload 1
              (VObj [("status", VStr "failed"); ("error", VStr "out of memory")]))
    as ((s & Hrun & Hst & Hck) & _);
    try by_evaluation.
  exists s. auto.
Defined.

Lemma process_two_attempts_witness :
  (exists s,
     process (mock_world [] "processing" (ok_response example_chunks))
       example_client 3 (SrcBlob example_blob) (set_ceilings 10 2 no_options)
       no_effects
     = (Thrown (RaptorError "Processing timeout: exceeded 2 polling attempts"), s) /\
     count_fetch Status (trace s) = 2%nat) /\
  (exists s,
     process (mock_world [] "processing" (ok_response example_chunks))
       example_client 3 (SrcBlob example_blob) clock_bound_options no_effects
     = (Thrown (RaptorError "Processing timeout: exceeded 1500ms"), s) /\
     count_fetch Status (trace s) = 1%nat).
Proof.
  split.
  - destruct (process_two_attempts ZNum
                (mock_world [] "processing" (ok_response example_chunks))
                example_client 3 (SrcBlob example_blob)
                (set_ceilings 10 2 no_options)
                (FormFile example_blob None) ok_upload example_upload)
      as (Htwo & _);
      try by_evaluation.
    destruct Htwo as (s & Hrun & _ & Hst & _); try by_evaluation.
    exists s. auto.
  - destruct (process_two_attempts ZNum
                (mock_world [] "processing" (ok_response example_chunks))
                example_client 3 (SrcBlob example_blob) clock_bound_options
                (FormFile example_blob None) ok_upload example_upload)
      as (_ & Hgeneral & _);
      try by_evaluation.
    destruct (Hgeneral 1%nat) as [_ Htime];
      [intros i _; reflexivity | by_evaluation | by_evaluation |].
    destruct Htime as (s & Hrun & Hst & _); try by_evaluation.
    exists s. auto.
Defined.

Lemma processStream_events_witness :
  exists s,
    processStream (mock_world ["processing"; "completed"] "completed"
                     (ok_response example_chunks))
      example_client 2 (SrcBlob example_blob) no_options no_effects
    = (Returned tt, s) /\
    yields (trace s)
    = [ {| stage := "upload"; percent := 0;
           message := "Uploading document..."; variantId := None |};
        {| stage := "upload"; percent := 100;
           message := "Upload complete"; variantId := Some (VStr "variant-1") |};
        {| stage := "processing"; percent := 50;
           message := "Document processing...";
           variantId := Some (VStr "variant-1") |};
        {| stage := "complete"; percent := 100;
           message := "Processing complete";
           variantId := Some (VStr "variant-1") |} ].
Proof.
  destruct (processStream_events ZNum
              (mock_world ["processing"; "completed"] "completed"
                 (ok_response example_chunks))
              example_client 2 (SrcBlob example_blob) no_options
              (FormFile example_blob None) ok_upload example_upload)
    as (_ & Hseq & _);
    try by_evaluation.
  destruct Hseq as (s & Hrun & Hy & _); try by_evaluation.
  exists s. auto.
Defined.

Lemma undecodable_body_raises_witness :
  fst (process
         (with_upload (inr undecodable_response)
            (mock_world [] "processing" (ok_response example_chunks)))
         example_client 1 (SrcBlob example_blob) no_options no_effects)
  = Thrown (RaptorError
              "Failed to parse upload response: Unexpected token < in JSON at position 0") /\
  (exists s,
     process
       (with_status (fun _ => inr undecodable_response)
          (mock_world [] "processing" (ok_response example_chunks)))
       example_client 1 (SrcBlob example_blob) no_options no_effects
     = (Thrown (RaptorError
                  "Failed to parse status response: Unexpected token < in JSON at position 0"),
        s) /\
     count_fetch Status (trace s) = 1%nat /\
     count_fetch Chunks (trace s) = 0%nat).
Proof.
  split.
  - destruct (undecodable_body_raises ZNum
                (with_upload (inr undecodable_response)
                   (mock_world [] "processing" (ok_response example_chunks)))
                example_client 1 (SrcBlob example_blob) no_options
                (FormFile example_blob None) eq_refl) as [Hupload _].
    destruct (Hupload undecodable_response
                (HostError "Unexpected token < in JSON at position 0" None)
                eq_refl eq_refl eq_refl)
      as (s & Hrun & _).
    rewrite Hrun. reflexivity.
  - destruct (undecodable_body_raises ZNum
                (with_status (fun _ => inr undecodable_response)
                   (mock_world [] "processing" (ok_response example_chunks)))
                example_client 1 (SrcBlob example_blob) no_options
                (FormFile example_blob None) eq_refl) as (_ & Hpoll & _).
    destruct (Hpoll ok_upload example_upload 0%nat) as [Hstatus _];
      try (intros i H;
           first [exfalso; lia | replace i with 0%nat by lia; reflexivity]);
      try by_evaluation.
    apply (Hstatus undecodable_response
             (HostError "Unexpected token < in JSON at position 0" None));
      reflexivity.
Defined.

Lemma constructor_validates_witness :
  exists msg,
    constructor ZNum example_URL_parse
      {| cfg_apiKey := "rd_live_xxx";
         cfg_baseUrl := Some "http://localhost:8000/";
         cfg_timeout := None;
         cfg_maxPollAttempts := None;
         cfg_pollTimeout := None;
         cfg_dangerouslyAllowLocalhost := None |}
    = inl (RaptorError msg).
Proof.
  destruct (constructor_validates ZNum example_URL_parse
              {| cfg_apiKey := "rd_live_xxx";
                 cfg_baseUrl := Some "http://localhost:8000/";
                 cfg_timeout := None;
                 cfg_maxPollAttempts := None;
                 cfg_pollTimeout := None;
                 cfg_dangerouslyAllowLocalhost := None |})
    as (_ & _ & _ & Hlocal & _).
  apply (Hlocal {| protocol := "http:"; hostname := "localhost" |});
    [reflexivity | left; reflexivity | reflexivity].
Defined.


(** C9 fails as stated: a 2xx chunks response that decodes but has no
    [chunks] array gives a result with no chunks, not an error, from
    [process] and from [getChunks]; and [getChunks] lets the error of the
    decoder through as it is, where [process] wraps it. *)
Lemma missing_chunks_array_is_silent :
  reply_body (chunks_reply
                (mock_world ["completed"] "completed" (ok_response chunks_without_array)))
  = Some chunks_without_array /\
  prop chunks_without_array "chunks" = VUndefined /\
  fst (process (mock_world ["completed"] "completed" (ok_response chunks_without_array))
         example_client 1 (SrcBlob example_blob) no_options no_effects)
  = Returned (process_result example_upload [] []) /\
  fst (getChunks (mock_world [] "completed" (ok_response chunks_without_array))
         example_client example_id None no_effects)
  = Returned (VObj [("chunks", VArr []); ("total", VNum (zn 0))]) /\
  fst (getChunks (mock_world [] "completed" (inr undecodable_response))
         example_client example_id None no_effects)
  = Thrown (HostThrown (HostError "Unexpected token < in JSON at position 0" None)).
Proof. repeat split; vm_compute; reflexivity. Qed.

Example falsy_values_transmitted :
  map (transmitted (upload_request example_client (FormFile example_blob None)
                      falsy_options))
    [F_chunkSize; F_processImages; F_strategy; F_versionLabel; F_autoLink;
     F_autoLinkThreshold]
  = [Some "0"; Some "false"; None; Some EmptyString; Some "false"; Some "0"].
Proof. reflexivity. Qed.

Lemma transformVariant_round_trip_witness :
  strategy_representable
    (Backend.strategy (Backend.config (variant_with_strategy (Some "recursive")))) = true /\
  untransformVariant (transformVariant (variant_with_strategy (Some "recursive")))
  = variant_with_strategy (Some "recursive").
Proof.
  split; [reflexivity |].
  apply (transformVariant_round_trip ZNum). reflexivity.
Defined.

(** ** The further helpers on small inputs *)

Example trim_examples :
  trim "  a b  " = "a b" /\
  trim "   " = EmptyString /\
  trim "x" = "x" /\
  trim EmptyString = EmptyString.
Proof. repeat split; reflexivity. Qed.

Example uuid_shaped_examples :
  uuid_shaped example_id = true /\
  uuid_shaped " 123e4567-e89b-12d3-a456-426614174000" = false /\
  uuid_shaped "123e4567e89b12d3a456426614174000" = false.
Proof. repeat split; reflexivity. Qed.

Example transformVariantJ_examples :
  transformVariantJ (VObj [("status", VStr "processing")] : value ZNum)
  = inl TypeError /\
  transformVariantJ (VNull : value ZNum) = inl TypeError /\
  transformVariantJ (wire_variant (variant_with_strategy (Some "fixed")))
  = transformVariantJ (wire_variant (variant_with_strategy None)).
Proof. repeat split; reflexivity. Qed.

Example listDocuments_defaults :
  fst (listDocuments example_client {| ld_limit := None; ld_offset := None |}
         (ok_response (VArr [])))
  = [get_request example_client "https://api.raptordata.dev/api/documents"
       (Some [("limit", "20"); ("offset", "0")])] /\
  snd (listDocuments example_client
         {| ld_limit := Some (Finite 0); ld_offset := None |}
         (ok_response (VArr [])))
  = inl (RaptorError "Limit must be between 1 and 100") /\
  fst (listDocuments example_client
         {| ld_limit := Some NaN; ld_offset := Some Infinity |}
         (ok_response (VArr [])))
  = [get_request example_client "https://api.raptordata.dev/api/documents"
       (Some [("limit", "NaN"); ("offset", "Infinity")])].
Proof. repeat split; reflexivity. Qed.

Example getVersion_exponent :
  fst (getVersion example_client example_id (- 10 ^ 21) (ok_response (VObj [])))
  = [get_request example_client
       ("https://api.raptordata.dev/api/documents/" +++ example_id +++
        "/versions/-1e+21") None].
Proof. reflexivity. Qed.

(** A callback that marks the variant as completed ends the wait at the
    first poll, whatever the server reports. *)
Example waitForProcessing_marked_completed :
  exists variant s,
    waitForProcessing (variant_world [] "processing" frozen_clock)
      example_client 5 example_id marking_completed tt no_effects
    = (Returned variant, tt, s) /\
    prop variant "status" = VStr "completed" /\
    variant_of_reply
      (status_reply (variant_world [] "processing" frozen_clock) 0)
    <> Some variant /\
    count_fetch Status (trace s) = 1%nat.
Proof.
  eexists. eexists. split; [reflexivity |].
  split; [reflexivity |]. split; [discriminate | reflexivity].
Qed.

(** The bodies that are enough for a poll of [process] are not enough for
    [getVariant]: without a [config] it fails with a [TypeError]. *)
Example waitForProcessing_status_only_body :
  fst (fst (waitForProcessing
              (mock_world [] "processing" (ok_response example_chunks))
              example_client 1 example_id None tt no_effects))
  = Thrown TypeError.
Proof. reflexivity. Qed.

(** ** The further properties on concrete inputs *)

Lemma constructor_trailing_slash_witness :
  constructor ZNum example_URL_parse
    (with_baseUrl (Some "https://api.raptordata.dev/") example_config)
  = constructor ZNum example_URL_parse
      (with_baseUrl (Some "https://api.raptordata.dev") example_config) /\
  effective_baseUrl (with_baseUrl (Some "https://api.raptordata.dev//") example_config)
  = "https://api.raptordata.dev/".
Proof.
  exact (constructor_trailing_slash ZNum example_URL_parse example_config
           "https://api.raptordata.dev" eq_refl).
Defined.

Lemma process_chunks_after_completion_witness :
  upload_accepted (mock_world ["pending"; "completed"] "completed"
                     (ok_response example_chunks)) = true /\
  exists k,
    count_fetch Status
      (trace (snd (process (mock_world ["pending"; "completed"] "completed"
                              (ok_response example_chunks))
                     example_client 3 (SrcBlob example_blob) no_options no_effects)))
    = S k /\
    reply_status_is "completed"
      (status_reply (mock_world ["pending"; "completed"] "completed"
                       (ok_response example_chunks)) k) = true.
Proof.
  apply (process_chunks_after_completion ZNum
           (mock_world ["pending"; "completed"] "completed" (ok_response example_chunks))
           example_client 3 (SrcBlob example_blob) no_options).
  reflexivity.
Defined.

Lemma process_returns_parallel_lists_witness :
  exists body texts metadata,
    reply_body (upload_reply (mock_world ["completed"] "completed"
                                (ok_response example_chunks))) = Some body /\
    fst (process (mock_world ["completed"] "completed" (ok_response example_chunks))
           example_client 1 (SrcBlob example_blob) no_options no_effects)
    = Returned (process_result body texts metadata) /\
    length texts = length metadata.
Proof.
  edestruct (process_returns_parallel_lists ZNum
               (mock_world ["completed"] "completed" (ok_response example_chunks))
               example_client 1 (SrcBlob example_blob) no_options)
    as (body & texts & metadata & Hb & _ & Hr & Hl & _).
  - reflexivity.
  - exists body, texts, metadata. rewrite <- Hr. auto.
Defined.

Lemma process_submission_failure_witness :
  (exists e,
     fst (process (with_upload (inl (HostError "connect ECONNREFUSED" None))
                     (mock_world [] "processing" (ok_response example_chunks)))
            example_client 5 (SrcBlob example_blob) no_options no_effects)
     = Thrown e) /\
  count_fetch Status
    (trace (snd (process (with_upload (inl (HostError "connect ECONNREFUSED" None))
                            (mock_world [] "processing" (ok_response example_chunks)))
                   example_client 5 (SrcBlob example_blob) no_options no_effects)))
  = 0%nat.
Proof.
  destruct (process_submission_failure ZNum
              (with_upload (inl (HostError "connect ECONNREFUSED" None))
                 (mock_world [] "processing" (ok_response example_chunks)))
              example_client 5 (SrcBlob example_blob) no_options eq_refl)
    as (He & Hs & _).
  split; assumption.
Defined.

Lemma upload_failure_report_witness :
  fst (process (with_upload
                  (inr (error_response 413 "Payload Too Large"
                          (VObj [("detail", VStr "File too large")])))
                  (mock_world [] "processing" (ok_response example_chunks)))
         example_client 0 (SrcBlob example_blob) no_options no_effects)
  = Thrown (RaptorAPIError "Upload failed: File too large" 413
              (VObj [("detail", VStr "File too large")])).
Proof.
  destruct (upload_failure_report ZNum
              (with_upload
                 (inr (error_response 413 "Payload Too Large"
                         (VObj [("detail", VStr "File too large")])))
                 (mock_world [] "processing" (ok_response example_chunks)))
              example_client 0 (SrcBlob example_blob) no_options
              (FormFile example_blob None)
              (error_response 413 "Payload Too Large"
                 (VObj [("detail", VStr "File too large")]))
              eq_refl eq_refl eq_refl)
    as (msg & Hrun & _ & Hbody).
  destruct (Hbody _ eq_refl) as (_ & _ & Hd & _).
  rewrite Hrun, (Hd "File too large" eq_refl); [reflexivity | discriminate].
Defined.

Lemma process_uploads_checked_file_witness :
  includes ".." "report.pdf" = false /\
  file_part (mock_world [] "processing" (ok_response example_chunks))
    (SrcPath "report.pdf")
  = inr (FormFile {| blob_data := "content"; blob_type := "application/pdf" |}
           (Some "report.pdf")) /\
  file_part (mock_world [] "processing" (ok_response example_chunks))
    (SrcPath "x.constructor")
  = inr (FormFile {| blob_data := "content";
                     blob_type := "function object() { [native code] }" |}
           (Some "x.constructor")).
Proof.
  destruct (process_uploads_checked_file ZNum
              (mock_world [] "processing" (ok_response example_chunks))
              example_client 0 "report.pdf" no_options eq_refl)
    as (_ & _ & Hdots & _ & _ & data & type & Hread & Hfile & Htype & _).
  destruct (process_uploads_checked_file ZNum
              (mock_world [] "processing" (ok_response example_chunks))
              example_client 0 "x.constructor" no_options eq_refl)
    as (_ & _ & _ & _ & _ & data' & type' & Hread' & Hfile' & Htype' & _).
  split; [exact Hdots |]. split.
  - rewrite Hfile, Htype. injection Hread as <-. reflexivity.
  - rewrite Hfile', Htype'. injection Hread' as <-. reflexivity.
Defined.

Lemma processStream_polls_without_variant_id_witness :
  exists rest,
    map (fun p => req_url (snd p))
      (requests
         (trace (snd (processStream
                        (with_upload (ok_response (VObj [("document_id", VStr "document-1")]))
                           (mock_world [] "processing" (ok_response example_chunks)))
                        example_client 1 (SrcBlob example_blob) no_options
                        no_effects))))
    = "https://api.raptordata.dev/api/documents" ::
      "https://api.raptordata.dev/api/documents/variants/undefined" :: rest.
Proof.
  destruct (processStream_polls_without_variant_id ZNum
              (with_upload (ok_response (VObj [("document_id", VStr "document-1")]))
                 (mock_world [] "processing" (ok_response example_chunks)))
              example_client 1 (SrcBlob example_blob) no_options
              (FormFile example_blob None)
              {| ok := true; status := 200; statusText := "OK";
                 json := inr (VObj [("document_id", VStr "document-1")]) |}
              (VObj [("document_id", VStr "document-1")]))
    as ((rest & Hreq) & _ & _);
    try reflexivity; try (apply Z.leb_le; reflexivity);
    try (apply Nat.leb_le; reflexivity).
  exists (map (fun p => req_url (snd p)) rest). rewrite Hreq. reflexivity.
Defined.

Lemma processStream_ignores_poll_http_status_witness :
  fst (processStream
         (with_status (fun _ => inr (error_response 500 "Internal Server Error"
                                       (VObj [("status", VStr "completed")])))
            (mock_world [] "processing" (ok_response example_chunks)))
         example_client 1 (SrcBlob example_blob) no_options no_effects)
  = Returned tt /\
  fst (process
         (with_status (fun _ => inr (error_response 500 "Internal Server Error"
                                       (VObj [("status", VStr "completed")])))
            (mock_world [] "processing" (ok_response example_chunks)))
         example_client 1 (SrcBlob example_blob) no_options no_effects)
  = Thrown (RaptorAPIError "Status check failed: Internal Server Error" 500
              (VObj [("status", VStr "completed")])).
Proof.
  destruct (processStream_ignores_poll_http_status ZNum
              (with_status (fun _ => inr (error_response 500 "Internal Server Error"
                                            (VObj [("status", VStr "completed")])))
                 (mock_world [] "processing" (ok_response example_chunks)))
              example_client 1 (SrcBlob example_blob) no_options
              (FormFile example_blob None) (FormFile example_blob None)
              ok_upload example_upload
              (error_response 500 "Internal Server Error"
                 (VObj [("status", VStr "completed")]))
              (VObj [("status", VStr "completed")]))
    as (Hs & _ & Hp & _);
    try reflexivity; try discriminate; try (apply Z.leb_le; reflexivity);
    try (apply Nat.leb_le; reflexivity).
  split; [exact Hs | exact Hp].
Defined.

Lemma getChunks_result_witness :
  exists chunks s,
    getChunks (mock_world [] "processing" (ok_response example_chunks))
      example_client example_id None no_effects
    = (Returned (VObj [("chunks", VArr chunks); ("total", VNum (zn 2))]), s) /\
    length chunks = 2%nat /\
    count_fetch Chunks (trace s) = 1%nat.
Proof.
  destruct (getChunks_result ZNum
              (mock_world [] "processing" (ok_response example_chunks))
              example_client example_id None no_effects
              {| ok := true; status := 200; statusText := "OK";
                 json := inr example_chunks |}
              example_chunks
              [ VObj [("id", VStr "c0"); ("text", VStr "first"); ("tokens", VNum (zn 1))];
                VObj [("id", VStr "c1"); ("text", VStr "second"); ("tokens", VNum (zn 1))] ]
              eq_refl eq_refl eq_refl eq_refl eq_refl eq_refl)
    as (chunks & Hrun & Hl & _).
  exists chunks. eexists. split; [exact Hrun |]. split; [exact Hl | reflexivity].
Defined.

Lemma malformed_id_sends_nothing_witness :
  getChunks (mock_world [] "processing" (ok_response example_chunks))
    example_client "variant-1" None no_effects
  = (Thrown (RaptorError "Invalid variant ID: variant-1"), no_effects) /\
  getDocument example_client (zn 1) "variant-1" None (ok_response (VObj flat_document))
  = ([], inl (RaptorError "Invalid document ID: variant-1")).
Proof.
  destruct (malformed_id_sends_nothing ZNum
              (mock_world [] "processing" (ok_response example_chunks))
              example_client (zn 1) "variant-1" eq_refl)
    as (Hc & _ & Hd & _).
  split; [apply Hc | apply Hd].
Defined.

Lemma version_number_checked_on_writes_witness :
  fst (deleteVersion example_client example_id 0 (ok_response (VObj flat_document)))
  = [] /\
  map req_url
    (fst (getVersion example_client example_id 0 (ok_response (VObj flat_document))))
  = ["https://api.raptordata.dev/api/documents/123e4567-e89b-12d3-a456-426614174000/versions/0"].
Proof.
  destruct (version_number_checked_on_writes ZNum example_client example_id 0
              (ok_response (VObj flat_document)))
    as (Hd & _ & Hv); [lia |].
  destruct (Hv eq_refl) as (_ & _ & Hg).
  split; [exact Hd |]. rewrite Hg. reflexivity.
Defined.

Lemma deleteDocument_trims_witness :
  deleteDocument example_client
    ("  123e4567-e89b-12d3-a456-426614174000 ") (ok_response (VObj flat_document))
  = deleteDocument example_client example_id (ok_response (VObj flat_document)) /\
  deleteDocument example_client "   " (ok_response (VObj flat_document))
  = ([], inl (RaptorError "Document ID is required")).
Proof.
  destruct (deleteDocument_trims ZNum example_client (zn 1) "  " " " example_id
              (ok_response (VObj flat_document)) eq_refl eq_refl eq_refl)
    as (Hsame & _ & _ & Hblank).
  split; [exact Hsame | exact Hblank].
Defined.

Lemma getDocument_flat_response_witness :
  (exists result,
     snd (getDocument example_client (zn 1) example_id None
            (ok_response (VObj flat_document))) = inr result /\
     prop result "variants" = VArr [] /\
     prop result "documentId" = VStr example_id /\
     prop result "versionNumber" = VNum (zn 1)) /\
  snd (getVersion example_client example_id 1 (ok_response (VObj flat_document)))
  = inl TypeError.
Proof.
  destruct (getDocument_flat_response ZNum example_client (zn 1) example_id 1 None
              {| ok := true; status := 200; statusText := "OK";
                 json := inr (VObj flat_document) |}
              flat_document eq_refl eq_refl eq_refl eq_refl eq_refl eq_refl eq_refl)
    as ((result & Hr & Hv & Hd & Hn & _) & Hg).
  split; [| exact Hg].
  exists result. repeat split; assumption.
Defined.

Lemma undecodable_body_elsewhere_witness :
  snd (deleteVariant example_client example_id (inr undecodable_response))
  = inl (HostThrown (HostError "Unexpected token < in JSON at position 0" None)) /\
  snd (cancelProcessing example_client example_id (inr undecodable_response))
  = inr tt.
Proof.
  destruct (undecodable_body_elsewhere ZNum
              (mock_world [] "processing" (ok_response example_chunks))
              example_client (zn 1) example_id 1 undecodable_response
              (HostError "Unexpected token < in JSON at position 0" None)
              eq_refl)
    as (_ & _ & _ & _ & Hd & _ & _ & _ & _ & Hc);
    try reflexivity; try lia.
  split; [exact Hd | exact Hc].
Defined.

Lemma waitForProcessing_no_attempt_ceiling_witness :
  exists st' s',
    waitForProcessing (variant_world [] "processing" frozen_clock) example_client
      500 example_id None tt no_effects = (OutOfFuel, st', s') /\
    count_fetch Status (trace s') = 500%nat.
Proof.
  destruct (waitForProcessing_no_attempt_ceiling ZNum
              (variant_world [] "processing" frozen_clock) example_client unit
              example_id None tt 500)
    as (st' & s' & Hrun & Hc & _).
  - reflexivity.
  - intros variant st. exists (variant, st). reflexivity.
  - intros variant st variant' st' H. injection H as <- _. reflexivity.
  - intros k. destruct k; reflexivity.
  - intros k. reflexivity.
  - exists st', s'. split; assumption.
Defined.

Lemma waitForProcessing_stops_after_maxWait_witness :
  fst (fst (waitForProcessing
              (variant_world [] "processing" seconds_clock)
              example_client 4 example_id three_seconds tt no_effects))
  <> OutOfFuel /\
  (count_fetch Status
     (trace (snd (waitForProcessing
                    (variant_world [] "processing" seconds_clock)
                    example_client 4 example_id three_seconds tt no_effects)))
   <= 4)%nat.
Proof.
  apply (waitForProcessing_stops_after_maxWait ZNum
           (variant_world [] "processing" seconds_clock)
           example_client unit example_id three_seconds tt 4 4).
  - apply Nat.leb_le. reflexivity.
  - reflexivity.
  - apply Nat.leb_le. reflexivity.
Defined.

Lemma waitForProcessing_outcome_witness :
  exists variant,
    fst (fst (waitForProcessing
                (variant_world ["processing"; "completed"] "completed"
                   seconds_clock)
                example_client 2 example_id recording [] no_effects))
    = Returned variant /\
    prop variant "status" = VStr "completed" /\
    length (snd (fst (waitForProcessing
                        (variant_world ["processing"; "completed"] "completed"
                           seconds_clock)
                        example_client 2 example_id recording [] no_effects)))
    = 2%nat.
Proof.
  edestruct (waitForProcessing_outcome ZNum
               (variant_world ["processing"; "completed"] "completed"
                  seconds_clock)
               example_client (list (value ZNum)) example_id recording [] 2 1)
    as (_ & Hst & Hout).
  - reflexivity.
  - intros variant st. eexists. reflexivity.
  - intros variant st variant' st' H. injection H as <- _. reflexivity.
  - intros i Hi. destruct i as [| i]; [reflexivity | lia].
  - intros i Hi. destruct i as [| i]; [reflexivity | lia].
  - reflexivity.
  - reflexivity.
  - apply Nat.ltb_lt. reflexivity.
  - eexists. split; [exact Hout |]. split; [reflexivity |].
    rewrite Hst. reflexivity.
Defined.
